(** * Mortality dashboard (app.py): schema normaliser and filter/aggregate engine

    A shallow embedding of the Streamlit script [app.py].

    - Column names and clinic labels are byte strings; [strip] and [lower]
      follow Python on the ASCII range.
    - A DataFrame is a header plus rows of cells.  [pd.read_csv] delivers
      every cell as text or as a missing value; numeric coercion happens in
      [to_numeric].
    - Floating point numbers are idealised as exact rationals ([Q]); a
      missing number (NaN / <NA>) is [None].
    - Clinic labels are the text of their cells, so a clinic column of
      numbers is grouped and listed by its text.  Columns other than the
      four canonical ones are carried by the frame but not by the canonical
      records.
    - What the script prints is a list of page elements; [st.stop] and an
      uncaught exception both end the run (see [halt]).  The widgets are
      taken to accept what they are given: [st.dataframe] on a frame with
      a repeated label and [st.slider] on a single year are not modelled
      as failures, and integers are unbounded.
    - The behaviour of the libraries underneath that the script does not
      fix (the float parser, the order in which an unstable sort leaves
      equal keys, [repr] of a string) is collected in the class [Runtime]. *)

From Stdlib Require Import String Ascii List ZArith QArith Qround Qabs Bool Lia.
From Stdlib Require Import Permutation Sorted DecimalString.
Import ListNotations.

Local Open Scope string_scope.
Local Open Scope list_scope.

(** ** Python strings on the ASCII range *)

Module Py.

(** [str.isspace] for one character: TAB..CR, FS..US and the blank. *)
Definition isspace (c : ascii) : bool :=
  let n := nat_of_ascii c in
  ((9 <=? n) && (n <=? 13) || (28 <=? n) && (n <=? 32))%nat.

Fixpoint lstrip (s : string) : string :=
  match s with
  | EmptyString => EmptyString
  | String c s' => if isspace c then lstrip s' else s
  end.

(** Drop trailing white space: a character is kept when something
    non-blank follows it or it is itself non-blank. *)
Fixpoint rstrip (s : string) : string :=
  match s with
  | EmptyString => EmptyString
  | String c s' =>
      match rstrip s' with
      | EmptyString => if isspace c then EmptyString else String c EmptyString
      | r => String c r
      end
  end.

Definition strip (s : string) : string := rstrip (lstrip s).

Definition lower_char (c : ascii) : ascii :=
  let n := nat_of_ascii c in
  if ((65 <=? n) && (n <=? 90))%nat then ascii_of_nat (n + 32) else c.

Fixpoint lower (s : string) : string :=
  match s with
  | EmptyString => EmptyString
  | String c s' => String (lower_char c) (lower s')
  end.

(** [s.replace(a, b)] for one-character [a] and [b]. *)
Fixpoint replace_char (a b : ascii) (s : string) : string :=
  match s with
  | EmptyString => EmptyString
  | String c s' => String (if Ascii.eqb c a then b else c) (replace_char a b s')
  end.

(** [x in xs] on a list (or an Index) of strings: exact equality. *)
Fixpoint contains (xs : list string) (x : string) : bool :=
  match xs with
  | [] => false
  | y :: ys => String.eqb x y || contains ys x
  end.

(** [sep.join(xs)] *)
Fixpoint join (sep : string) (xs : list string) : string :=
  match xs with
  | [] => ""
  | [x] => x
  | x :: rest => x ++ sep ++ join sep rest
  end.

End Py.

(** ** Helpers: column normalisation and detection (app.py 16-28) *)

(** [df.columns.str.strip().str.lower().str.replace(" ", "_")], one name. *)
Definition normalize_name (s : string) : string :=
  Py.replace_char " "%char "_"%char (Py.lower (Py.strip s)).

(** [find_first(df_cols, candidates)]: the first candidate that is a column. *)
Fixpoint find_first (df_cols candidates : list string) : option string :=
  match candidates with
  | [] => None
  | c :: rest => if Py.contains df_cols c then Some c else find_first df_cols rest
  end.

Definition year_aliases : list string := ["year"; "yr"].
Definition death_aliases : list string :=
  ["deaths"; "death"; "deaths_count"; "death_count"].
Definition birth_aliases : list string :=
  ["births"; "birth"; "birth_count"; "births_count"].
Definition clinic_aliases : list string :=
  ["clinic"; "hospital"; "place"; "location"].

Example normalize_name_ex : normalize_name "  Death Count " = "death_count".
Proof. reflexivity. Qed.

Example find_first_ex :
  find_first ["year"; "death_count"; "deaths"] death_aliases = Some "deaths".
Proof. reflexivity. Qed.

(** ** Cells, frames and the libraries underneath *)

(** A cell of a DataFrame: text, a float, a nullable integer, or missing. *)
Inductive value :=
| Str (s : string)
| Float (q : Q)
| Int (z : Z)
| NA.

(** [df.attrs["cols_map"]]: which source column plays which role. *)
Record ColsMap := {
  cm_year : option string;
  cm_deaths : option string;
  cm_births : option string;
  cm_clinic : option string
}.

Record DataFrame := {
  columns : list string;
  rows : list (list value);
  attrs : option ColsMap
}.

(** The file as [pd.read_csv] sees it: a header and lines of cells, an empty
    cell being [None]. *)
Record RawFrame := {
  header : list string;
  lines : list (list (option string))
}.

Inductive exn :=
| FileNotFoundError
| EmptyDataError
| KeyError
| TypeError
| AttributeError.

Definition exn_eqb (a b : exn) : bool :=
  match a, b with
  | FileNotFoundError, FileNotFoundError
  | EmptyDataError, EmptyDataError
  | KeyError, KeyError
  | TypeError, TypeError
  | AttributeError, AttributeError => true
  | _, _ => false
  end.

(** What the script leaves open.  [parse_float] is the per-cell parser of
    [pd.to_numeric]; [repr] is Python's [repr] on [str]; [sort_desc] is the
    descending sort behind [sort_values(..., ascending=False)] with the
    default [kind="quicksort"], which promises a sorted rearrangement and
    nothing about the order of equal keys. *)
Class Runtime := {
  parse_float : string -> option Q;
  repr : string -> string;
  sort_desc : forall A : Type, (A -> Q) -> list A -> list A;
  sort_desc_perm : forall (A : Type) (k : A -> Q) (l : list A),
      Permutation l (sort_desc A k l);
  sort_desc_sorted : forall (A : Type) (k : A -> Q) (l : list A),
      StronglySorted (fun a b => (k b <= k a)%Q) (sort_desc A k l)
}.
Arguments sort_desc {_} {A} _ _.

(** ** The page: a writer of elements that can stop or raise *)

Inductive agg_func := agg_sum | agg_mean.
Inductive AggOption := Sum | Mean.

(** A canonical record (after the renaming of app.py 100-108). *)
Record Row := {
  year : option Z;
  deaths : option Q;
  births : option Q;
  clinic : option string
}.

Inductive chart :=
| line_chart (deaths_by_year : list (Z * option Q))
| comparison_chart (comp : list (Z * (option Q * option Q)))
| bar_chart (clinic_agg : list (string * option Q)).

Inductive element :=
| title
| markdown (what : string)
| error (msg : string)
| dataframe (data : list Row)
| altair_chart (c : chart)
| subheader (what : string)
| metric (label val : string)
| download_button (data : list Row).

Inductive halt :=
| Stop
| Raise (e : exn).

Definition script (A : Type) : Type := (list element * (halt + A))%type.

Definition ret {A} (a : A) : script A := ([], inr a).

Definition bind {A B} (m : script A) (k : A -> script B) : script B :=
  match m with
  | (out, inl h) => (out, inl h)
  | (out, inr a) => let (out', r) := k a in (out ++ out', r)
  end.

Declare Scope script_scope.
Delimit Scope script_scope with script.
Notation "x <- m ;; k" := (bind m (fun x => k))
  (at level 61, m at next level, right associativity) : script_scope.
Notation "m ;; k" := (bind m (fun _ => k))
  (at level 61, right associativity) : script_scope.

Definition emit (e : element) : script unit := ([e], inr tt).
Definition stop {A} : script A := ([], inl Stop).
Definition raise {A} (e : exn) : script A := ([], inl (Raise e)).

(** [try: m except e: handler] *)
Definition try_except {A} (m : script A) (e : exn) (handler : script A)
  : script A :=
  match m with
  | (out, inl (Raise e')) =>
      if exn_eqb e e' then let (out', r) := handler in (out ++ out', r) else m
  | _ => m
  end.

(** Python truthiness of [None] or a string. *)
Definition truthy (o : option string) : bool :=
  match o with
  | Some s => negb (String.eqb s "")
  | None => false
  end.

(** ** DataFrame operations used by the script *)

Fixpoint index_of (c : string) (cols : list string) : option nat :=
  match cols with
  | [] => None
  | x :: rest =>
      if String.eqb x c then Some O else option_map S (index_of c rest)
  end.

Definition cell (i : nat) (row : list value) : value := nth i row NA.

(** [df[c]]: a Series when the label is unique, a DataFrame when several
    columns carry it, a [KeyError] when none does. *)
Inductive item :=
| Series (v : list value)
| Frame
| Missing.

Definition getitem (df : DataFrame) (c : string) : item :=
  match index_of c (columns df) with
  | None => Missing
  | Some i =>
      if (count_occ string_dec (columns df) c =? 1)%nat
      then Series (map (cell i) (rows df))
      else Frame
  end.

Fixpoint set_nth (i : nat) (v : value) (row : list value) {struct row}
  : list value :=
  match row, i with
  | [], _ => []
  | _ :: r, O => v :: r
  | x :: r, S i' => x :: set_nth i' v r
  end.

(** Write a series into position [i], row by row.  The series the script
    assigns always has one value per row. *)
Fixpoint set_column (i : nat) (v : list value) (rows : list (list value))
  {struct rows} : list (list value) :=
  match rows, v with
  | r :: rows', x :: v' => set_nth i x r :: set_column i v' rows'
  | _, _ => rows
  end.

(** [df[c] = series] for an existing, unique label [c]. *)
Definition setitem (df : DataFrame) (c : string) (v : list value) : DataFrame :=
  match index_of c (columns df) with
  | None => df
  | Some i =>
      {| columns := columns df;
         rows := set_column i v (rows df);
         attrs := attrs df |}
  end.

(** A row cut or padded to the width of the header. *)
Fixpoint fit (cols : list string) (row : list value) : list value :=
  match cols with
  | [] => []
  | _ :: cols' => hd NA row :: fit cols' (tl row)
  end.

Fixpoint overwrite (cols : list string) (c : string) (v : value)
  (row : list value) : list value :=
  match cols with
  | [] => []
  | x :: cols' =>
      (if String.eqb x c then v else hd NA row) :: overwrite cols' c v (tl row)
  end.

(** [df[c] = v] for a scalar [v]: every column labelled [c] is overwritten,
    or a new last column is added. *)
Definition assign_const (df : DataFrame) (c : string) (v : value) : DataFrame :=
  if Py.contains (columns df) c
  then {| columns := columns df;
          rows := map (overwrite (columns df) c v) (rows df);
          attrs := attrs df |}
  else {| columns := columns df ++ [c];
          rows := map (fun r => fit (columns df) r ++ [v]) (rows df);
          attrs := attrs df |}.

(** [df.rename(columns=mapping)] with the mapping as an association list. *)
Fixpoint lookup (m : list (string * string)) (c : string) : option string :=
  match m with
  | [] => None
  | (k, v) :: rest => if String.eqb k c then Some v else lookup rest c
  end.

Definition rename (df : DataFrame) (m : list (string * string)) : DataFrame :=
  {| columns := map (fun c => match lookup m c with Some c' => c' | None => c end)
                    (columns df);
     rows := rows df;
     attrs := attrs df |}.

Definition is_integral (q : Q) : bool := Qeq_bool q (inject_Z (Qfloor q)).

Section WithRuntime.
Context {RT : Runtime}.
Local Open Scope script_scope.

(** [pd.to_numeric(_, errors="coerce")] on one cell: text that does not
    parse becomes missing. *)
Definition to_numeric_cell (v : value) : value :=
  match v with
  | Str s => match parse_float s with Some q => Float q | None => NA end
  | _ => v
  end.

(** [pd.to_numeric(df[c], errors="coerce")]; a DataFrame argument is
    rejected with [TypeError]. *)
Definition to_numeric (it : item) : script (list value) :=
  match it with
  | Series v => ret (map to_numeric_cell v)
  | Frame => raise TypeError
  | Missing => raise KeyError
  end.

(** [.astype("Int64")] on one cell; a float with a fractional part cannot
    be cast safely. *)
Definition astype_Int64_cell (v : value) : option value :=
  match v with
  | Float q => if is_integral q then Some (Int (Qfloor q)) else None
  | Int z => Some (Int z)
  | NA => Some NA
  | Str _ => None
  end.

Fixpoint astype_Int64 (v : list value) : script (list value) :=
  match v with
  | [] => ret []
  | x :: rest =>
      match astype_Int64_cell x with
      | None => raise TypeError
      | Some y => ys <- astype_Int64 rest ;; ret (y :: ys)
      end
  end.

(** The frame [pd.read_csv] builds from the file. *)
Definition of_raw (raw : RawFrame) : DataFrame :=
  {| columns := header raw;
     rows := map (map (fun c => match c with
                                | Some s => Str s
                                | None => NA
                                end)) (lines raw);
     attrs := None |}.

(** [pd.read_csv(path)] *)
Definition read_csv (file : exn + RawFrame) : script DataFrame :=
  match file with
  | inl e => raise e
  | inr raw => ret (of_raw raw)
  end.

(** app.py 16-19 *)
Definition normalize_columns (df : DataFrame) : DataFrame :=
  {| columns := map normalize_name (columns df);
     rows := rows df;
     attrs := attrs df |}.

(** app.py 30-57 *)
Definition load_data (file : exn + RawFrame) : script DataFrame :=
  df <- read_csv file ;;
  let df := normalize_columns df in
  let year_col := find_first (columns df) year_aliases in
  let death_col := find_first (columns df) death_aliases in
  let birth_col := find_first (columns df) birth_aliases in
  let clinic_col := find_first (columns df) clinic_aliases in
  df <- match year_col with
        | Some c =>
            if truthy year_col then
              v <- to_numeric (getitem df c) ;;
              v <- astype_Int64 v ;;
              ret (setitem df c v)
            else ret df
        | None => ret df
        end ;;
  df <- match death_col with
        | Some c =>
            if truthy death_col then
              v <- to_numeric (getitem df c) ;; ret (setitem df c v)
            else ret df
        | None => ret df
        end ;;
  df <- match birth_col with
        | Some c =>
            if truthy birth_col then
              v <- to_numeric (getitem df c) ;; ret (setitem df c v)
            else ret df
        | None => ret df
        end ;;
  ret {| columns := columns df;
         rows := rows df;
         attrs := Some {| cm_year := year_col;
                          cm_deaths := death_col;
                          cm_births := birth_col;
                          cm_clinic := clinic_col |} |}.

End WithRuntime.

(** ** Filter and aggregate engine (app.py 118-183) *)

(** [dropna()] on a column. *)
Definition present {A} (vs : list (option A)) : list A :=
  flat_map (fun o => match o with Some a => [a] | None => [] end) vs.

(** Left-to-right accumulation of a column of numbers. *)
Definition Qsum (qs : list Q) : Q := fold_left Qplus qs 0%Q.

Definition count (vs : list (option Q)) : nat := length (present vs).

(** The two reducers, both skipping missing values.  The sum of nothing is
    0; the mean of nothing is missing. *)
Definition agg (f : agg_func) (vs : list (option Q)) : option Q :=
  match f with
  | agg_sum => Some (Qsum (present vs))
  | agg_mean =>
      match count vs with
      | O => None
      | n => Some (Qsum (present vs) / inject_Z (Z.of_nat n))%Q
      end
  end.

Fixpoint insert {A} (leb : A -> A -> bool) (x : A) (l : list A) : list A :=
  match l with
  | [] => [x]
  | y :: l' => if leb x y then x :: l else y :: insert leb x l'
  end.

(** Insertion sort; with a reflexive [leb] equal elements keep their order. *)
Definition sort {A} (leb : A -> A -> bool) (l : list A) : list A :=
  fold_right (insert leb) [] l.

(** [sorted(col.dropna().unique())], also the group labels of [groupby]. *)
Definition year_keys (df : list Row) : list Z :=
  sort Z.leb (nodup Z.eq_dec (present (map year df))).

Definition clinic_keys (df : list Row) : list string :=
  sort String.leb (nodup string_dec (present (map clinic df))).

Definition has_year (y : Z) (r : Row) : bool :=
  match year r with Some y' => (y' =? y)%Z | None => false end.

Definition has_clinic (c : string) (r : Row) : bool :=
  match clinic r with Some c' => String.eqb c' c | None => false end.

(** The mask [(df["year"] >= lo) & (df["year"] <= hi)]; a comparison with a
    missing year is missing and selects nothing. *)
Definition in_range (year_range : Z * Z) (r : Row) : bool :=
  match year r with
  | Some y => ((fst year_range <=? y) && (y <=? snd year_range))%Z
  | None => false
  end.

(** [filtered["clinic"].isin(selected_clinics)] *)
Definition isin (selected_clinics : list string) (r : Row) : bool :=
  match clinic r with
  | Some c => Py.contains selected_clinics c
  | None => false
  end.

(** app.py 132-134 *)
Definition filtered (df : list Row) (year_range : Z * Z)
  (selected_clinics : list string) : list Row :=
  let filtered := filter (in_range year_range) df in
  match selected_clinics with
  | [] => filtered
  | _ :: _ => filter (isin selected_clinics) filtered
  end.

(** app.py 140: [groupby("year")["deaths"].agg(agg_func).reset_index()] *)
Definition deaths_by_year (f : agg_func) (filtered : list Row)
  : list (Z * option Q) :=
  map (fun y => (y, agg f (map deaths (filter (has_year y) filtered))))
      (year_keys filtered).

(** app.py 150, before [melt]. *)
Definition comp (f : agg_func) (filtered : list Row)
  : list (Z * (option Q * option Q)) :=
  map (fun y => let g := filter (has_year y) filtered in
                (y, (agg f (map deaths g), agg f (map births g))))
      (year_keys filtered).

(** [groupby("clinic")["deaths"].agg(agg_func).reset_index()] *)
Definition deaths_by_clinic (f : agg_func) (filtered : list Row)
  : list (string * option Q) :=
  map (fun c => (c, agg f (map deaths (filter (has_clinic c) filtered))))
      (clinic_keys filtered).

Definition is_some {A} (o : option A) : bool :=
  match o with Some _ => true | None => false end.

Definition or_zero (o : option Q) : Q :=
  match o with Some q => q | None => 0%Q end.

(** [sort_values(by, ascending=False)]: the rows with a value, sorted
    descending, then the rows without one in their original order
    ([na_position="last"]). *)
Definition sort_values_desc {RT : Runtime} {A} (by_ : A -> option Q)
  (l : list A) : list A :=
  sort_desc (fun a => or_zero (by_ a)) (filter (fun a => is_some (by_ a)) l)
  ++ filter (fun a => negb (is_some (by_ a))) l.

(** app.py 159 *)
Definition clinic_agg {RT : Runtime} (f : agg_func) (filtered : list Row)
  : list (string * option Q) :=
  sort_values_desc snd (deaths_by_clinic f filtered).

(** app.py 179 and 182 *)
Definition total_deaths (f : agg_func) (filtered : list Row) : option Q :=
  agg f (map deaths filtered).

Definition total_births (f : agg_func) (filtered : list Row) : option Q :=
  agg f (map births filtered).

(** Round to the nearest integer, halves to even (for [q >= 0]). *)
Definition round_half_even (q : Q) : Z :=
  let n := Qfloor q in
  match Qcompare (q - inject_Z n) (1 # 2) with
  | Lt => n
  | Gt => (n + 1)%Z
  | Eq => if Z.even n then n else (n + 1)%Z
  end.

(** [f"{x:.0f}"] *)
Definition format_0f (x : option Q) : string :=
  match x with
  | None => "nan"
  | Some q =>
      (if Qle_bool 0 q then "" else "-")
      ++ NilZero.string_of_uint (N.to_uint (Z.to_N (round_half_even (Qabs q))))
  end.

(** [series.min()] and [series.max()] of a nullable integer column. *)
Definition series_min (v : list (option Z)) : option Z :=
  match present v with
  | [] => None
  | z :: zs => Some (fold_left Z.min zs z)
  end.

Definition series_max (v : list (option Z)) : option Z :=
  match present v with
  | [] => None
  | z :: zs => Some (fold_left Z.max zs z)
  end.

(** [int(x)]: the missing value has no integer. *)
Definition py_int (x : option Z) : script Z :=
  match x with
  | Some z => ret z
  | None => raise TypeError
  end.

(** ** The script (app.py 62-209) *)

(** What the user does with the three sidebar widgets.  [slider lo hi] is
    the chosen range between the bounds, [multiselect options default] and
    [selectbox] the chosen clinics and aggregation. *)
Record Controls := {
  slider : Z -> Z -> Z * Z;
  multiselect : list string -> list string -> list string;
  selectbox : AggOption
}.

(** A visitor who touches nothing gets every widget's default. *)
Definition untouched : Controls :=
  {| slider := fun min_year max_year => (min_year, max_year);
     multiselect := fun _ default => default;
     selectbox := Sum |}.

Definition get (o : option string) : string :=
  match o with Some s => s | None => "" end.

(** A Python dict literal read as a renaming: later entries win. *)
Fixpoint dict (entries : list (string * string)) : list (string * string) :=
  match entries with
  | [] => []
  | e :: rest => dict rest ++ [e]
  end.

Definition as_int (v : value) : option Z :=
  match v with Int z => Some z | _ => None end.

Definition as_float (v : value) : option Q :=
  match v with
  | Float q => Some q
  | Int z => Some (inject_Z z)
  | _ => None
  end.

Definition as_label (v : value) : option string :=
  match v with Str s => Some s | _ => None end.

Definition column (df : DataFrame) (c : string) (row : list value) : value :=
  match index_of c (columns df) with
  | Some i => cell i row
  | None => NA
  end.

(** The four canonical fields of every row of the renamed frame. *)
Definition to_rows (df : DataFrame) : list Row :=
  map (fun r => {| year := as_int (column df "year" r);
                   deaths := as_float (column df "deaths" r);
                   births := as_float (column df "births" r);
                   clinic := as_label (column df "clinic" r) |})
      (rows df).

Definition not_found_msg : string :=
  "CSV yearly_deaths_by_clinic.csv not found. Put it in the repo root and redeploy.".

Definition required_msg : string :=
  "Required columns not found. CSV needs at least a Year column and a Deaths column. ".

Section Script.
Context {RT : Runtime}.
Local Open Scope script_scope.

(** [str(list_of_strings)] *)
Definition list_repr (xs : list string) : string :=
  "[" ++ Py.join ", " (map repr xs) ++ "]".

(** app.py 87-92 *)
Definition schema_invalid {A} (df : DataFrame) : script A :=
  emit (error (required_msg ++ "Detected columns: " ++ list_repr (columns df))) ;;
  stop.

(** app.py 94-102: placeholder clinic and the standard internal names. *)
Definition standard_names (df : DataFrame) (YEAR_COL DEATHS_COL : string)
  (BIRTHS_COL CLINIC_COL : option string) : DataFrame :=
  let '(df, CLINIC_COL) :=
    if negb (truthy CLINIC_COL)
    then (assign_const df "clinic_placeholder" (Str "All"), "clinic_placeholder")
    else (df, get CLINIC_COL) in
  let df := rename df (dict [(YEAR_COL, "year"); (DEATHS_COL, "deaths");
                             (CLINIC_COL, "clinic")]) in
  if truthy BIRTHS_COL
  then rename df (dict [(get BIRTHS_COL, "births")])
  else df.

(** app.py 104-108: ensure types. *)
Definition ensure_types (df : DataFrame) : script DataFrame :=
  v <- to_numeric (getitem df "year") ;;
  v <- astype_Int64 v ;;
  let df := setitem df "year" v in
  v <- to_numeric (getitem df "deaths") ;;
  let df := setitem df "deaths" v in
  if Py.contains (columns df) "births"
  then v <- to_numeric (getitem df "births") ;; ret (setitem df "births" v)
  else ret df.

(** app.py 94-108 *)
Definition canonical (df : DataFrame) (YEAR_COL DEATHS_COL : string)
  (BIRTHS_COL CLINIC_COL : option string) : script DataFrame :=
  ensure_types (standard_names df YEAR_COL DEATHS_COL BIRTHS_COL CLINIC_COL).

(** app.py 74-108: load, check the schema, normalise. *)
Definition prepare (file : exn + RawFrame) : script DataFrame :=
  df <- try_except (load_data file) FileNotFoundError
          (emit (error not_found_msg) ;; stop) ;;
  let YEAR_COL := match attrs df with Some m => cm_year m | None => None end in
  let DEATHS_COL := match attrs df with Some m => cm_deaths m | None => None end in
  let BIRTHS_COL := match attrs df with Some m => cm_births m | None => None end in
  let CLINIC_COL := match attrs df with Some m => cm_clinic m | None => None end in
  if negb (truthy YEAR_COL) || negb (truthy DEATHS_COL)
  then schema_invalid df
  else canonical df (get YEAR_COL) (get DEATHS_COL) BIRTHS_COL CLINIC_COL.

(** app.py 123 *)
Definition clinic_list (df : DataFrame) : script (list string) :=
  match getitem df "clinic" with
  | Series v => ret (sort String.leb (nodup string_dec (present (map as_label v))))
  | Frame => raise AttributeError
  | Missing => raise KeyError
  end.

(** app.py 126-183: aggregation, charts and summary of the filtered rows. *)
Definition report (has_births : bool) (agg_option : AggOption)
  (filtered : list Row) : script unit :=
  let agg_func := match agg_option with Sum => agg_sum | Mean => agg_mean end in
  let line := line_chart (deaths_by_year agg_func filtered) in
  let comparison :=
    if has_births then Some (comparison_chart (comp agg_func filtered))
    else None in
  let bar := bar_chart (clinic_agg agg_func filtered) in
  emit (altair_chart line) ;;
  match comparison with
  | Some c => emit (altair_chart c)
  | None => ret tt
  end ;;
  emit (altair_chart bar) ;;
  emit (subheader "Summary statistics") ;;
  emit (metric "Deaths (aggregated)" (format_0f (total_deaths agg_func filtered))) ;;
  if has_births
  then emit (metric "Births (aggregated)" (format_0f (total_births agg_func filtered)))
  else ret tt.

(** app.py 110-204: everything after the frame is canonical. *)
Definition dashboard (df : DataFrame) (ui : Controls) : script unit :=
  emit (markdown "## Raw Data Preview") ;;
  emit (dataframe (firstn 20 (to_rows df))) ;;
  min_year <- py_int (series_min (map year (to_rows df))) ;;
  max_year <- py_int (series_max (map year (to_rows df))) ;;
  let year_range := slider ui min_year max_year in
  clinic_list <- clinic_list df ;;
  let selected_clinics := multiselect ui clinic_list (firstn 3 clinic_list) in
  let agg_option := selectbox ui in
  let filtered := filtered (to_rows df) year_range selected_clinics in
  report (Py.contains (columns df) "births") agg_option filtered ;;
  emit (markdown "### Findings") ;;
  emit (markdown "findings") ;;
  emit (dataframe filtered) ;;
  emit (download_button filtered) ;;
  emit (markdown "notes").

Definition app_py (file : exn + RawFrame) (ui : Controls) : script unit :=
  emit title ;;
  emit (markdown "description") ;;
  df <- prepare file ;;
  dashboard df ui.

End Script.

(** ** A runtime to run the script on *)

Definition digit (c : ascii) : option Z :=
  let n := nat_of_ascii c in
  if ((48 <=? n) && (n <=? 57))%nat then Some (Z.of_nat (n - 48)) else None.

(** Digits with at most one decimal point. *)
Fixpoint parse_unsigned (s : string) (num : Z) (den : positive)
  (frac any : bool) : option Q :=
  match s with
  | EmptyString => if any then Some (num # den) else None
  | String c s' =>
      match digit c with
      | Some d =>
          parse_unsigned s' (10 * num + d)
            (if frac then (10 * den)%positive else den) frac true
      | None =>
          if Ascii.eqb c "."%char && negb frac
          then parse_unsigned s' num den true any
          else None
      end
  end.

(** Plain decimal numerals, the part of the float grammar the examples use. *)
Definition parse_decimal (s : string) : option Q :=
  match s with
  | String "-"%char s' => option_map Qopp (parse_unsigned s' 0 1 false false)
  | _ => parse_unsigned s 0 1 false false
  end.

(** [repr] of a string without quotes, backslashes or control characters. *)
Definition quote (s : string) : string := "'" ++ s ++ "'".

(** Descending insertion sort; equal keys keep their order. *)
Definition sort_desc_stable (A : Type) (k : A -> Q) (l : list A) : list A :=
  sort (fun a b => Qle_bool (k b) (k a)) l.

(** ** Properties of the sorting helpers *)

Lemma insert_perm {A} (leb : A -> A -> bool) (x : A) (l : list A) :
  Permutation (x :: l) (insert leb x l).
Proof.
  induction l as [|y l IH]; simpl.
  - apply Permutation_refl.
  - destruct (leb x y).
    + apply Permutation_refl.
    + eapply perm_trans; [apply perm_swap|].
      apply perm_skip, IH.
Qed.

Lemma sort_perm {A} (leb : A -> A -> bool) (l : list A) :
  Permutation l (sort leb l).
Proof.
  induction l as [|x l IH]; simpl.
  - constructor.
  - eapply perm_trans; [apply perm_skip, IH|].
    apply insert_perm.
Qed.

Section Sorted.
Context {A : Type} (leb : A -> A -> bool) (R : A -> A -> Prop).
Hypothesis leb_true : forall x y, leb x y = true -> R x y.
Hypothesis leb_false : forall x y, leb x y = false -> R y x.
Hypothesis R_trans : forall x y z, R x y -> R y z -> R x z.

Lemma insert_sorted (x : A) (l : list A) :
  StronglySorted R l -> StronglySorted R (insert leb x l).
Proof.
  induction 1 as [|y l Hs IH Hy]; simpl.
  - repeat constructor.
  - destruct (leb x y) eqn:E.
    + constructor; [constructor; assumption|].
      constructor; [now apply leb_true|].
      eapply Forall_impl; [|exact Hy].
      intros z Hz. eapply R_trans; [apply leb_true, E|exact Hz].
    + constructor; [exact IH|].
      eapply Permutation_Forall; [apply insert_perm|].
      constructor; [now apply leb_false|exact Hy].
Qed.

Lemma sort_sorted (l : list A) : StronglySorted R (sort leb l).
Proof.
  induction l as [|x l IH]; simpl.
  - constructor.
  - now apply insert_sorted.
Qed.
End Sorted.

Lemma sort_desc_stable_sorted (A : Type) (k : A -> Q) (l : list A) :
  StronglySorted (fun a b => (k b <= k a)%Q) (sort_desc_stable A k l).
Proof.
  apply sort_sorted.
  - intros x y H. now apply Qle_bool_iff.
  - intros x y H.
    destruct (Qlt_le_dec (k x) (k y)) as [Hlt|Hle].
    + now apply Qlt_le_weak.
    + apply Qle_bool_iff in Hle. congruence.
  - intros x y z Hxy Hyz. eapply Qle_trans; eassumption.
Qed.

(** Ties left in group order, as a stable sort would. *)
Definition stable_runtime : Runtime :=
  {| parse_float := parse_decimal;
     repr := quote;
     sort_desc := sort_desc_stable;
     sort_desc_perm := fun A k l => sort_perm _ l;
     sort_desc_sorted := sort_desc_stable_sorted |}.

(** ** The examples of the specification *)

Definition rec (y : Z) (d : Z) (c : string) : Row :=
  {| year := Some y; deaths := Some (inject_Z d); births := None;
     clinic := Some c |}.

Definition sample : list Row :=
  [rec 1854 10 "A"; rec 1854 20 "B"; rec 1855 5 "A"].

(** A record whose year did not parse. *)
Definition undated : Row :=
  {| year := None; deaths := Some 7%Q; births := None; clinic := Some "A" |}.

(** ** The script monad *)

Lemma bind_inr {A B} (m : script A) (k : A -> script B) out b :
  bind m k = (out, inr b) ->
  exists o1 a o2, m = (o1, inr a) /\ k a = (o2, inr b) /\ out = o1 ++ o2.
Proof.
  unfold bind. destruct m as [o1 [h|a]]; [discriminate|].
  destruct (k a) as [o2 r] eqn:E. intros H. inversion H; subst.
  exists o1, a, o2. auto.
Qed.

Lemma bind_ret_l {A B} (a : A) (k : A -> script B) : bind (ret a) k = k a.
Proof. unfold bind, ret. destruct (k a). reflexivity. Qed.

Lemma ret_inr {A} (a b : A) out : ret a = (out, inr b) -> a = b /\ out = [].
Proof. unfold ret. intros H. inversion H. split; reflexivity. Qed.

(** ** Column detection *)

Lemma contains_In (xs : list string) (x : string) :
  Py.contains xs x = true <-> In x xs.
Proof.
  induction xs as [|y ys IH]; simpl.
  - split; [discriminate|tauto].
  - rewrite orb_true_iff, IH, String.eqb_eq. split; intros [H|H]; auto.
Qed.

Lemma contains_false (xs : list string) (x : string) :
  Py.contains xs x = false <-> ~ In x xs.
Proof.
  rewrite <- contains_In. destruct (Py.contains xs x); split; congruence.
Qed.

(** [c] is the first of [candidates] that is a column. *)
Definition first_present (df_cols candidates : list string) (c : string) : Prop :=
  exists before after,
    candidates = before ++ c :: after /\
    In c df_cols /\
    forall x, In x before -> ~ In x df_cols.

Lemma find_first_Some (df_cols candidates : list string) (c : string) :
  find_first df_cols candidates = Some c <-> first_present df_cols candidates c.
Proof.
  induction candidates as [|x rest IH]; simpl.
  - split; [discriminate|]. intros (b & a & H & _). now destruct b.
  - destruct (Py.contains df_cols x) eqn:E.
    + apply contains_In in E. split.
      * intros H. inversion H; subst. exists [], rest. simpl. tauto.
      * intros (b & a & H & Hc & Hb). destruct b as [|y b]; simpl in H.
        -- inversion H. reflexivity.
        -- inversion H; subst. exfalso. apply (Hb y); simpl; auto.
    + apply contains_false in E. rewrite IH. split.
      * intros (b & a & H & Hc & Hb). exists (x :: b), a. subst. simpl.
        repeat split; auto. intros y [<-|Hy]; auto.
      * intros (b & a & H & Hc & Hb). destruct b as [|y b]; simpl in H.
        -- inversion H; subst. contradiction.
        -- inversion H; subst. exists b, a. repeat split; auto.
           intros z Hz. apply Hb. simpl. auto.
Qed.

Lemma find_first_None (df_cols candidates : list string) :
  find_first df_cols candidates = None <->
  forall x, In x candidates -> ~ In x df_cols.
Proof.
  induction candidates as [|x rest IH]; simpl.
  - split; [intros _ x []|reflexivity].
  - destruct (Py.contains df_cols x) eqn:E.
    + apply contains_In in E. split; [discriminate|].
      intros H. exfalso. apply (H x); auto.
    + apply contains_false in E. rewrite IH. split.
      * intros H y [<-|Hy]; auto.
      * intros H y Hy. apply H. auto.
Qed.

Lemma find_first_In (df_cols candidates : list string) (c : string) :
  find_first df_cols candidates = Some c -> In c candidates /\ In c df_cols.
Proof.
  intros H. apply find_first_Some in H. destruct H as (b & a & -> & Hc & _).
  split; [apply in_elt|exact Hc].
Qed.

(** ** What [load_data] returns *)

Lemma setitem_columns (df : DataFrame) (c : string) (v : list value) :
  columns (setitem df c v) = columns df.
Proof. unfold setitem. destruct (index_of c (columns df)); reflexivity. Qed.

Lemma setitem_attrs (df : DataFrame) (c : string) (v : list value) :
  attrs (setitem df c v) = attrs df.
Proof. unfold setitem. destruct (index_of c (columns df)); reflexivity. Qed.

(** ** Frames: what an assignment leaves alone *)

(** The column at position [i]. *)
Definition col_at (df : DataFrame) (i : nat) : list value :=
  map (cell i) (rows df).

Lemma cell_set_nth_other (i j : nat) (v : value) (row : list value) :
  i <> j -> cell i (set_nth j v row) = cell i row.
Proof.
  unfold cell. revert i j. induction row as [|x row IH]; intros i j H.
  - reflexivity.
  - destruct j as [|j]; destruct i as [|i]; simpl; try reflexivity.
    + congruence.
    + apply IH. congruence.
Qed.

Lemma set_column_other (i j : nat) (v : list value) (rs : list (list value)) :
  i <> j -> map (cell i) (set_column j v rs) = map (cell i) rs.
Proof.
  intros H. revert v. induction rs as [|r rs IH]; intros v.
  - reflexivity.
  - destruct v as [|x v]; simpl; [reflexivity|].
    now rewrite cell_set_nth_other, IH.
Qed.

Lemma index_of_nth_error (c : string) (cols : list string) (i : nat) :
  index_of c cols = Some i -> nth_error cols i = Some c.
Proof.
  revert i. induction cols as [|x cols IH]; simpl; intros i H; [discriminate|].
  destruct (String.eqb_spec x c) as [->|Hne].
  - inversion H. reflexivity.
  - destruct (index_of c cols) as [j|]; [|discriminate].
    inversion H. simpl. now apply IH.
Qed.

Lemma index_of_In (c : string) (cols : list string) :
  In c cols -> exists i, index_of c cols = Some i.
Proof.
  induction cols as [|x cols IH]; simpl; [tauto|].
  intros H. destruct (String.eqb_spec x c) as [->|Hne]; [eauto|].
  destruct H as [H|H]; [contradiction|].
  destruct (IH H) as [i ->]. simpl. eauto.
Qed.

(** Renaming moves a label with its position. *)
Lemma index_of_map (f : string -> string) (t c : string) (cols : list string) :
  (forall x, In x cols -> (f x = t <-> x = c)) ->
  index_of t (map f cols) = index_of c cols.
Proof.
  induction cols as [|x cols IH]; simpl; intros H; [reflexivity|].
  rewrite IH by auto.
  destruct (String.eqb_spec (f x) t) as [E|E];
    destruct (String.eqb_spec x c) as [E'|E']; try reflexivity.
  - apply H in E; auto. contradiction.
  - apply H in E'; auto. contradiction.
Qed.

(** [df'] is [df] with new contents in columns labelled from [names] only. *)
Definition touches (names : list string) (df df' : DataFrame) : Prop :=
  columns df' = columns df /\
  attrs df' = attrs df /\
  forall i n, nth_error (columns df) i = Some n -> ~ In n names ->
              col_at df' i = col_at df i.

Lemma touches_refl (names : list string) (df : DataFrame) : touches names df df.
Proof. repeat split. Qed.

Lemma touches_trans (names : list string) (a b c : DataFrame) :
  touches names a b -> touches names b c -> touches names a c.
Proof.
  intros (C1 & A1 & H1) (C2 & A2 & H2). repeat split; try congruence.
  intros i n Hn Hin. rewrite (H2 i n); [now apply (H1 i n)|congruence|exact Hin].
Qed.

Lemma touches_setitem (names : list string) (df : DataFrame) (c : string)
  (v : list value) : In c names -> touches names df (setitem df c v).
Proof.
  intros Hc. unfold touches, setitem, col_at.
  destruct (index_of c (columns df)) as [j|] eqn:E; simpl; repeat split.
  intros i n Hn Hin. apply set_column_other. intros ->.
  apply index_of_nth_error in E. congruence.
Qed.

Section Coercion.
Context {RT : Runtime}.

Lemma to_numeric_inr (it : item) o v :
  to_numeric it = (o, inr v) -> o = [].
Proof.
  destruct it; simpl; unfold ret, raise; intros E; inversion E; reflexivity.
Qed.

Lemma astype_Int64_inr (v : list value) o v' :
  astype_Int64 v = (o, inr v') -> o = [].
Proof.
  revert o v'. induction v as [|x v IH]; simpl; intros o v' E.
  - apply ret_inr in E. tauto.
  - destruct (astype_Int64_cell x); [|discriminate].
    apply bind_inr in E. destruct E as (oa & ys & ob & Ea & Eb & ->).
    apply IH in Ea. apply ret_inr in Eb. destruct Eb as [_ ->].
    subst. reflexivity.
Qed.

(** Coercing one column to floats writes that column and prints nothing. *)
Lemma coerce_float_inv (d : DataFrame) (c : string) o d' :
  bind (to_numeric (getitem d c)) (fun v => ret (setitem d c v)) = (o, inr d') ->
  o = [] /\ exists v, d' = setitem d c v.
Proof.
  intros E. apply bind_inr in E. destruct E as (oa & v & ob & Ea & E & ->).
  apply ret_inr in E. destruct E as [<- ->].
  apply to_numeric_inr in Ea. subst. eauto.
Qed.

Lemma coerce_int_inv (d : DataFrame) (c : string) o d' :
  bind (to_numeric (getitem d c))
       (fun v => bind (astype_Int64 v) (fun v => ret (setitem d c v)))
  = (o, inr d') ->
  o = [] /\ exists v, d' = setitem d c v.
Proof.
  intros E. apply bind_inr in E. destruct E as (oa & v & ob & Ea & E & ->).
  apply bind_inr in E. destruct E as (oc & v' & od & Eb & E & ->).
  apply ret_inr in E. destruct E as [<- ->].
  apply to_numeric_inr in Ea. apply astype_Int64_inr in Eb. subst. eauto.
Qed.

(** One "convert types if present" step of [load_data]. *)
Lemma convert_if_present (names : list string) (d d' : DataFrame) o
  (col : option string) (conv : DataFrame -> string -> script DataFrame) :
  (forall c o' d'', conv d c = (o', inr d'') ->
                    o' = [] /\ exists v, d'' = setitem d c v) ->
  (forall c, col = Some c -> In c names) ->
  match col with
  | Some c => if truthy col then conv d c else ret d
  | None => ret d
  end = (o, inr d') ->
  o = [] /\ touches names d d'.
Proof.
  intros Hconv Hin Hs. destruct col as [c|].
  - destruct (truthy (Some c)).
    + apply Hconv in Hs. destruct Hs as [-> [v ->]]. split; [reflexivity|].
      apply touches_setitem. now apply Hin.
    + apply ret_inr in Hs. destruct Hs as [<- ->].
      split; [reflexivity|apply touches_refl].
  - apply ret_inr in Hs. destruct Hs as [<- ->].
    split; [reflexivity|apply touches_refl].
Qed.

(** The detected mapping of a header. *)
Definition detect (cols : list string) : ColsMap :=
  {| cm_year := find_first cols year_aliases;
     cm_deaths := find_first cols death_aliases;
     cm_births := find_first cols birth_aliases;
     cm_clinic := find_first cols clinic_aliases |}.

(** The labels [load_data] may convert. *)
Definition numeric_aliases : list string :=
  year_aliases ++ death_aliases ++ birth_aliases.

(** When [load_data] returns, the frame carries the normalised header and
    the detected mapping, and every column that is not a year, deaths or
    births alias holds the cells of the file. *)
Lemma load_data_inv (raw : RawFrame) out df :
  load_data (inr raw) = (out, inr df) ->
  out = [] /\
  columns df = map normalize_name (header raw) /\
  attrs df = Some (detect (map normalize_name (header raw))) /\
  forall i n, nth_error (columns df) i = Some n -> ~ In n numeric_aliases ->
              col_at df i = col_at (of_raw raw) i.
Proof.
  unfold load_data. intros H.
  apply bind_inr in H. destruct H as (o1 & d0 & o2 & H0 & H & ->).
  simpl in H0. apply ret_inr in H0. destruct H0 as [<- ->].
  apply bind_inr in H. destruct H as (o3 & d1 & o4 & H1 & H & ->).
  apply bind_inr in H. destruct H as (o5 & d2 & o6 & H2 & H & ->).
  apply bind_inr in H. destruct H as (o7 & d3 & o8 & H3 & H & ->).
  apply ret_inr in H. destruct H as [<- ->].
  set (d0 := normalize_columns (of_raw raw)) in *.
  apply (convert_if_present numeric_aliases _ _ _ _
           (fun d c => bind (to_numeric (getitem d c))
              (fun v => bind (astype_Int64 v) (fun v => ret (setitem d c v)))))
    in H1; [|intros; now apply coerce_int_inv|].
  2:{ intros c E. apply find_first_In in E. unfold numeric_aliases.
      apply in_or_app. tauto. }
  destruct H1 as [-> T1].
  assert (C1 : columns d1 = columns d0) by apply T1.
  apply (convert_if_present numeric_aliases _ _ _ _
           (fun d c => bind (to_numeric (getitem d c))
              (fun v => ret (setitem d c v))))
    in H2; [|intros; now apply coerce_float_inv|].
  2:{ intros c E. apply find_first_In in E. unfold numeric_aliases.
      apply in_or_app. right. apply in_or_app. tauto. }
  destruct H2 as [-> T2].
  assert (C2 : columns d2 = columns d1) by apply T2.
  apply (convert_if_present numeric_aliases _ _ _ _
           (fun d c => bind (to_numeric (getitem d c))
              (fun v => ret (setitem d c v))))
    in H3; [|intros; now apply coerce_float_inv|].
  2:{ intros c E. apply find_first_In in E. unfold numeric_aliases.
      apply in_or_app. right. apply in_or_app. tauto. }
  destruct H3 as [-> T3].
  pose proof (touches_trans _ _ _ _ (touches_trans _ _ _ _ T1 T2) T3)
    as (C & _ & Hc).
  cbn [columns attrs].
  split; [reflexivity|]. split; [exact C|]. split; [reflexivity|].
  intros i n Hn Hin. rewrite C in Hn. apply (Hc i n Hn Hin).
Qed.

End Coercion.


(** ** Claims *)

(** C6. Each logical field (year, deaths, births, clinic) is resolved by
    scanning its alias list in order and taking the first alias that is one
    of the normalised column names, by exact equality; [None] exactly when
    no alias is a column.  In particular, when both [deaths] and
    [death_count] are columns, [deaths] is selected.  The mapping
    [load_data] attaches to the frame is the one obtained this way from the
    normalised header. *)
Theorem alias_priority (df_cols : list string) :
  (forall candidates c,
      find_first df_cols candidates = Some c <->
      first_present df_cols candidates c) /\
  (forall candidates,
      find_first df_cols candidates = None <->
      forall x, In x candidates -> ~ In x df_cols) /\
  (In "deaths" df_cols -> In "death_count" df_cols ->
   find_first df_cols death_aliases = Some "deaths") /\
  (forall (RT : Runtime) (raw : RawFrame) out df,
      df_cols = map normalize_name (header raw) ->
      load_data (inr raw) = (out, inr df) ->
      attrs df =
        Some {| cm_year := find_first df_cols ["year"; "yr"];
                cm_deaths := find_first df_cols
                               ["deaths"; "death"; "deaths_count"; "death_count"];
                cm_births := find_first df_cols
                               ["births"; "birth"; "birth_count"; "births_count"];
                cm_clinic := find_first df_cols
                               ["clinic"; "hospital"; "place"; "location"] |}).
Proof.
  split; [|split; [|split]].
  - intros. apply find_first_Some.
  - intros. apply find_first_None.
  - intros Hd _. apply find_first_Some. exists [], ["death"; "deaths_count"; "death_count"].
    simpl. repeat split; auto.
  - intros RT raw out df -> H. apply load_data_inv in H. apply H.
Qed.

Lemma alias_priority_witness :
  find_first ["year"; "death_count"; "deaths"] death_aliases = Some "deaths".
Proof.
  apply (proj1 (proj2 (proj2 (alias_priority ["year"; "death_count"; "deaths"])))).
  - simpl. auto.
  - simpl. auto.
Defined.

(** The filter rule in the words of the specification: the year lies in
    the closed range and the clinic set is empty or holds the clinic. *)
Definition kept (year_range : Z * Z) (clinic_set : list string) (r : Row) : Prop :=
  (exists y, year r = Some y /\ (fst year_range <= y <= snd year_range)%Z) /\
  (clinic_set = [] \/ exists c, clinic r = Some c /\ In c clinic_set).

Lemma in_range_spec (year_range : Z * Z) (r : Row) :
  in_range year_range r = true <->
  exists y, year r = Some y /\ (fst year_range <= y <= snd year_range)%Z.
Proof.
  unfold in_range. destruct (year r) as [y|].
  - rewrite andb_true_iff, !Z.leb_le. split.
    + intros H. exists y. split; [reflexivity|lia].
    + intros (y' & E & H). inversion E; subst. lia.
  - split; [discriminate|]. intros (y & E & _). discriminate.
Qed.

Lemma isin_spec (selected_clinics : list string) (r : Row) :
  isin selected_clinics r = true <->
  exists c, clinic r = Some c /\ In c selected_clinics.
Proof.
  unfold isin. destruct (clinic r) as [c|].
  - rewrite contains_In. split.
    + intros H. exists c. auto.
    + intros (c' & E & H). inversion E; subst. exact H.
  - split; [discriminate|]. intros (c & E & _). discriminate.
Qed.

(** The mask the two filtering steps amount to. *)
Definition keep (year_range : Z * Z) (selected_clinics : list string) (r : Row)
  : bool :=
  in_range year_range r &&
  match selected_clinics with
  | [] => true
  | _ :: _ => isin selected_clinics r
  end.

Lemma filter_filter {A} (p q : A -> bool) (l : list A) :
  filter q (filter p l) = filter (fun a => p a && q a) l.
Proof.
  induction l as [|a l IH]; simpl; [reflexivity|].
  destruct (p a); simpl; [destruct (q a)|]; rewrite IH; reflexivity.
Qed.

Lemma filtered_as_filter (df : list Row) (year_range : Z * Z)
  (selected_clinics : list string) :
  filtered df year_range selected_clinics =
  filter (keep year_range selected_clinics) df.
Proof.
  unfold filtered, keep. destruct selected_clinics as [|c cs].
  - apply filter_ext. intros r. now rewrite andb_true_r.
  - apply filter_filter.
Qed.

Lemma keep_spec (year_range : Z * Z) (clinic_set : list string) (r : Row) :
  keep year_range clinic_set r = true <-> kept year_range clinic_set r.
Proof.
  unfold keep, kept. rewrite andb_true_iff, in_range_spec.
  destruct clinic_set as [|c cs].
  - split; [intros [H _]; auto|intros [H _]; auto].
  - rewrite isin_spec. split; intros [H1 H2]; split; auto.
    destruct H2 as [H2|H2]; [discriminate|exact H2].
Qed.

Lemma missing_year_not_filtered (df : list Row) (year_range : Z * Z)
  (selected_clinics : list string) (r : Row) :
  year r = None -> ~ In r (filtered df year_range selected_clinics).
Proof.
  intros Hy Hin. rewrite filtered_as_filter in Hin.
  apply filter_In in Hin. destruct Hin as [_ Hk].
  apply keep_spec in Hk. destruct Hk as [(y & E & _) _]. congruence.
Qed.

(** C1. Filtering keeps a record iff its year lies in [lo, hi] inclusive
    and the clinic set is empty or contains the record's clinic: the
    filtered set is the dataset restricted to those records, in their
    order.  A record with a missing year is never in the filtered set. *)
Theorem filtered_keeps_exactly (df : list Row) (lo hi : Z)
  (clinic_set : list string) :
  (exists mask : Row -> bool,
      filtered df (lo, hi) clinic_set = filter mask df /\
      forall r, mask r = true <-> kept (lo, hi) clinic_set r) /\
  (forall r,
      In r (filtered df (lo, hi) clinic_set) <->
      In r df /\
      (exists y, year r = Some y /\ (lo <= y <= hi)%Z) /\
      (clinic_set = [] \/ exists c, clinic r = Some c /\ In c clinic_set)) /\
  (forall r, year r = None -> ~ In r (filtered df (lo, hi) clinic_set)).
Proof.
  split; [|split].
  - exists (keep (lo, hi) clinic_set). split.
    + apply filtered_as_filter.
    + intros r. apply keep_spec.
  - intros r. rewrite filtered_as_filter, filter_In, keep_spec. reflexivity.
  - intros r. apply missing_year_not_filtered.
Qed.

Lemma filtered_keeps_exactly_witness :
  ~ In undated (filtered (undated :: sample) (1854, 1855)%Z []).
Proof.
  apply (proj2 (proj2 (filtered_keeps_exactly _ 1854 1855 []))).
  reflexivity.
Defined.

(** ** Records without a year *)

(** The reading of the specification's example: the deaths of a record
    whose year is missing, and whose clinic is selected, are still part of
    the scalar total. *)
Definition missing_year_still_counted : Prop :=
  forall (df : list Row) (r : Row) (year_range : Z * Z)
         (selected_clinics : list string) (c : string) (d s : Q),
    year r = None ->
    clinic r = Some c ->
    deaths r = Some d ->
    selected_clinics = [] \/ In c selected_clinics ->
    total_deaths agg_sum (filtered df year_range selected_clinics) = Some s ->
    exists s',
      total_deaths agg_sum (filtered (r :: df) year_range selected_clinics)
      = Some s' /\ (s' == s + d)%Q.

Lemma filtered_app (df1 df2 : list Row) (year_range : Z * Z)
  (selected_clinics : list string) :
  filtered (df1 ++ df2) year_range selected_clinics =
  filtered df1 year_range selected_clinics ++
  filtered df2 year_range selected_clinics.
Proof. rewrite !filtered_as_filter. apply filter_app. Qed.

Lemma filtered_missing_year (r : Row) (year_range : Z * Z)
  (selected_clinics : list string) :
  year r = None -> filtered [r] year_range selected_clinics = [].
Proof.
  intros H. rewrite filtered_as_filter. simpl.
  unfold keep, in_range. rewrite H. reflexivity.
Qed.

(** C3, as the code has it.  A record whose year is missing is excluded by
    the year-range filter, and since every aggregate and both scalar totals
    are computed from the filtered rows, its deaths value is counted
    nowhere: all outputs are those of the dataset without the record. *)
Theorem missing_year_counts_nowhere (RT : Runtime) (before after : list Row)
  (r : Row) (year_range : Z * Z) (selected_clinics : list string)
  (f : agg_func) :
  year r = None ->
  let with_r := filtered (before ++ r :: after) year_range selected_clinics in
  let without_r := filtered (before ++ after) year_range selected_clinics in
  ~ In r with_r /\
  with_r = without_r /\
  total_deaths f with_r = total_deaths f without_r /\
  total_births f with_r = total_births f without_r /\
  clinic_agg f with_r = clinic_agg f without_r /\
  deaths_by_year f with_r = deaths_by_year f without_r.
Proof.
  intros Hy with_r without_r.
  assert (E : with_r = without_r).
  { unfold with_r, without_r.
    change (r :: after) with ([r] ++ after).
    rewrite !filtered_app, (filtered_missing_year r _ _ Hy). reflexivity. }
  split.
  - unfold with_r. now apply missing_year_not_filtered.
  - rewrite E. repeat split.
Qed.

Lemma missing_year_counts_nowhere_witness :
  filtered (undated :: sample) (1854, 1855)%Z [] =
  filtered sample (1854, 1855)%Z [].
Proof.
  apply (proj1 (proj2 (missing_year_counts_nowhere stable_runtime []
                         sample undated (1854, 1855)%Z [] agg_sum eq_refl))).
Defined.

(** ** Empty selections *)

Lemma sort_desc_nil (RT : Runtime) {A} (k : A -> Q) : sort_desc k [] = [].
Proof. apply Permutation_nil. apply sort_desc_perm. Qed.

Lemma clinic_agg_nil (RT : Runtime) (f : agg_func) : clinic_agg f [] = [].
Proof.
  unfold clinic_agg, sort_values_desc. simpl. now rewrite sort_desc_nil.
Qed.

Definition zero_or_absent (agg_option : AggOption) : option Q :=
  match agg_option with Sum => Some 0%Q | Mean => None end.

Definition shown_for_nothing (agg_option : AggOption) : string :=
  match agg_option with Sum => "0" | Mean => "nan" end.

Lemma report_nil (RT : Runtime) (has_births : bool) (agg_option : AggOption) :
  report has_births agg_option [] =
  ([altair_chart (line_chart [])]
   ++ (if has_births then [altair_chart (comparison_chart [])] else [])
   ++ [altair_chart (bar_chart []); subheader "Summary statistics";
       metric "Deaths (aggregated)" (shown_for_nothing agg_option)]
   ++ (if has_births
       then [metric "Births (aggregated)" (shown_for_nothing agg_option)]
       else []),
   inr tt).
Proof.
  unfold report. rewrite clinic_agg_nil.
  destruct has_births, agg_option; reflexivity.
Qed.

Lemma bind_ok {A B} (m : script A) (k : A -> script B) o a :
  m = (o, inr a) -> bind m k = (o ++ fst (k a), snd (k a)).
Proof. intros ->. unfold bind. destruct (k a). reflexivity. Qed.

Lemma bind_emit {B} (e : element) (k : unit -> script B) :
  bind (emit e) k = (e :: fst (k tt), snd (k tt)).
Proof. unfold bind, emit. destruct (k tt). reflexivity. Qed.

Lemma dashboard_nil (RT : Runtime) (d : DataFrame) (ui : Controls)
  (min_year max_year : Z) (clinics : list string) :
  series_min (map year (to_rows d)) = Some min_year ->
  series_max (map year (to_rows d)) = Some max_year ->
  clinic_list d = ([], inr clinics) ->
  filtered (to_rows d) (slider ui min_year max_year)
    (multiselect ui clinics (firstn 3 clinics)) = [] ->
  dashboard d ui =
  ([markdown "## Raw Data Preview"; dataframe (firstn 20 (to_rows d))]
   ++ fst (report (Py.contains (columns d) "births") (selectbox ui) [])
   ++ [markdown "### Findings"; markdown "findings"; dataframe [];
       download_button []; markdown "notes"],
   inr tt).
Proof.
  intros Hmin Hmax Hcl Hflt. unfold dashboard.
  rewrite !bind_emit, Hmin, Hmax. simpl py_int. rewrite !bind_ret_l.
  rewrite (bind_ok _ _ _ _ Hcl), Hflt, report_nil.
  unfold bind, emit. simpl. rewrite <- !app_assoc. reflexivity.
Qed.

(** C9. When the filters exclude every record, the year and clinic
    aggregates (and the births comparison) are empty, the scalar totals
    are 0 under Sum and missing under Mean, shown as the metric texts 0 and
    nan, and the page is completed without an error. *)
Theorem empty_filter_result (RT : Runtime) (df : list Row)
  (year_range : Z * Z) (selected_clinics : list string)
  (has_births : bool) (agg_option : AggOption) :
  filtered df year_range selected_clinics = [] ->
  let flt := filtered df year_range selected_clinics in
  let f := match agg_option with Sum => agg_sum | Mean => agg_mean end in
  deaths_by_year f flt = [] /\
  comp f flt = [] /\
  clinic_agg f flt = [] /\
  total_deaths f flt = zero_or_absent agg_option /\
  total_births f flt = zero_or_absent agg_option /\
  (exists page,
    report has_births agg_option flt = (page, inr tt) /\
    In (metric "Deaths (aggregated)" (shown_for_nothing agg_option)) page /\
    (has_births = true ->
     In (metric "Births (aggregated)" (shown_for_nothing agg_option)) page) /\
    forall e, In e page ->
      e = altair_chart (line_chart []) \/
      e = altair_chart (comparison_chart []) \/
      e = altair_chart (bar_chart []) \/
      e = subheader "Summary statistics" \/
      exists label, e = metric label (shown_for_nothing agg_option)) /\
  (forall (d : DataFrame) (ui : Controls) min_year max_year clinics,
      to_rows d = df ->
      series_min (map year df) = Some min_year ->
      series_max (map year df) = Some max_year ->
      clinic_list d = ([], inr clinics) ->
      slider ui min_year max_year = year_range ->
      multiselect ui clinics (firstn 3 clinics) = selected_clinics ->
      snd (dashboard d ui) = inr tt).
Proof.
  intros E flt f. unfold flt, f. rewrite E.
  split; [destruct agg_option; reflexivity|].
  split; [destruct agg_option; reflexivity|].
  split; [apply clinic_agg_nil|].
  split; [destruct agg_option; reflexivity|].
  split; [destruct agg_option; reflexivity|].
  split.
  - eexists. split; [apply report_nil|].
    split; [|split].
    + destruct has_births; simpl; auto 10.
    + intros ->. simpl. auto 10.
    + intros e H. destruct has_births; simpl in H;
        repeat (destruct H as [<-|H]; [eauto 10|]); contradiction.
  - intros d ui mn mx cl <- Hmin Hmax Hcl Hs Hm.
    rewrite (dashboard_nil RT d ui mn mx cl); auto.
    rewrite Hs, Hm. exact E.
Qed.

Lemma empty_filter_result_witness :
  clinic_agg (RT := stable_runtime) agg_mean (filtered sample (1900, 1901)%Z []) = [].
Proof.
  apply (proj1 (proj2 (proj2 (empty_filter_result stable_runtime sample
                                (1900, 1901)%Z [] false Mean eq_refl)))).
Defined.

(** ** Sum and mean *)

Lemma agg_mean_sum (vs : list (option Q)) :
  (0 < count vs)%nat ->
  exists s m,
    agg agg_sum vs = Some s /\
    agg agg_mean vs = Some m /\
    (m == s / inject_Z (Z.of_nat (count vs)))%Q.
Proof.
  intros H. unfold agg. destruct (count vs) as [|n] eqn:E; [lia|].
  eexists. eexists. split; [reflexivity|]. split; [reflexivity|].
  apply Qeq_refl.
Qed.

Lemma agg_mean_none (vs : list (option Q)) :
  count vs = O -> agg agg_mean vs = None.
Proof. intros H. unfold agg. now rewrite H. Qed.

Lemma filter_split_perm {A} (p : A -> bool) (l : list A) :
  Permutation l (filter p l ++ filter (fun a => negb (p a)) l).
Proof.
  induction l as [|a l IH]; simpl; [constructor|].
  destruct (p a); simpl.
  - now constructor.
  - now apply Permutation_cons_app.
Qed.

Lemma sort_values_desc_perm (RT : Runtime) {A} (by_ : A -> option Q)
  (l : list A) : Permutation l (sort_values_desc by_ l).
Proof.
  unfold sort_values_desc.
  eapply perm_trans; [apply (filter_split_perm (fun a => is_some (by_ a)))|].
  apply Permutation_app_tail, sort_desc_perm.
Qed.

Lemma clinic_agg_In (RT : Runtime) (f : agg_func) (flt : list Row) x :
  In x (clinic_agg f flt) <-> In x (deaths_by_clinic f flt).
Proof.
  split; apply Permutation_in;
    [apply Permutation_sym|]; apply sort_values_desc_perm.
Qed.

Lemma deaths_by_year_In (f : agg_func) (flt : list Row) y v :
  In (y, v) (deaths_by_year f flt) ->
  v = agg f (map deaths (filter (has_year y) flt)).
Proof.
  unfold deaths_by_year. rewrite in_map_iff.
  intros (y' & E & _). inversion E; subst. reflexivity.
Qed.

Lemma deaths_by_clinic_In (f : agg_func) (flt : list Row) c v :
  In (c, v) (deaths_by_clinic f flt) ->
  v = agg f (map deaths (filter (has_clinic c) flt)).
Proof.
  unfold deaths_by_clinic. rewrite in_map_iff.
  intros (c' & E & _). inversion E; subst. reflexivity.
Qed.

Lemma deaths_by_year_keys (f : agg_func) (flt : list Row) :
  map fst (deaths_by_year f flt) = year_keys flt.
Proof. unfold deaths_by_year. rewrite map_map. simpl. apply map_id. Qed.

Lemma deaths_by_clinic_keys (f : agg_func) (flt : list Row) :
  map fst (deaths_by_clinic f flt) = clinic_keys flt.
Proof. unfold deaths_by_clinic. rewrite map_map. simpl. apply map_id. Qed.

(** C10. In every group with at least one non-missing deaths value, the
    mean aggregate is the sum aggregate divided by the number of
    non-missing values: for any column of values, for each year row of
    [deaths_by_year], for each clinic row of [clinic_agg], and for the
    scalar total.  Both modes produce the same group labels. *)
Theorem mean_is_sum_over_count (RT : Runtime) (flt : list Row) :
  (forall vs, (0 < count vs)%nat ->
     exists s m, agg agg_sum vs = Some s /\ agg agg_mean vs = Some m /\
                 (m == s / inject_Z (Z.of_nat (count vs)))%Q) /\
  map fst (deaths_by_year agg_mean flt) = map fst (deaths_by_year agg_sum flt) /\
  (forall y s m,
     In (y, s) (deaths_by_year agg_sum flt) ->
     In (y, m) (deaths_by_year agg_mean flt) ->
     let n := count (map deaths (filter (has_year y) flt)) in
     (0 < n)%nat ->
     exists s' m', s = Some s' /\ m = Some m' /\
                   (m' == s' / inject_Z (Z.of_nat n))%Q) /\
  (forall c s m,
     In (c, s) (clinic_agg agg_sum flt) ->
     In (c, m) (clinic_agg agg_mean flt) ->
     let n := count (map deaths (filter (has_clinic c) flt)) in
     (0 < n)%nat ->
     exists s' m', s = Some s' /\ m = Some m' /\
                   (m' == s' / inject_Z (Z.of_nat n))%Q) /\
  ((0 < count (map deaths flt))%nat ->
   exists s m, total_deaths agg_sum flt = Some s /\
               total_deaths agg_mean flt = Some m /\
               (m == s / inject_Z (Z.of_nat (count (map deaths flt))))%Q).
Proof.
  split; [exact agg_mean_sum|].
  split; [now rewrite !deaths_by_year_keys|].
  split; [|split].
  - intros y s m Hs Hm n Hn.
    apply deaths_by_year_In in Hs, Hm. subst s m.
    destruct (agg_mean_sum _ Hn) as (s' & m' & -> & -> & H). eauto.
  - intros c s m Hs Hm n Hn.
    apply clinic_agg_In, deaths_by_clinic_In in Hs.
    apply clinic_agg_In, deaths_by_clinic_In in Hm. subst s m.
    destruct (agg_mean_sum _ Hn) as (s' & m' & -> & -> & H). eauto.
  - intros Hn. apply (agg_mean_sum _ Hn).
Qed.

Lemma mean_is_sum_over_count_witness :
  exists s m,
    total_deaths agg_sum sample = Some s /\
    total_deaths agg_mean sample = Some m /\
    (m == s / inject_Z (Z.of_nat 3))%Q.
Proof.
  apply (proj2 (proj2 (proj2 (proj2
           (mean_is_sum_over_count stable_runtime sample))))).
  vm_compute. lia.
Defined.

(** ** Clinic aggregation *)

Lemma present_In {A} (vs : list (option A)) (a : A) :
  In a (present vs) <-> In (Some a) vs.
Proof.
  unfold present. rewrite in_flat_map. split.
  - intros ([x|] & Hin & Hx); simpl in Hx; [|contradiction].
    destruct Hx as [->|[]]. exact Hin.
  - intros H. exists (Some a). simpl. auto.
Qed.

Lemma clinic_keys_In (flt : list Row) (c : string) :
  In c (clinic_keys flt) <-> exists r, In r flt /\ clinic r = Some c.
Proof.
  unfold clinic_keys. split.
  - intros H. apply (Permutation_in _ (Permutation_sym (sort_perm _ _))) in H.
    apply nodup_In, present_In, in_map_iff in H.
    destruct H as (r & E & Hr). eauto.
  - intros (r & Hr & E).
    apply (Permutation_in _ (sort_perm _ _)).
    apply nodup_In, present_In, in_map_iff. eauto.
Qed.

Lemma clinic_keys_NoDup (flt : list Row) : NoDup (clinic_keys flt).
Proof.
  unfold clinic_keys.
  eapply Permutation_NoDup; [apply sort_perm|apply NoDup_nodup].
Qed.

(** Descending with missing values last: [a] may stand before [b]. *)
Definition value_ge (a b : option Q) : Prop :=
  match b with
  | None => True
  | Some y => match a with Some x => (y <= x)%Q | None => False end
  end.

Lemma StronglySorted_app {A} (R : A -> A -> Prop) (l1 l2 : list A) :
  StronglySorted R l1 -> StronglySorted R l2 ->
  (forall x y, In x l1 -> In y l2 -> R x y) ->
  StronglySorted R (l1 ++ l2).
Proof.
  induction 1 as [|a l1 Hs IH Ha]; simpl; intros H2 Hx; [exact H2|].
  constructor.
  - apply IH; [exact H2|]. intros x y Hin. apply Hx. right. exact Hin.
  - apply Forall_app. split; [exact Ha|].
    apply Forall_forall. intros y Hy. apply Hx; simpl; auto.
Qed.

Lemma StronglySorted_on {A} (P : A -> Prop) (R R' : A -> A -> Prop)
  (l : list A) :
  (forall a b, P a -> P b -> R a b -> R' a b) ->
  Forall P l -> StronglySorted R l -> StronglySorted R' l.
Proof.
  intros HR HP Hs. induction Hs as [|a l Hs IH Ha]; constructor.
  - apply IH. now inversion HP.
  - inversion HP as [|? ? Pa Pl]; subst.
    rewrite Forall_forall in *. intros b Hb. apply HR; auto.
Qed.

Lemma sort_values_desc_sorted (RT : Runtime) {A} (by_ : A -> option Q)
  (l : list A) :
  StronglySorted (fun a b => value_ge (by_ a) (by_ b)) (sort_values_desc by_ l).
Proof.
  unfold sort_values_desc. apply StronglySorted_app.
  - apply (StronglySorted_on (fun a => is_some (by_ a) = true)
             (fun a b => (or_zero (by_ b) <= or_zero (by_ a))%Q)).
    + intros a b Pa Pb H. destruct (by_ a), (by_ b); try discriminate.
      exact H.
    + eapply Permutation_Forall; [apply sort_desc_perm|].
      apply Forall_forall. intros a Ha. apply filter_In in Ha. tauto.
    + apply sort_desc_sorted.
  - apply (StronglySorted_on (fun a => is_some (by_ a) = false)
             (fun _ _ => True)).
    + intros a b _ Pb _. destruct (by_ b); [discriminate|exact I].
    + apply Forall_forall. intros a Ha. apply filter_In in Ha.
      destruct Ha as [_ Ha]. now apply negb_true_iff.
    + clear. induction (filter _ l); constructor; auto.
      apply Forall_forall. auto.
  - intros x y _ Hy. apply filter_In in Hy. destruct Hy as [_ Hy].
    apply negb_true_iff in Hy. destruct (by_ y); [discriminate|exact I].
Qed.

(** X16. The clinic aggregation has one row per distinct clinic present
    in the filtered set, each carrying the reduced deaths of that clinic's
    records, ordered descending by that value with missing values last.
    Nothing is said about the order of clinics whose values are equal:
    [sort_values] is called with one key and the default, unstable,
    sorting method. *)
Theorem clinic_agg_rows_and_order (RT : Runtime) (f : agg_func)
  (flt : list Row) :
  NoDup (map fst (clinic_agg f flt)) /\
  (forall c, In c (map fst (clinic_agg f flt)) <->
             exists r, In r flt /\ clinic r = Some c) /\
  (forall c v, In (c, v) (clinic_agg f flt) ->
               v = agg f (map deaths (filter (has_clinic c) flt))) /\
  StronglySorted (fun a b => value_ge (snd a) (snd b)) (clinic_agg f flt).
Proof.
  assert (P : Permutation (clinic_keys flt) (map fst (clinic_agg f flt))).
  { rewrite <- (deaths_by_clinic_keys f). apply Permutation_map.
    apply sort_values_desc_perm. }
  split; [|split; [|split]].
  - eapply Permutation_NoDup; [exact P|apply clinic_keys_NoDup].
  - intros c. rewrite <- clinic_keys_In. split; apply Permutation_in; auto.
    now apply Permutation_sym.
  - intros c v H. now apply clinic_agg_In, deaths_by_clinic_In in H.
  - apply sort_values_desc_sorted.
Qed.

(** The same reading for the clinic aggregation: the record's deaths are
    part of the row of its clinic. *)
Definition missing_year_counted_by_clinic (RT : Runtime) : Prop :=
  forall (df : list Row) (r : Row) (year_range : Z * Z)
         (selected_clinics : list string) (c : string) (d : Q),
    year r = None ->
    clinic r = Some c ->
    deaths r = Some d ->
    selected_clinics = [] \/ In c selected_clinics ->
    exists v,
      In (c, Some v)
         (clinic_agg agg_sum (filtered (r :: df) year_range selected_clinics))
      /\
      (v == d + Qsum (present (map deaths
                  (filter (has_clinic c)
                     (filtered df year_range selected_clinics)))))%Q.

(** C3, as the specification words it, fails.  The dataset is [sample]
    (years 1854 and 1855, clinics A and B) and one more record of clinic A
    with 7 deaths whose year did not parse; the slider is left at 1854 to
    1855 and both clinics are selected.  The scalar total is 35, not 42,
    and the row of clinic A reads 15, not 22, however the sort leaves
    equal values. *)
Lemma missing_year_not_counted :
  ~ missing_year_still_counted /\
  ~ (exists RT : Runtime, missing_year_counted_by_clinic RT).
Proof.
  split.
  - intros H.
    destruct (H sample undated (1854, 1855)%Z ["A"; "B"] "A" 7%Q 35%Q
                eq_refl eq_refl eq_refl (or_intror (or_introl eq_refl))
                eq_refl) as (s' & E & Hs).
    vm_compute in E. inversion E; subst. vm_compute in Hs. discriminate.
  - intros [RT H].
    destruct (H sample undated (1854, 1855)%Z ["A"; "B"] "A" 7%Q
                eq_refl eq_refl eq_refl (or_intror (or_introl eq_refl)))
      as (v & Hin & Hv).
    apply clinic_agg_In, deaths_by_clinic_In in Hin.
    vm_compute in Hin. inversion Hin; subst.
    vm_compute in Hv. discriminate.
Qed.

(** ** Fatal conditions *)

Lemma string_app_assoc (a b c : string) :
  ((a ++ b) ++ c = a ++ (b ++ c))%string.
Proof. induction a as [|x a IH]; simpl; [reflexivity|now rewrite IH]. Qed.

Lemma string_app_nil_r (a : string) : (a ++ "" = a)%string.
Proof. induction a as [|x a IH]; simpl; [reflexivity|now rewrite IH]. Qed.

(** [s] occurs in [t] as a contiguous piece. *)
Definition occurs_in (s t : string) : Prop :=
  exists before after, t = (before ++ s ++ after)%string.

Lemma occurs_in_app_l (s t p : string) :
  occurs_in s t -> occurs_in s (p ++ t)%string.
Proof.
  intros (b & a & ->). exists (p ++ b)%string, a.
  now rewrite string_app_assoc.
Qed.

Lemma occurs_in_app_r (s t p : string) :
  occurs_in s t -> occurs_in s (t ++ p)%string.
Proof.
  intros (b & a & ->). exists b, (a ++ p)%string.
  now rewrite !string_app_assoc.
Qed.

Lemma join_occurs (sep x : string) (xs : list string) :
  In x xs -> occurs_in x (Py.join sep xs).
Proof.
  induction xs as [|y ys IH]; [intros []|].
  intros [->|H].
  - destruct ys as [|z ys]; simpl.
    + exists "", "". simpl. now rewrite string_app_nil_r.
    + exists "", (sep ++ Py.join sep (z :: ys))%string. reflexivity.
  - destruct ys as [|z ys]; [destruct H|].
    change (Py.join sep (y :: z :: ys))
      with (y ++ sep ++ Py.join sep (z :: ys))%string.
    apply occurs_in_app_l, occurs_in_app_l, IH, H.
Qed.

Lemma try_except_inr {A} (m : script A) (e : exn) (x : element) o (a : A) :
  try_except m e (bind (emit x) (fun _ => stop)) = (o, inr a) -> m = (o, inr a).
Proof.
  destruct m as [o' [[|e']|a']]; simpl; try (intros H; exact H).
  destruct (exn_eqb e e'); simpl; intros H; [discriminate|exact H].
Qed.

Lemma try_except_ok {A} (m : script A) (e : exn) (h : script A) o (a : A) :
  m = (o, inr a) -> try_except m e h = (o, inr a).
Proof. intros ->. reflexivity. Qed.

Lemma bind_halt {A B} (m : script A) (k : A -> script B) o h :
  m = (o, inl h) -> bind m k = (o, inl h).
Proof. intros ->. reflexivity. Qed.

Section Fatal.
Context {RT : Runtime}.

Lemma prepare_schema_invalid (raw : RawFrame) out df :
  load_data (inr raw) = (out, inr df) ->
  find_first (map normalize_name (header raw)) year_aliases = None \/
  find_first (map normalize_name (header raw)) death_aliases = None ->
  prepare (inr raw) =
  ([error (required_msg ++ "Detected columns: "
           ++ list_repr (map normalize_name (header raw)))%string],
   inl Stop).
Proof.
  intros H Hmiss. pose proof (load_data_inv _ _ _ H) as (-> & C & A & _).
  unfold prepare.
  rewrite (bind_ok _ _ _ _ (try_except_ok _ _ _ _ _ H)).
  rewrite A. cbn [cm_year cm_deaths detect].
  assert (E : negb (truthy (find_first (map normalize_name (header raw))
                              year_aliases))
              || negb (truthy (find_first (map normalize_name (header raw))
                                 death_aliases)) = true).
  { destruct Hmiss as [-> | ->]; simpl; [reflexivity|apply orb_true_r]. }
  rewrite E. unfold schema_invalid. rewrite C. reflexivity.
Qed.

Lemma prepare_inv (raw : RawFrame) out df :
  prepare (inr raw) = (out, inr df) ->
  let cols := map normalize_name (header raw) in
  exists df0 Y D,
    load_data (inr raw) = ([], inr df0) /\
    find_first cols year_aliases = Some Y /\
    find_first cols death_aliases = Some D /\
    canonical df0 Y D (find_first cols birth_aliases)
      (find_first cols clinic_aliases) = (out, inr df).
Proof.
  intros H cols. unfold prepare in H.
  apply bind_inr in H. destruct H as (o1 & df0 & o2 & H0 & H & ->).
  apply try_except_inr in H0.
  pose proof (load_data_inv _ _ _ H0) as (-> & C & A & _).
  rewrite A in H. cbn [cm_year cm_deaths cm_births cm_clinic detect] in H.
  fold cols in H.
  destruct (find_first cols year_aliases) as [Y|]; [|discriminate].
  destruct (find_first cols death_aliases) as [D|];
    [|rewrite orb_true_r in H; discriminate].
  destruct (negb (truthy (Some Y)) || negb (truthy (Some D)));
    [discriminate|].
  exists df0, Y, D. repeat split; auto.
Qed.

End Fatal.

(** X17. When [load_data] returns and no year-like alias or no
    deaths-like alias is among the normalised column names, the page shows
    the title, the description and one error whose message lists the
    detected (normalised) column names, and the script stops there: no
    preview, chart, metric or table is produced. *)
Theorem schema_invalid_halts (RT : Runtime) (raw : RawFrame) (ui : Controls)
  out df :
  load_data (inr raw) = (out, inr df) ->
  find_first (map normalize_name (header raw)) year_aliases = None \/
  find_first (map normalize_name (header raw)) death_aliases = None ->
  let detected := map normalize_name (header raw) in
  let msg := (required_msg ++ "Detected columns: "
              ++ "[" ++ Py.join ", " (map repr detected) ++ "]")%string in
  app_py (inr raw) ui = ([title; markdown "description"; error msg], inl Stop) /\
  columns df = detected /\
  forall c, In c detected -> occurs_in (repr c) msg.
Proof.
  intros H Hmiss detected msg. split; [|split].
  - unfold app_py. rewrite !bind_emit.
    rewrite (bind_halt _ _ _ _ (prepare_schema_invalid raw out df H Hmiss)).
    reflexivity.
  - apply (load_data_inv _ _ _ H).
  - intros c Hc. unfold msg.
    apply occurs_in_app_l, occurs_in_app_l, occurs_in_app_l, occurs_in_app_r.
    apply join_occurs, in_map, Hc.
Qed.

(** A file with births per year and nothing else. *)
Definition births_only : RawFrame :=
  {| header := ["Yr"; "Births"; "other col"];
     lines := [[Some "1841"; Some "10"; None]] |}.

Lemma schema_invalid_halts_witness :
  app_py (RT := stable_runtime) (inr births_only) untouched =
  ([title; markdown "description";
    error (required_msg
           ++ "Detected columns: ['yr', 'births', 'other_col']")%string],
   inl Stop).
Proof.
  apply (proj1 (schema_invalid_halts stable_runtime births_only untouched
                  [] _ eq_refl (or_intror eq_refl))).
Defined.

(** *** A failure of [load_data] comes before the schema check *)

Lemma bind_inl {A B} (m : script A) (k : A -> script B) out h :
  bind m k = (out, inl h) ->
  m = (out, inl h) \/
  exists o1 a o2, m = (o1, inr a) /\ k a = (o2, inl h) /\ out = o1 ++ o2.
Proof.
  unfold bind. destruct m as [o1 [h'|a]].
  - intros H. left. inversion H; subst. reflexivity.
  - destruct (k a) as [o2 r] eqn:E. intros H. inversion H; subst.
    right. exists o1, a, o2. auto.
Qed.

Lemma astype_Int64_inl (v : list value) o h :
  astype_Int64 v = (o, inl h) -> o = [] /\ h = Raise TypeError.
Proof.
  revert o h. induction v as [|x v IH]; simpl; intros o h H.
  - discriminate.
  - destruct (astype_Int64_cell x).
    + destruct (astype_Int64 v) as [o' [h'|ys]] eqn:E; simpl in H.
      * inversion H; subst. now apply IH.
      * inversion H.
    + inversion H. auto.
Qed.

Lemma to_numeric_inl (RT : Runtime) (df : DataFrame) (c : string) o h :
  In c (columns df) ->
  to_numeric (getitem df c) = (o, inl h) -> o = [] /\ h = Raise TypeError.
Proof.
  intros Hc. unfold getitem.
  destruct (index_of_In c (columns df) Hc) as [i ->].
  destruct (_ =? _)%nat; simpl; intros H; inversion H; auto.
Qed.

Section Coercions.
Context {RT : Runtime}.
Variables (cols aliases : list string) (df : DataFrame).
Hypothesis same_cols : columns df = cols.

(** One of the float coercions of app.py 45-50 fails. *)
Lemma float_coercion_inl o h :
  match find_first cols aliases with
  | Some c =>
      if truthy (find_first cols aliases) then
        bind (to_numeric (getitem df c)) (fun v => ret (setitem df c v))
      else ret df
  | None => ret df
  end = (o, inl h) ->
  o = [] /\ h = Raise TypeError.
Proof.
  destruct (find_first cols aliases) as [c|] eqn:E; [|discriminate].
  destruct (truthy (Some c)); [|discriminate].
  intros H. apply bind_inl in H. destruct H as [H|(o1 & a & o2 & _ & H & _)].
  - apply to_numeric_inl in H; [exact H|].
    rewrite same_cols. now apply find_first_In in E.
  - discriminate.
Qed.

(** ... or goes through, and leaves the labels as they are. *)
Lemma float_coercion_inr o d :
  match find_first cols aliases with
  | Some c =>
      if truthy (find_first cols aliases) then
        bind (to_numeric (getitem df c)) (fun v => ret (setitem df c v))
      else ret df
  | None => ret df
  end = (o, inr d) ->
  o = [] /\ columns d = cols.
Proof.
  destruct (find_first cols aliases) as [c|];
    [|intros H; inversion H; subst; auto].
  destruct (truthy (Some c)); [|intros H; inversion H; subst; auto].
  intros H. apply bind_inr in H. destruct H as (o1 & a & o2 & H1 & H2 & ->).
  apply to_numeric_inr in H1. inversion H2. subst.
  rewrite setitem_columns. auto.
Qed.

End Coercions.

(** [load_data] prints nothing, and on a file that was read it can only
    fail with a [TypeError]. *)
Lemma load_data_failure (RT : Runtime) (raw : RawFrame) out h :
  load_data (inr raw) = (out, inl h) -> out = [] /\ h = Raise TypeError.
Proof.
  unfold load_data. simpl read_csv. rewrite bind_ret_l.
  set (df := normalize_columns (of_raw raw)).
  intros H. apply bind_inl in H.
  destruct H as [H|(o1 & d1 & o2 & H1 & H & ->)].
  - destruct (find_first _ year_aliases) as [c|] eqn:E; [|discriminate].
    destruct (truthy (Some c)); [|discriminate].
    apply bind_inl in H. destruct H as [H|(o1 & a & o2 & H1 & H & ->)].
    + apply to_numeric_inl in H; [exact H|]. now apply find_first_In in E.
    + apply to_numeric_inr in H1. subst o1.
      apply bind_inl in H. destruct H as [H|(o1 & a' & o3 & _ & H & _)].
      * apply astype_Int64_inl in H. destruct H as [-> ->]. auto.
      * discriminate.
  - assert (o1 = [] /\ columns d1 = columns df) as [-> C1].
    { destruct (find_first _ year_aliases) as [c|];
        [|inversion H1; subst; auto].
      destruct (truthy (Some c)); [|inversion H1; subst; auto].
      apply bind_inr in H1. destruct H1 as (p1 & a & p2 & H1 & H2 & ->).
      apply to_numeric_inr in H1. subst p1.
      apply bind_inr in H2. destruct H2 as (p1 & a' & p3 & H2 & H3 & ->).
      apply astype_Int64_inr in H2. inversion H3. subst.
      rewrite setitem_columns. auto. }
    apply bind_inl in H.
    destruct H as [H|(o1 & d2 & o3 & H2 & H & ->)].
    + now apply float_coercion_inl in H.
    + apply float_coercion_inr in H2; [|exact C1]. destruct H2 as [-> C2].
      apply bind_inl in H.
      destruct H as [H|(o1 & d3 & o4 & H3 & H & ->)].
      * now apply float_coercion_inl in H.
      * discriminate.
Qed.

(** C4 fails on the code.  The check for the required columns (app.py 87)
    comes after [load_data] (app.py 75), which coerces the columns it
    detected as it goes.  When a coercion raises, nothing catches the
    [TypeError]: although a required column is missing, the page ends
    after the description and the error that lists the detected columns
    is never shown. *)
Theorem schema_check_unreached (RT : Runtime) (raw : RawFrame) (ui : Controls)
  out h :
  let detected := map normalize_name (header raw) in
  find_first detected year_aliases = None \/
  find_first detected death_aliases = None ->
  load_data (inr raw) = (out, inl h) ->
  app_py (inr raw) ui = ([title; markdown "description"], inl (Raise TypeError)).
Proof.
  intros detected _ H.
  destruct (load_data_failure RT raw out h H) as [-> ->].
  unfold app_py, prepare. rewrite !bind_emit.
  unfold try_except. rewrite H. reflexivity.
Qed.

(** A year column with half a year, and no deaths column. *)
Definition year_and_half : RawFrame :=
  {| header := ["year"; "foo"]; lines := [[Some "1841.5"; Some "1"]] |}.

Lemma schema_check_unreached_witness :
  find_first (map normalize_name (header year_and_half)) death_aliases = None /\
  app_py (RT := stable_runtime) (inr year_and_half) untouched
  = ([title; markdown "description"], inl (Raise TypeError)).
Proof.
  split; [reflexivity|].
  apply (schema_check_unreached stable_runtime year_and_half untouched
           [] (Raise TypeError) (or_intror eq_refl) eq_refl).
Defined.

(** Neither a year nor a deaths column, and two columns that both
    normalise to births: the coercion of births raises. *)
Example twice_births_unreached :
  app_py (RT := stable_runtime)
    (inr {| header := ["Births"; "births"];
            lines := [[Some "10"; Some "12"]] |}) untouched
  = ([title; markdown "description"], inl (Raise TypeError)).
Proof. reflexivity. Qed.

(** ** Exceptions that reach the page *)

Lemma series_min_None (v : list (option Z)) :
  series_min v = None <-> Forall (fun y => y = None) v.
Proof.
  unfold series_min. split.
  - intros H. destruct (present v) as [|z zs] eqn:E; [|discriminate].
    apply Forall_forall. intros [y|] Hy; [|reflexivity].
    apply present_In in Hy. rewrite E in Hy. destruct Hy.
  - intros H. replace (present v) with (@nil Z); [reflexivity|].
    induction H as [|y v -> _ IH]; [reflexivity|exact IH].
Qed.

(** C5 fails on the code.  Whenever loading and normalisation succeed but
    no row has a year (every year cell is empty or unparseable, or there is
    no row at all), [int(df["year"].min())] raises a [TypeError] that
    nothing catches: the page ends after the data preview. *)
Theorem no_year_raises (RT : Runtime) (file : exn + RawFrame) (ui : Controls)
  out df :
  prepare file = (out, inr df) ->
  series_min (map year (to_rows df)) = None ->
  app_py file ui =
  ([title; markdown "description"] ++ out
   ++ [markdown "## Raw Data Preview"; dataframe (firstn 20 (to_rows df))],
   inl (Raise TypeError)).
Proof.
  intros H Hmin. unfold app_py. rewrite !bind_emit.
  rewrite (bind_ok _ _ _ _ H). unfold dashboard.
  rewrite !bind_emit, Hmin. simpl. reflexivity.
Qed.

(** A file whose only year cell is text. *)
Definition unparseable_years : RawFrame :=
  {| header := ["year"; "deaths"];
     lines := [[Some "unknown"; Some "10"]] |}.

Lemma no_year_raises_witness :
  snd (app_py (RT := stable_runtime) (inr unparseable_years) untouched)
  = inl (Raise TypeError).
Proof.
  rewrite (no_year_raises stable_runtime (inr unparseable_years) untouched
             [] _ eq_refl eq_refl).
  reflexivity.
Defined.

(** ** The clinic field of the canonical dataset *)

Lemma to_rows_clinic (df : DataFrame) (i : nat) :
  index_of "clinic" (columns df) = Some i ->
  map clinic (to_rows df) = map as_label (col_at df i).
Proof.
  intros H. unfold to_rows, col_at, column. rewrite !map_map. simpl.
  now rewrite H.
Qed.

Lemma overwrite_cell (cols : list string) (c : string) (v : value) :
  forall i row, nth_error cols i = Some c ->
                cell i (overwrite cols c v row) = v.
Proof.
  unfold cell. induction cols as [|x cols IH]; intros [|i] row H;
    simpl in H; try discriminate.
  - inversion H; subst. simpl. now rewrite String.eqb_refl.
  - simpl. now apply IH.
Qed.

Lemma fit_length (cols : list string) :
  forall row, length (fit cols row) = length cols.
Proof.
  induction cols as [|x cols IH]; intros row; simpl; [reflexivity|].
  now rewrite IH.
Qed.

Lemma nth_error_last (cols : list string) (c : string) (i : nat) :
  ~ In c cols -> nth_error (cols ++ [c]) i = Some c -> i = length cols.
Proof.
  intros Hc H. destruct (Nat.lt_ge_cases i (length cols)) as [Hlt|Hge].
  - rewrite nth_error_app1 in H by exact Hlt.
    apply nth_error_In in H. contradiction.
  - rewrite nth_error_app2 in H by exact Hge.
    destruct (i - length cols)%nat as [|k] eqn:E; [lia|].
    simpl in H. destruct k; discriminate.
Qed.

(** After [df[c] = v] the frame has a column [c], and every column labelled
    [c] holds [v] in every row; no other label is added. *)
Lemma assign_const_cells (df : DataFrame) (c : string) (v : value) :
  In c (columns (assign_const df c v)) /\
  (forall x, In x (columns (assign_const df c v)) -> In x (columns df) \/ x = c) /\
  forall i, nth_error (columns (assign_const df c v)) i = Some c ->
            Forall (fun x => x = v) (col_at (assign_const df c v) i).
Proof.
  unfold assign_const, col_at.
  destruct (Py.contains (columns df) c) eqn:E; simpl.
  - apply contains_In in E. split; [exact E|]. split; [auto|].
    intros i Hi. apply Forall_forall. intros x Hx.
    apply in_map_iff in Hx. destruct Hx as (r & <- & Hr).
    apply in_map_iff in Hr. destruct Hr as (r0 & <- & _).
    now apply overwrite_cell.
  - apply contains_false in E. split; [apply in_or_app; simpl; auto|].
    split.
    + intros x Hx. apply in_app_or in Hx. simpl in Hx. intuition.
    + intros i Hi. apply nth_error_last in Hi; [|exact E]. subst i.
      apply Forall_forall. intros x Hx.
      apply in_map_iff in Hx. destruct Hx as (r & <- & Hr).
      apply in_map_iff in Hr. destruct Hr as (r0 & <- & _).
      unfold cell. rewrite app_nth2; rewrite fit_length; [|lia].
      now rewrite Nat.sub_diag.
Qed.

(** Where the renamings of app.py 100-102 put the label [clinic]. *)
Lemma rename_clinic_index (cols : list string) (Y D C : string)
  (B : option string) :
  (In "clinic" cols -> C = "clinic") ->
  (forall b, B = Some b -> b <> "clinic") ->
  let f1 := fun c => match lookup (dict [(Y, "year"); (D, "deaths");
                                         (C, "clinic")]) c with
                     | Some c' => c'
                     | None => c
                     end in
  let f2 := fun c => match lookup (dict [(get B, "births")]) c with
                     | Some c' => c'
                     | None => c
                     end in
  index_of "clinic" (map f1 cols) = index_of C cols /\
  index_of "clinic" (map f2 (map f1 cols)) = index_of C cols.
Proof.
  intros HC HB f1 f2.
  assert (E1 : index_of "clinic" (map f1 cols) = index_of C cols).
  { apply index_of_map. intros x Hx. unfold f1. simpl.
    destruct (String.eqb_spec C x) as [->|N1]; [tauto|].
    destruct (String.eqb_spec D x) as [->|N2];
      [split; [discriminate|congruence]|].
    destruct (String.eqb_spec Y x) as [->|N3];
      [split; [discriminate|congruence]|].
    split; [|congruence]. intros ->. exfalso. apply N1. now apply HC. }
  split; [exact E1|]. rewrite <- E1.
  apply index_of_map. intros x _. unfold f2. simpl.
  destruct (String.eqb_spec (get B) x) as [E|N]; [|tauto].
  split; [discriminate|]. intros ->.
  destruct B as [b|]; simpl in E; [|discriminate].
  exfalso. now apply (HB b).
Qed.

Lemma birth_alias_not_clinic (cols : list string) (b : string) :
  find_first cols birth_aliases = Some b -> b <> "clinic".
Proof.
  intros H. apply find_first_In in H. destruct H as [H _].
  simpl in H. intuition (subst; discriminate).
Qed.

Lemma clinic_alias_facts (cols : list string) (c : string) :
  find_first cols clinic_aliases = Some c ->
  truthy (Some c) = true /\
  ~ In c numeric_aliases /\
  (In "clinic" cols -> c = "clinic").
Proof.
  intros H. pose proof (find_first_In _ _ _ H) as [Hc _].
  split; [|split].
  - simpl in Hc. intuition (subst; reflexivity).
  - simpl in Hc. unfold numeric_aliases. simpl.
    intuition (subst; discriminate).
  - intros Hin. apply find_first_Some in H.
    destruct H as (b & a & E & _ & Hb).
    destruct b as [|x b]; simpl in E; inversion E; subst; [reflexivity|].
    exfalso. apply (Hb "clinic"); simpl; auto.
Qed.

Section Canonical.
Context {RT : Runtime}.

(** Ensuring the types writes the year, deaths and births columns only. *)
Lemma ensure_types_inv (s : DataFrame) o df :
  ensure_types s = (o, inr df) ->
  o = [] /\ touches ["year"; "deaths"; "births"] s df.
Proof.
  unfold ensure_types. intros H.
  apply bind_inr in H. destruct H as (o1 & v1 & o2 & H1 & H & ->).
  apply bind_inr in H. destruct H as (o3 & v2 & o4 & H2 & H & ->).
  apply bind_inr in H. destruct H as (o5 & v3 & o6 & H3 & H & ->).
  apply to_numeric_inr in H1, H3. apply astype_Int64_inr in H2. subst.
  set (s1 := setitem s "year" v2) in *.
  set (s2 := setitem s1 "deaths" v3) in *.
  assert (T2 : touches ["year"; "deaths"; "births"] s s2).
  { eapply touches_trans; apply touches_setitem; simpl; auto. }
  destruct (Py.contains (columns s2) "births").
  - apply coerce_float_inv in H. destruct H as [-> [v ->]].
    split; [reflexivity|].
    eapply touches_trans; [exact T2|apply touches_setitem; simpl; auto].
  - apply ret_inr in H. destruct H as [<- ->]. split; [reflexivity|exact T2].
Qed.

(** The clinic field of the canonical rows is the column that the
    renaming labelled [clinic]. *)
Lemma canonical_clinic (df0 : DataFrame) (Y D : string)
  (B C : option string) o df (i : nat) :
  canonical df0 Y D B C = (o, inr df) ->
  index_of "clinic" (columns (standard_names df0 Y D B C)) = Some i ->
  map clinic (to_rows df) = map as_label (col_at (standard_names df0 Y D B C) i).
Proof.
  unfold canonical. intros H Hi.
  apply ensure_types_inv in H. destruct H as (_ & Hc & _ & Ht).
  rewrite (to_rows_clinic df i) by (now rewrite Hc).
  f_equal. apply (Ht i "clinic").
  - now apply index_of_nth_error.
  - simpl. intuition discriminate.
Qed.

(** Without a clinic-like column every canonical record carries the
    placeholder. *)
Lemma placeholder_rows (raw : RawFrame) out df :
  prepare (inr raw) = (out, inr df) ->
  find_first (map normalize_name (header raw)) clinic_aliases = None ->
  Forall (fun r => clinic r = Some "All") (to_rows df).
Proof.
  intros H Hnone. apply prepare_inv in H.
  destruct H as (df0 & Y & D & Hl & HY & HD & Hcan).
  rewrite Hnone in Hcan.
  pose proof (load_data_inv _ _ _ Hl) as (_ & Hcols & _ & _).
  set (cols := map normalize_name (header raw)) in *.
  set (B := find_first cols birth_aliases) in *.
  set (df1 := assign_const df0 "clinic_placeholder" (Str "All")).
  destruct (assign_const_cells df0 "clinic_placeholder" (Str "All"))
    as (Hin & Hsub & Hall). fold df1 in Hin, Hsub, Hall.
  assert (Hno : ~ In "clinic" (columns df1)).
  { intros Hc. apply Hsub in Hc. destruct Hc as [Hc|Hc]; [|discriminate].
    rewrite Hcols in Hc. revert Hc.
    apply (proj1 (find_first_None cols clinic_aliases) Hnone). simpl. auto. }
  destruct (rename_clinic_index (columns df1) Y D "clinic_placeholder" B)
    as [_ Hidx].
  { intros Hc. contradiction. }
  { intros b Hb. now apply (birth_alias_not_clinic cols). }
  destruct (index_of_In _ _ Hin) as [i Hi].
  assert (Hs : index_of "clinic" (columns (standard_names df0 Y D B None))
               = Some i /\
               rows (standard_names df0 Y D B None) = rows df1).
  { unfold standard_names. simpl negb. cbv iota. fold df1.
    destruct (truthy B); simpl; rewrite <- Hi.
    - split; [exact Hidx|reflexivity].
    - split; [|reflexivity].
      apply (rename_clinic_index (columns df1) Y D "clinic_placeholder" B).
      + intros Hc. contradiction.
      + intros b Hb. now apply (birth_alias_not_clinic cols). }
  destruct Hs as [Hs Hr].
  pose proof (canonical_clinic _ _ _ _ _ _ _ _ Hcan Hs) as E.
  apply index_of_nth_error in Hi. specialize (Hall i Hi).
  unfold col_at in E. rewrite Hr in E. fold (col_at df1 i) in E.
  apply Forall_forall. intros r Hr'.
  assert (Hc : In (clinic r) (map clinic (to_rows df))) by now apply in_map.
  rewrite E in Hc. apply in_map_iff in Hc. destruct Hc as (x & <- & Hx).
  rewrite Forall_forall in Hall. now rewrite (Hall x Hx).
Qed.

(** With a clinic-like column the canonical clinic field is the source
    column, cell for cell. *)
Lemma source_clinic_rows (raw : RawFrame) out df (c : string) :
  prepare (inr raw) = (out, inr df) ->
  find_first (map normalize_name (header raw)) clinic_aliases = Some c ->
  exists i,
    index_of c (map normalize_name (header raw)) = Some i /\
    map clinic (to_rows df) = map (fun line => nth i line None) (lines raw).
Proof.
  intros H Hc. apply prepare_inv in H.
  destruct H as (df0 & Y & D & Hl & HY & HD & Hcan).
  rewrite Hc in Hcan.
  pose proof (load_data_inv _ _ _ Hl) as (_ & Hcols & _ & Hraw).
  set (cols := map normalize_name (header raw)) in *.
  set (B := find_first cols birth_aliases) in *.
  destruct (clinic_alias_facts cols c Hc) as (Ht & Hnum & Hfirst).
  destruct (index_of_In c cols) as [i Hi];
    [now apply (find_first_In _ _ _ Hc)|].
  exists i. split; [exact Hi|].
  destruct (rename_clinic_index cols Y D c B Hfirst) as [Hi1 Hi2].
  { intros b Hb. now apply (birth_alias_not_clinic cols). }
  assert (Hs : index_of "clinic" (columns (standard_names df0 Y D B (Some c)))
               = Some i /\
               rows (standard_names df0 Y D B (Some c)) = rows df0).
  { unfold standard_names. rewrite Ht. simpl negb. cbv iota.
    destruct (truthy B); simpl; rewrite Hcols, <- Hi.
    - split; [exact Hi2|reflexivity].
    - split; [exact Hi1|reflexivity]. }
  destruct Hs as [Hs Hr].
  rewrite (canonical_clinic _ _ _ _ _ _ _ _ Hcan Hs).
  unfold col_at at 1. rewrite Hr. fold (col_at df0 i).
  rewrite (Hraw i c); [| rewrite Hcols; now apply index_of_nth_error | exact Hnum].
  unfold col_at, of_raw. simpl. rewrite !map_map.
  apply map_ext. intros line. unfold cell.
  change NA with ((fun c0 => match c0 with Some s => Str s | None => NA end)
                    (@None string)).
  rewrite map_nth. now destruct (nth i line None).
Qed.

End Canonical.

Lemma singleton_list {A} (a : A) (l : list A) :
  NoDup l -> (forall x, In x l <-> x = a) -> l = [a].
Proof.
  intros Hn H. destruct l as [|x l].
  - exfalso. apply (H a). reflexivity.
  - assert (x = a) by (apply H; simpl; auto). subst x.
    destruct l as [|y l]; [reflexivity|].
    assert (y = a) by (apply H; simpl; auto). subst y.
    inversion Hn as [|? ? Hnot _]; subst. exfalso. apply Hnot. simpl. auto.
Qed.

(** Rows that all carry the same clinic form one group. *)
Lemma one_clinic_one_group (RT : Runtime) (f : agg_func) (flt : list Row)
  (c : string) :
  flt <> [] ->
  Forall (fun r => clinic r = Some c) flt ->
  clinic_agg f flt = [(c, agg f (map deaths flt))].
Proof.
  intros Hne Hall.
  assert (K : clinic_keys flt = [c]).
  { apply singleton_list; [apply clinic_keys_NoDup|].
    intros x. rewrite clinic_keys_In. rewrite Forall_forall in Hall. split.
    - intros (r & Hr & E). rewrite (Hall r Hr) in E. congruence.
    - intros ->. destruct flt as [|r flt]; [congruence|].
      exists r. split; [simpl; auto|apply Hall; simpl; auto]. }
  assert (G : filter (has_clinic c) flt = flt).
  { clear K Hne. induction Hall as [|r flt Hr _ IH]; simpl; [reflexivity|].
    unfold has_clinic at 1. rewrite Hr, String.eqb_refl. now rewrite IH. }
  assert (P : Permutation [(c, agg f (map deaths flt))] (clinic_agg f flt)).
  { unfold clinic_agg, deaths_by_clinic. rewrite K. simpl. rewrite G.
    apply sort_values_desc_perm. }
  now apply Permutation_length_1_inv in P.
Qed.

Lemma filtered_Forall (P : Row -> Prop) (df : list Row) (year_range : Z * Z)
  (selected_clinics : list string) :
  Forall P df -> Forall P (filtered df year_range selected_clinics).
Proof.
  rewrite filtered_as_filter, !Forall_forall. intros H r Hr.
  apply filter_In in Hr. now apply H.
Qed.

(** A file with years and deaths and no clinic. *)
Definition no_clinic : RawFrame :=
  {| header := ["Year"; "Deaths"; "births"];
     lines := [[Some "1841"; Some "10"; Some "3"];
               [Some "1841.0"; Some "10.5"; None]] |}.

(** The canonical rows of a file, when the script gets that far. *)
Definition canonical_rows {RT : Runtime} (file : exn + RawFrame) : list Row :=
  match prepare file with
  | (_, inr df) => to_rows df
  | (_, inl _) => []
  end.

(** The invariant as the specification words it: in the canonical dataset
    the clinic is defined for every row. *)
Definition clinic_always_defined : Prop :=
  forall (RT : Runtime) (raw : RawFrame) out df,
    prepare (inr raw) = (out, inr df) ->
    Forall (fun r => clinic r <> None) (to_rows df).

(** A file with a clinic column and one empty clinic cell. *)
Definition clinic_gap : RawFrame :=
  {| header := ["year"; "deaths"; "clinic"];
     lines := [[Some "1841"; Some "10"; Some "A"];
               [Some "1842"; Some "12"; None]] |}.

(** C8, as the specification words it, fails: the empty clinic cell of the
    second row stays missing in the canonical dataset. *)
Lemma clinic_gap_stays_missing : ~ clinic_always_defined.
Proof.
  intros H.
  specialize (H stable_runtime clinic_gap [] _ eq_refl).
  inversion H as [|r1 l1 _ H1]; subst.
  inversion H1 as [|r2 l2 Hr2 _]; subst.
  apply Hr2. reflexivity.
Qed.

(** C8, as the code has it.  The canonical dataset always has a clinic
    field.  When no clinic-like column was detected, every row carries the
    placeholder "All".  When one was detected, every row carries the cell
    of that source column as it is: the clinic of a row is missing exactly
    when its source cell is empty, and no placeholder is filled in. *)
Theorem clinic_as_in_source (RT : Runtime) (raw : RawFrame) out df :
  prepare (inr raw) = (out, inr df) ->
  match find_first (map normalize_name (header raw)) clinic_aliases with
  | None => Forall (fun r => clinic r = Some "All") (to_rows df)
  | Some c =>
      exists i,
        index_of c (map normalize_name (header raw)) = Some i /\
        map clinic (to_rows df) = map (fun line => nth i line None) (lines raw) /\
        forall k r line,
          nth_error (to_rows df) k = Some r ->
          nth_error (lines raw) k = Some line ->
          (clinic r = None <-> nth i line None = None)
  end.
Proof.
  intros H.
  destruct (find_first (map normalize_name (header raw)) clinic_aliases)
    as [c|] eqn:E.
  - destruct (source_clinic_rows raw out df c H E) as (i & Hi & M).
    exists i. split; [exact Hi|]. split; [exact M|].
    intros k r line Hr Hl.
    assert (Ek : nth_error (map clinic (to_rows df)) k = Some (clinic r))
      by (now apply map_nth_error).
    rewrite M in Ek.
    rewrite (map_nth_error (fun l => nth i l None) _ _ Hl) in Ek.
    inversion Ek as [Ec]. rewrite Ec. reflexivity.
  - now apply (placeholder_rows raw out df).
Qed.

Lemma clinic_as_in_source_witness :
  map clinic (canonical_rows (RT := stable_runtime) (inr clinic_gap))
  = [Some "A"; None].
Proof.
  destruct (clinic_as_in_source stable_runtime clinic_gap [] _ eq_refl)
    as (i & Hi & M & _).
  vm_compute in Hi. inversion Hi; subst i. exact M.
Defined.

(** ** The worked examples of the specification *)

Example sample_by_year :
  deaths_by_year agg_sum (filtered sample (1854, 1855)%Z [])
  = [(1854%Z, Some (inject_Z 30)); (1855%Z, Some (inject_Z 5))].
Proof. reflexivity. Qed.

Example sample_by_clinic :
  clinic_agg (RT := stable_runtime) agg_sum (filtered sample (1854, 1855)%Z [])
  = [("B", Some (inject_Z 20)); ("A", Some (inject_Z 15))].
Proof. reflexivity. Qed.

Example sample_total :
  format_0f (total_deaths agg_sum (filtered sample (1854, 1855)%Z [])) = "35".
Proof. reflexivity. Qed.

Example sample_one_year :
  filtered sample (1855, 1855)%Z [] = [rec 1855 5 "A"] /\
  clinic_agg (RT := stable_runtime) agg_sum (filtered sample (1855, 1855)%Z [])
  = [("A", Some (inject_Z 5))] /\
  deaths_by_year agg_sum (filtered sample (1855, 1855)%Z [])
  = [(1855%Z, Some (inject_Z 5))].
Proof. repeat split. Qed.

(** Two clinics with equal deaths: a sort that keeps equal keys in place
    leaves them in name order. *)
Example tie_stable :
  map fst (clinic_agg (RT := stable_runtime) agg_sum
             [rec 1854 10 "A"; rec 1854 10 "B"]) = ["A"; "B"].
Proof. reflexivity. Qed.

(** A year with a fractional part cannot be cast to the nullable integer
    type: [load_data] itself raises. *)
Example fractional_year_raises :
  app_py (RT := stable_runtime)
    (inr {| header := ["year"; "deaths"];
            lines := [[Some "1841.5"; Some "10"]] |}) untouched
  = ([title; markdown "description"], inl (Raise TypeError)).
Proof. reflexivity. Qed.

(** Per-cell coercion never raises and keeps every row. *)
Lemma to_numeric_coerces (RT : Runtime) (v : list value) :
  to_numeric (Series v) = ([], inr (map to_numeric_cell v)) /\
  length (map to_numeric_cell v) = length v /\
  forall s, parse_float s = None -> to_numeric_cell (Str s) = NA.
Proof.
  split; [reflexivity|]. split; [apply length_map|].
  intros s H. simpl. now rewrite H.
Qed.

(** * Further properties of the script *)

(** ** Normalised column names (app.py 16-19) *)

Definition is_upper (c : ascii) : bool :=
  let n := nat_of_ascii c in ((65 <=? n) && (n <=? 90))%nat.

(** The first character, if any, is not white space. *)
Definition starts_ok (s : string) : bool :=
  match s with
  | EmptyString => true
  | String c _ => negb (Py.isspace c)
  end.

(** The last character, if any, is not white space. *)
Fixpoint ends_ok (s : string) : bool :=
  match s with
  | EmptyString => true
  | String c EmptyString => negb (Py.isspace c)
  | String _ s' => ends_ok s'
  end.

(** Every character satisfies [p]. *)
Fixpoint all_chars (p : ascii -> bool) (s : string) : bool :=
  match s with
  | EmptyString => true
  | String c s' => p c && all_chars p s'
  end.

Definition plain (c : ascii) : bool :=
  negb (Ascii.eqb c " ") && negb (is_upper c).

Lemma lstrip_starts (s : string) : starts_ok (Py.lstrip s) = true.
Proof.
  induction s as [|c s IH]; simpl; [reflexivity|].
  destruct (Py.isspace c) eqn:E; [exact IH|]. simpl. now rewrite E.
Qed.

Lemma lstrip_fix (s : string) : starts_ok s = true -> Py.lstrip s = s.
Proof.
  destruct s as [|c s]; simpl; [reflexivity|].
  intros H. apply negb_true_iff in H. now rewrite H.
Qed.

Lemma rstrip_starts (s : string) :
  starts_ok s = true -> starts_ok (Py.rstrip s) = true.
Proof.
  destruct s as [|c s]; simpl; [reflexivity|]. intros H.
  destruct (Py.rstrip s); [|exact H].
  apply negb_true_iff in H. rewrite H. simpl. now rewrite H.
Qed.

Lemma rstrip_ends (s : string) : ends_ok (Py.rstrip s) = true.
Proof.
  induction s as [|c s IH]; simpl; [reflexivity|].
  destruct (Py.rstrip s) as [|d r] eqn:E.
  - destruct (Py.isspace c) eqn:Ec; simpl; [reflexivity|now rewrite Ec].
  - exact IH.
Qed.

Lemma rstrip_fix (s : string) : ends_ok s = true -> Py.rstrip s = s.
Proof.
  induction s as [|c s IH]; [reflexivity|].
  destruct s as [|d s'].
  - simpl. intros H. apply negb_true_iff in H. now rewrite H.
  - intros H. change (ends_ok (String d s') = true) in H.
    specialize (IH H).
    change (Py.rstrip (String c (String d s')))
      with (match Py.rstrip (String d s') with
            | EmptyString =>
                if Py.isspace c then EmptyString else String c EmptyString
            | r => String c r
            end).
    now rewrite IH.
Qed.

Lemma lower_char_space (c : ascii) :
  Py.isspace (Py.lower_char c) = Py.isspace c.
Proof. destruct c as [[] [] [] [] [] [] [] []]; reflexivity. Qed.

Lemma lower_char_plain (c : ascii) : is_upper (Py.lower_char c) = false.
Proof. destruct c as [[] [] [] [] [] [] [] []]; reflexivity. Qed.

Lemma lower_char_fix (c : ascii) :
  is_upper c = false -> Py.lower_char c = c.
Proof. unfold Py.lower_char, is_upper. intros ->. reflexivity. Qed.

Lemma lower_starts (s : string) : starts_ok (Py.lower s) = starts_ok s.
Proof.
  destruct s as [|c s]; simpl; [reflexivity|]. now rewrite lower_char_space.
Qed.

Lemma lower_ends (s : string) : ends_ok (Py.lower s) = ends_ok s.
Proof.
  induction s as [|c s IH]; [reflexivity|].
  destruct s as [|d s'].
  - simpl. now rewrite lower_char_space.
  - exact IH.
Qed.

Lemma underscore_space (c : ascii) :
  Py.isspace c = false ->
  Py.isspace (if Ascii.eqb c " " then "_"%char else c) = false.
Proof. intros H. destruct (Ascii.eqb c " "); [reflexivity|exact H]. Qed.

Lemma replace_starts (s : string) :
  starts_ok s = true -> starts_ok (Py.replace_char " " "_" s) = true.
Proof.
  destruct s as [|c s]; simpl; [reflexivity|]. intros H.
  apply negb_true_iff in H. apply negb_true_iff. now apply underscore_space.
Qed.

Lemma replace_ends (s : string) :
  ends_ok s = true -> ends_ok (Py.replace_char " " "_" s) = true.
Proof.
  induction s as [|c s IH]; [reflexivity|].
  destruct s as [|d s'].
  - simpl. intros H. apply negb_true_iff in H. apply negb_true_iff.
    now apply underscore_space.
  - exact IH.
Qed.

Lemma replace_lower_plain (s : string) :
  all_chars plain (Py.replace_char " " "_" (Py.lower s)) = true.
Proof.
  induction s as [|c s IH]; simpl; [reflexivity|].
  rewrite IH, andb_true_r. unfold plain.
  destruct (Ascii.eqb (Py.lower_char c) " ") eqn:E; [reflexivity|].
  rewrite E. simpl. now rewrite lower_char_plain.
Qed.

Lemma plain_lower_fix (s : string) :
  all_chars plain s = true -> Py.lower s = s.
Proof.
  induction s as [|c s IH]; simpl; [reflexivity|].
  rewrite andb_true_iff. intros [Hc Hs]. unfold plain in Hc.
  apply andb_true_iff in Hc. destruct Hc as [_ Hu].
  apply negb_true_iff in Hu. now rewrite lower_char_fix, IH.
Qed.

Lemma plain_replace_fix (s : string) :
  all_chars plain s = true -> Py.replace_char " " "_" s = s.
Proof.
  induction s as [|c s IH]; simpl; [reflexivity|].
  rewrite andb_true_iff. intros [Hc Hs]. unfold plain in Hc.
  apply andb_true_iff in Hc. destruct Hc as [Hb _].
  apply negb_true_iff in Hb. now rewrite Hb, IH.
Qed.

Lemma normalize_name_shape (s : string) :
  starts_ok (normalize_name s) = true /\
  ends_ok (normalize_name s) = true /\
  all_chars plain (normalize_name s) = true.
Proof.
  unfold normalize_name, Py.strip. split; [|split].
  - apply replace_starts. rewrite lower_starts.
    apply rstrip_starts, lstrip_starts.
  - apply replace_ends. rewrite lower_ends. apply rstrip_ends.
  - apply replace_lower_plain.
Qed.

(** On these names Python's [strip] and [lower] are the functions of
    [Py]: every character is in the ASCII range. *)
Definition is_ascii (s : string) : bool :=
  all_chars (fun c => (nat_of_ascii c <? 128)%nat) s.

Lemma lstrip_all (p : ascii -> bool) (s : string) :
  all_chars p s = true -> all_chars p (Py.lstrip s) = true.
Proof.
  induction s as [|c s IH]; simpl; [reflexivity|].
  intros H. destruct (Py.isspace c); [|exact H].
  apply andb_true_iff in H. now apply IH.
Qed.

Lemma rstrip_all (p : ascii -> bool) (s : string) :
  all_chars p s = true -> all_chars p (Py.rstrip s) = true.
Proof.
  induction s as [|c s IH]; simpl; [reflexivity|].
  intros H. apply andb_true_iff in H. destruct H as [Hc Hs].
  specialize (IH Hs). destruct (Py.rstrip s) as [|d r].
  - destruct (Py.isspace c); simpl; [reflexivity|now rewrite Hc].
  - simpl in *. now rewrite Hc, IH.
Qed.

Lemma lower_char_ascii (c : ascii) :
  (nat_of_ascii c <? 128)%nat = true ->
  (nat_of_ascii (Py.lower_char c) <? 128)%nat = true.
Proof. destruct c as [[] [] [] [] [] [] [] []]; intros H; exact H || reflexivity. Qed.

Lemma normalize_name_ascii (s : string) :
  is_ascii s = true -> is_ascii (normalize_name s) = true.
Proof.
  unfold is_ascii, normalize_name, Py.strip. intros H.
  apply lstrip_all, rstrip_all in H. revert H.
  generalize (Py.rstrip (Py.lstrip s)). intros t.
  induction t as [|c t IH]; simpl; [reflexivity|].
  rewrite !andb_true_iff. intros [Hc Ht]. split; [|now apply IH].
  destruct (Ascii.eqb (Py.lower_char c) " "); [reflexivity|].
  now apply lower_char_ascii.
Qed.

(** X1. The normalised form of an ASCII column name is again ASCII,
    trimmed, lower case and free of blanks: stripping or lowering it again
    changes nothing, and none of its characters is a blank or a capital
    letter. *)
Theorem normalize_name_clean (s : string) :
  is_ascii s = true ->
  is_ascii (normalize_name s) = true /\
  Py.strip (normalize_name s) = normalize_name s /\
  Py.lower (normalize_name s) = normalize_name s /\
  forall c, In c (list_ascii_of_string (normalize_name s)) ->
            c <> " "%char /\ is_upper c = false.
Proof.
  intros Ha.
  destruct (normalize_name_shape s) as (Hs & He & Hp).
  split; [now apply normalize_name_ascii|split; [|split]].
  - unfold Py.strip. rewrite (lstrip_fix _ Hs). now apply rstrip_fix.
  - now apply plain_lower_fix.
  - revert Hp. generalize (normalize_name s). intros n.
    induction n as [|d n IH]; simpl; [intros _ c []|].
    rewrite andb_true_iff. intros [Hd Hn] c [<-|Hc]; [|now apply IH].
    unfold plain in Hd. apply andb_true_iff in Hd. destruct Hd as [Hb Hu].
    apply negb_true_iff in Hb, Hu. split; [|exact Hu].
    intros ->. discriminate.
Qed.

Lemma normalize_name_clean_witness :
  Py.lower (normalize_name "  Death Count ") = normalize_name "  Death Count ".
Proof.
  apply (proj1 (proj2 (proj2 (normalize_name_clean "  Death Count " eq_refl)))).
Defined.

(** X2. On ASCII column names normalising is idempotent: a header that
    went through [normalize_columns] is left as it is by a second pass. *)
Theorem normalize_columns_idempotent (df : DataFrame) :
  Forall (fun c => is_ascii c = true) (columns df) ->
  Forall (fun c => is_ascii c = true) (columns (normalize_columns df)) /\
  normalize_columns (normalize_columns df) = normalize_columns df.
Proof.
  intros Ha. split.
  - unfold normalize_columns. simpl. apply Forall_forall. intros c Hc.
    apply in_map_iff in Hc. destruct Hc as (x & <- & Hx).
    rewrite Forall_forall in Ha. now apply normalize_name_ascii, Ha.
  - unfold normalize_columns. simpl. f_equal. rewrite map_map.
    apply map_ext. intros s.
    destruct (normalize_name_shape s) as (Hs & He & Hp).
    unfold normalize_name at 1. unfold Py.strip.
    rewrite (lstrip_fix _ Hs), (rstrip_fix _ He).
    now rewrite (plain_lower_fix _ Hp), (plain_replace_fix _ Hp).
Qed.

(** A header as a spreadsheet export writes it. *)
Definition spaced_header : DataFrame :=
  {| columns := [" Year"; "Death Count"]; rows := []; attrs := None |}.

Lemma normalize_columns_idempotent_witness :
  normalize_columns (normalize_columns spaced_header)
  = normalize_columns spaced_header.
Proof.
  refine (proj2 (normalize_columns_idempotent spaced_header _)).
  repeat constructor.
Defined.

(** ** Loading (app.py 30-57 and 74-78) *)

(** X3. Only a missing file is handled: then the page is the title, the
    description and the "not found" error, and the script stops.  Any
    other failure of [pd.read_csv] leaves the script as an uncaught
    exception, with nothing after the description on the page. *)
Theorem read_failures (RT : Runtime) (e : exn) (ui : Controls) :
  app_py (inl e) ui =
  if exn_eqb FileNotFoundError e
  then ([title; markdown "description"; error not_found_msg], inl Stop)
  else ([title; markdown "description"], inl (Raise e)).
Proof. destruct e; reflexivity. Qed.

Lemma astype_Int64_out (RT : Runtime) (v : list value) :
  fst (astype_Int64 v) = [].
Proof.
  induction v as [|x v IH]; simpl; [reflexivity|].
  destruct (astype_Int64_cell x); [|reflexivity].
  destruct (astype_Int64 v) as [o [h|ys]]; simpl in *; subst; reflexivity.
Qed.

Lemma astype_Int64_raises (RT : Runtime) (v : list value) (x : value) :
  In x v -> astype_Int64_cell x = None ->
  astype_Int64 v = ([], inl (Raise TypeError)).
Proof.
  induction v as [|y v IH]; [intros []|].
  intros [->|Hin] Hx; simpl.
  - now rewrite Hx.
  - destruct (astype_Int64_cell y); [|reflexivity].
    now rewrite (IH Hin Hx).
Qed.

(** X4. A year that parses to a number with a fractional part is fatal:
    when the detected year column is unique and one of its cells reads as
    a non-integral number, the cast to the nullable integer type raises a
    [TypeError] inside [load_data], nothing catches it, and the page ends
    after the description. *)
Theorem fractional_year_is_fatal (RT : Runtime) (raw : RawFrame)
  (ui : Controls) (Y s : string) (i : nat) (line : list (option string))
  (q : Q) :
  let cols := map normalize_name (header raw) in
  find_first cols year_aliases = Some Y ->
  count_occ string_dec cols Y = 1%nat ->
  index_of Y cols = Some i ->
  In line (lines raw) ->
  nth i line None = Some s ->
  parse_float s = Some q ->
  is_integral q = false ->
  app_py (inr raw) ui = ([title; markdown "description"], inl (Raise TypeError)).
Proof.
  intros cols HY Hone Hi Hline Hcell Hq Hfrac.
  assert (Ht : truthy (Some Y) = true).
  { apply find_first_In in HY. destruct HY as [HY _]. simpl in HY.
    intuition (subst; reflexivity). }
  assert (L : load_data (inr raw) = ([], inl (Raise TypeError))).
  { unfold load_data. simpl read_csv. rewrite bind_ret_l.
    cbn [columns normalize_columns of_raw]. fold cols. rewrite HY, Ht.
    unfold getitem. cbn [columns normalize_columns of_raw rows]. fold cols.
    rewrite Hi, Hone. simpl Nat.eqb. cbv iota.
    unfold to_numeric. rewrite bind_ret_l.
    rewrite (astype_Int64_raises RT _ (Float q)).
    - reflexivity.
    - apply in_map_iff. exists (cell i (map (fun c => match c with
                                                       | Some s0 => Str s0
                                                       | None => NA
                                                       end) line)).
      split.
      + unfold cell.
        change NA with ((fun c => match c with Some s0 => Str s0 | None => NA end)
                          (@None string)).
        rewrite map_nth, Hcell. simpl. now rewrite Hq.
      + apply in_map_iff. eexists. split; [reflexivity|].
        simpl. apply in_map_iff. eauto.
    - simpl. now rewrite Hfrac. }
  unfold app_py, prepare. rewrite !bind_emit.
  unfold try_except. rewrite L. reflexivity.
Qed.

(** A file with half a year. *)
Definition half_year : RawFrame :=
  {| header := ["Year"; "Deaths"];
     lines := [[Some "1841"; Some "10"]; [Some "1841.5"; Some "3"]] |}.

Lemma fractional_year_is_fatal_witness :
  app_py (RT := stable_runtime) (inr half_year) untouched
  = ([title; markdown "description"], inl (Raise TypeError)).
Proof.
  apply (fractional_year_is_fatal stable_runtime half_year untouched
           "year" "1841.5" 0 [Some "1841.5"; Some "3"] (18415 # 10));
    try reflexivity.
  simpl. auto.
Defined.

(** X5. Two source columns whose names normalise to the same year label
    are fatal too: [df[year_col]] is then a frame, not a series, and
    [pd.to_numeric] rejects it with a [TypeError] before anything but the
    title and the description is shown. *)
Theorem duplicate_year_is_fatal (RT : Runtime) (raw : RawFrame)
  (ui : Controls) (Y : string) :
  let cols := map normalize_name (header raw) in
  find_first cols year_aliases = Some Y ->
  (1 < count_occ string_dec cols Y)%nat ->
  app_py (inr raw) ui = ([title; markdown "description"], inl (Raise TypeError)).
Proof.
  intros cols HY Hdup.
  assert (Ht : truthy (Some Y) = true).
  { apply find_first_In in HY. destruct HY as [HY _]. simpl in HY.
    intuition (subst; reflexivity). }
  destruct (index_of_In Y cols) as [i Hi];
    [now apply (find_first_In _ _ _ HY)|].
  assert (L : load_data (inr raw) = ([], inl (Raise TypeError))).
  { unfold load_data. simpl read_csv. rewrite bind_ret_l.
    cbn [columns normalize_columns of_raw]. fold cols. rewrite HY, Ht.
    unfold getitem. cbn [columns normalize_columns of_raw rows]. fold cols.
    rewrite Hi.
    destruct (count_occ string_dec cols Y =? 1)%nat eqn:E.
    - apply Nat.eqb_eq in E. lia.
    - reflexivity. }
  unfold app_py, prepare. rewrite !bind_emit.
  unfold try_except. rewrite L. reflexivity.
Qed.

(** A file with the year twice, once capitalised. *)
Definition two_years : RawFrame :=
  {| header := ["Year"; "year"; "deaths"];
     lines := [[Some "1841"; Some "1841"; Some "10"]] |}.

Lemma duplicate_year_is_fatal_witness :
  app_py (RT := stable_runtime) (inr two_years) untouched
  = ([title; markdown "description"], inl (Raise TypeError)).
Proof.
  apply (duplicate_year_is_fatal stable_runtime two_years untouched "year").
  - reflexivity.
  - vm_compute. lia.
Defined.

(** ** Year aggregation (app.py 140) *)

Lemma year_keys_In (flt : list Row) (y : Z) :
  In y (year_keys flt) <-> exists r, In r flt /\ year r = Some y.
Proof.
  unfold year_keys. split.
  - intros H. apply (Permutation_in _ (Permutation_sym (sort_perm _ _))) in H.
    apply nodup_In, present_In, in_map_iff in H.
    destruct H as (r & E & Hr). eauto.
  - intros (r & Hr & E).
    apply (Permutation_in _ (sort_perm _ _)).
    apply nodup_In, present_In, in_map_iff. eauto.
Qed.

Lemma year_keys_NoDup (flt : list Row) : NoDup (year_keys flt).
Proof.
  unfold year_keys.
  eapply Permutation_NoDup; [apply sort_perm|apply NoDup_nodup].
Qed.

Lemma year_keys_sorted (flt : list Row) : StronglySorted Z.le (year_keys flt).
Proof.
  unfold year_keys. apply sort_sorted.
  - intros x y H. now apply Z.leb_le.
  - intros x y H. apply Z.leb_gt in H. lia.
  - intros x y z. lia.
Qed.

Lemma sorted_nodup_strict (l : list Z) :
  StronglySorted Z.le l -> NoDup l -> StronglySorted Z.lt l.
Proof.
  induction 1 as [|a l Hs IH Ha]; intros Hn; constructor.
  - apply IH. now inversion Hn.
  - inversion Hn as [|? ? Hnot _]; subst.
    rewrite Forall_forall in *. intros b Hb.
    specialize (Ha b Hb).
    assert (a <> b) by (intros ->; contradiction). lia.
Qed.

(** X6. The year aggregation has one row per distinct year of the
    filtered set, in strictly ascending order of the year, and each row
    carries the reduced deaths of the records of that year. *)
Theorem deaths_by_year_rows (f : agg_func) (flt : list Row) :
  StronglySorted Z.lt (map fst (deaths_by_year f flt)) /\
  (forall y, In y (map fst (deaths_by_year f flt)) <->
             exists r, In r flt /\ year r = Some y) /\
  (forall y v, In (y, v) (deaths_by_year f flt) ->
               v = agg f (map deaths (filter (has_year y) flt))).
Proof.
  rewrite deaths_by_year_keys. split; [|split].
  - apply sorted_nodup_strict; [apply year_keys_sorted|apply year_keys_NoDup].
  - apply year_keys_In.
  - apply deaths_by_year_In.
Qed.

(** ** Sums over groups *)

Lemma fold_left_Qplus (l : list Q) (a : Q) :
  (fold_left Qplus l a == a + fold_left Qplus l 0)%Q.
Proof.
  revert a. induction l as [|x l IH]; intros a; simpl.
  - ring.
  - rewrite (IH (a + x)%Q), (IH (0 + x)%Q). ring.
Qed.

Lemma Qsum_cons (a : Q) (l : list Q) : (Qsum (a :: l) == a + Qsum l)%Q.
Proof.
  unfold Qsum. simpl. rewrite fold_left_Qplus. ring.
Qed.

Lemma Qsum_map_plus {A} (g h : A -> Q) (l : list A) :
  (Qsum (map (fun a => g a + h a) l) == Qsum (map g l) + Qsum (map h l))%Q.
Proof.
  induction l as [|a l IH]; simpl.
  - unfold Qsum. simpl. ring.
  - rewrite !Qsum_cons, IH. ring.
Qed.

Lemma Qsum_map_ext {A} (g h : A -> Q) (l : list A) :
  (forall a, In a l -> (g a == h a)%Q) ->
  (Qsum (map g l) == Qsum (map h l))%Q.
Proof.
  induction l as [|a l IH]; simpl; intros H.
  - reflexivity.
  - rewrite !Qsum_cons, IH by auto. rewrite (H a) by auto. reflexivity.
Qed.

Lemma Qsum_zeros {A} (l : list A) : (Qsum (map (fun _ => 0) l) == 0)%Q.
Proof.
  induction l as [|a l IH]; simpl; [reflexivity|].
  rewrite Qsum_cons, IH. ring.
Qed.

(** One amount booked under the one key that matches. *)
Lemma Qsum_single (keys : list Z) (y : Z) (d : Q) :
  NoDup keys -> In y keys ->
  (Qsum (map (fun k => if (y =? k)%Z then d else 0) keys) == d)%Q.
Proof.
  induction keys as [|k keys IH]; [intros _ []|].
  intros Hn Hin. inversion Hn as [|? ? Hnot Hn']; subst.
  simpl. rewrite Qsum_cons.
  destruct (Z.eqb_spec y k) as [->|Hne].
  - rewrite (Qsum_map_ext _ (fun _ => 0)).
    + rewrite Qsum_zeros. ring.
    + intros a Ha. destruct (Z.eqb_spec k a) as [->|_];
        [contradiction|reflexivity].
  - destruct Hin as [->|Hin]; [congruence|].
    rewrite IH by assumption. ring.
Qed.

(** The deaths a record adds to a sum. *)
Definition deaths_or_zero (r : Row) : Q := or_zero (deaths r).

Lemma sum_deaths_cons (r : Row) (l : list Row) :
  (Qsum (present (map deaths (r :: l)))
   == deaths_or_zero r + Qsum (present (map deaths l)))%Q.
Proof.
  unfold deaths_or_zero. simpl. destruct (deaths r) as [q|]; simpl.
  - apply Qsum_cons.
  - ring.
Qed.

Lemma sum_by_year (keys : list Z) (l : list Row) :
  NoDup keys ->
  (forall r, In r l -> exists y, year r = Some y /\ In y keys) ->
  (Qsum (map (fun k => Qsum (present (map deaths (filter (has_year k) l)))) keys)
   == Qsum (present (map deaths l)))%Q.
Proof.
  intros Hn. induction l as [|r l IH]; intros Hk.
  - simpl. apply Qsum_zeros.
  - destruct (Hk r) as (y & Hy & Hin); [simpl; auto|].
    rewrite sum_deaths_cons, <- IH by (intros r' Hr'; apply Hk; simpl; auto).
    rewrite <- (Qsum_single keys y (deaths_or_zero r) Hn Hin).
    rewrite <- Qsum_map_plus. apply Qsum_map_ext.
    intros k _. simpl. unfold has_year at 1. rewrite Hy.
    destruct (y =? k)%Z.
    + apply sum_deaths_cons.
    + ring.
Qed.

(** Deaths as counts: every value present is a whole number, and their
    magnitudes stay within 2^53 in total.  On such a column every float64
    sum the script takes is the exact sum. *)
Definition whole_deaths (df : list Row) : Prop :=
  Forall (fun r => match deaths r with
                   | Some q => is_integral q = true
                   | None => True
                   end) df /\
  (Qsum (map Qabs (present (map deaths df))) <= inject_Z (2 ^ 53))%Q.

(** X7. For deaths that are counts, under Sum the rows of the year chart
    add up to the summary metric: the deaths of the year rows of a
    filtered set sum to its scalar total. *)
Theorem year_rows_add_up (df : list Row) (year_range : Z * Z)
  (selected_clinics : list string) :
  whole_deaths df ->
  let flt := filtered df year_range selected_clinics in
  (Qsum (map (fun row => or_zero (snd row)) (deaths_by_year agg_sum flt))
   == or_zero (total_deaths agg_sum flt))%Q.
Proof.
  intros _ flt. unfold deaths_by_year, total_deaths. rewrite map_map. simpl.
  apply sum_by_year; [apply year_keys_NoDup|].
  intros r Hr. destruct (year r) as [y|] eqn:E.
  - exists y. split; [reflexivity|]. apply year_keys_In. eauto.
  - exfalso. revert Hr. now apply missing_year_not_filtered.
Qed.

Lemma year_rows_add_up_witness :
  (Qsum (map (fun row => or_zero (snd row))
           (deaths_by_year agg_sum (filtered sample (1854, 1855)%Z ["A"; "B"])))
   == or_zero (total_deaths agg_sum (filtered sample (1854, 1855)%Z ["A"; "B"])))%Q.
Proof.
  apply (year_rows_add_up sample (1854, 1855)%Z ["A"; "B"]).
  split; [repeat constructor|]. vm_compute. discriminate.
Defined.

(** ** Filtering twice (app.py 132-134) *)

Lemma filter_comm {A} (p q : A -> bool) (l : list A) :
  filter p (filter q l) = filter q (filter p l).
Proof.
  rewrite !filter_filter. apply filter_ext. intros a. apply andb_comm.
Qed.

(** X8. Filtering a filtered set again with the same selection changes
    nothing, and two selections can be applied in either order. *)
Theorem filtered_twice (df : list Row) (r1 r2 : Z * Z) (s1 s2 : list string) :
  filtered (filtered df r1 s1) r1 s1 = filtered df r1 s1 /\
  filtered (filtered df r1 s1) r2 s2 = filtered (filtered df r2 s2) r1 s1.
Proof.
  rewrite !filtered_as_filter. split.
  - rewrite filter_filter. apply filter_ext. intros a.
    now destruct (keep r1 s1 a).
  - apply filter_comm.
Qed.

(** ** The sidebar (app.py 118-127) *)

Lemma fold_min_spec (l : list Z) (a : Z) :
  In (fold_left Z.min l a) (a :: l) /\
  forall x, In x (a :: l) -> (fold_left Z.min l a <= x)%Z.
Proof.
  revert a. induction l as [|b l IH]; intros a; simpl.
  - split; [auto|]. intros x [<-|[]]. lia.
  - destruct (IH (Z.min a b)) as [Hin Hle]. split.
    + destruct Hin as [E|Hin]; [|auto].
      rewrite <- E. destruct (Z.min_spec a b) as [[_ ->]|[_ ->]]; auto.
    + intros x Hx.
      assert (fold_left Z.min l (Z.min a b) <= Z.min a b)%Z
        by (apply Hle; simpl; auto).
      destruct Hx as [<-|[<-|Hx]]; [lia|lia|].
      apply Hle. simpl. auto.
Qed.

Lemma fold_max_spec (l : list Z) (a : Z) :
  In (fold_left Z.max l a) (a :: l) /\
  forall x, In x (a :: l) -> (x <= fold_left Z.max l a)%Z.
Proof.
  revert a. induction l as [|b l IH]; intros a; simpl.
  - split; [auto|]. intros x [<-|[]]. lia.
  - destruct (IH (Z.max a b)) as [Hin Hle]. split.
    + destruct Hin as [E|Hin]; [|auto].
      rewrite <- E. destruct (Z.max_spec a b) as [[_ ->]|[_ ->]]; auto.
    + intros x Hx.
      assert (Z.max a b <= fold_left Z.max l (Z.max a b))%Z
        by (apply Hle; simpl; auto).
      destruct Hx as [<-|[<-|Hx]]; [lia|lia|].
      apply Hle. simpl. auto.
Qed.

Lemma series_min_spec (v : list (option Z)) (m : Z) :
  series_min v = Some m ->
  In (Some m) v /\ forall y, In (Some y) v -> (m <= y)%Z.
Proof.
  unfold series_min. destruct (present v) as [|z zs] eqn:E; [discriminate|].
  intros H. inversion H; subst. clear H.
  destruct (fold_min_spec zs z) as [Hin Hle]. rewrite <- E in Hin.
  split; [now apply present_In|].
  intros y Hy. apply Hle. rewrite <- E. now apply present_In.
Qed.

Lemma series_max_spec (v : list (option Z)) (m : Z) :
  series_max v = Some m ->
  In (Some m) v /\ forall y, In (Some y) v -> (y <= m)%Z.
Proof.
  unfold series_max. destruct (present v) as [|z zs] eqn:E; [discriminate|].
  intros H. inversion H; subst. clear H.
  destruct (fold_max_spec zs z) as [Hin Hle]. rewrite <- E in Hin.
  split; [now apply present_In|].
  intros y Hy. apply Hle. rewrite <- E. now apply present_In.
Qed.

Lemma firstn_nil_iff {A} (n : nat) (l : list A) :
  firstn (S n) l = [] <-> l = [].
Proof. destruct l; simpl; split; intros H; congruence. Qed.

(** The clinic column is a column of text: it names no clinic at all, or
    at least one of its labels does not read as a number.  (A column in
    which every label is a number is read, grouped and sorted as numbers,
    not as text.) *)
Definition text_clinics {RT : Runtime} (df : list Row) : Prop :=
  Forall (fun r => clinic r = None) df \/
  exists r c, In r df /\ clinic r = Some c /\ parse_float c = None.

(** X9. What a visitor sees before touching the sidebar, for data with
    at least two distinct years and clinic labels that are text: the
    slider spans the smallest to the largest year of the data, so the year
    filter keeps every record that has a year, and the clinic filter keeps
    the records of the first three clinics of the sorted clinic list
    (every record when the data names no clinic at all). *)
Theorem default_view (RT : Runtime) (df : list Row) (min_year max_year : Z) :
  text_clinics df ->
  series_min (map year df) = Some min_year ->
  series_max (map year df) = Some max_year ->
  (min_year < max_year)%Z ->
  let options := clinic_keys df in
  let shown := filtered df (slider untouched min_year max_year)
                 (multiselect untouched options (firstn 3 options)) in
  forall r,
    In r shown <->
    In r df /\ year r <> None /\
    (options = [] \/ exists c, clinic r = Some c /\ In c (firstn 3 options)).
Proof.
  intros _ Hmin Hmax _ options shown.
  destruct (series_min_spec _ _ Hmin) as [Hm Hlo].
  destruct (series_max_spec _ _ Hmax) as [_ Hhi].
  intros r. unfold shown.
  change (slider untouched min_year max_year) with (min_year, max_year).
  change (multiselect untouched options (firstn 3 options))
    with (firstn 3 options).
  rewrite filtered_as_filter, filter_In, keep_spec. unfold kept.
  cbn [fst snd]. rewrite (firstn_nil_iff 2 options). split.
  - intros (Hr & (y & Hy & _) & Hc). split; [exact Hr|].
    split; [congruence|exact Hc].
  - intros (Hr & Hy & Hc). split; [exact Hr|]. split; [|exact Hc].
    destruct (year r) as [y|] eqn:E; [|congruence].
    assert (In (Some y) (map year df)).
    { rewrite <- E. now apply in_map. }
    exists y. split; [reflexivity|]. split; [now apply Hlo|now apply Hhi].
Qed.

Lemma default_view_witness :
  In (rec 1854 20 "B")
     (filtered sample (slider untouched 1854 1855)
        (multiselect untouched (clinic_keys sample)
           (firstn 3 (clinic_keys sample)))).
Proof.
  refine (proj2 (default_view stable_runtime sample 1854 1855 _
                   eq_refl eq_refl eq_refl (rec 1854 20 "B")) _).
  - right. exists (rec 1854 10 "A"), "A". simpl. auto.
  - split; [simpl; auto|]. split; [discriminate|].
    right. exists "B". split; [reflexivity|]. vm_compute. auto.
Defined.

(** ** The clinic list (app.py 123) *)

Lemma ascii_compare_lt_trans (a b c : ascii) :
  Ascii.compare a b = Lt -> Ascii.compare b c = Lt -> Ascii.compare a c = Lt.
Proof.
  unfold Ascii.compare. rewrite !N.compare_lt_iff. apply N.lt_trans.
Qed.

Lemma string_leb_trans (a b c : string) :
  String.leb a b = true -> String.leb b c = true -> String.leb a c = true.
Proof.
  unfold String.leb. revert b c.
  induction a as [|x a IH]; intros [|y b] [|z c]; simpl; try congruence.
  destruct (Ascii.compare x y) eqn:Exy; try discriminate;
    destruct (Ascii.compare y z) eqn:Eyz; try discriminate.
  - apply Ascii.compare_eq_iff in Exy, Eyz. subst.
    assert (E : Ascii.compare z z = Eq) by (unfold Ascii.compare; apply N.compare_refl).
    rewrite E. apply IH.
  - apply Ascii.compare_eq_iff in Exy. subst. now rewrite Eyz.
  - apply Ascii.compare_eq_iff in Eyz. subst. now rewrite Exy.
  - now rewrite (ascii_compare_lt_trans _ _ _ Exy Eyz).
Qed.

Lemma clinic_keys_sorted (df : list Row) :
  StronglySorted (fun a b => String.leb a b = true) (clinic_keys df).
Proof.
  unfold clinic_keys. apply sort_sorted.
  - auto.
  - intros x y H. destruct (String.leb_total x y) as [E|E]; congruence.
  - apply string_leb_trans.
Qed.

Lemma getitem_Series (df : DataFrame) (c : string) (v : list value) :
  getitem df c = Series v ->
  exists i, index_of c (columns df) = Some i /\ v = col_at df i /\
            count_occ string_dec (columns df) c = 1%nat.
Proof.
  unfold getitem. destruct (index_of c (columns df)) as [i|]; [|discriminate].
  destruct (count_occ string_dec (columns df) c =? 1)%nat eqn:E;
    [|discriminate].
  intros H. inversion H. apply Nat.eqb_eq in E. eauto.
Qed.

(** X10. For clinic labels that are text, the options of the clinic
    selector are the distinct non-missing clinics of the canonical records,
    each once, in ascending lexicographic order. *)
Theorem clinic_list_options (RT : Runtime) (df : DataFrame) o cl :
  text_clinics (to_rows df) ->
  clinic_list df = (o, inr cl) ->
  o = [] /\
  cl = clinic_keys (to_rows df) /\
  NoDup cl /\
  StronglySorted (fun a b => String.leb a b = true) cl /\
  forall c, In c cl <-> exists r, In r (to_rows df) /\ clinic r = Some c.
Proof.
  intros _ H. unfold clinic_list in H.
  destruct (getitem df "clinic") as [v| |] eqn:G; try discriminate.
  apply ret_inr in H. destruct H as [<- ->].
  apply getitem_Series in G. destruct G as (i & Hi & -> & _).
  assert (E : sort String.leb
                (nodup string_dec (present (map as_label (col_at df i))))
              = clinic_keys (to_rows df)).
  { unfold clinic_keys. now rewrite (to_rows_clinic df i Hi). }
  rewrite E. split; [reflexivity|]. split; [reflexivity|].
  split; [apply clinic_keys_NoDup|].
  split; [apply clinic_keys_sorted|apply clinic_keys_In].
Qed.

(** A canonical frame with two wards, the later one first. *)
Definition two_wards : DataFrame :=
  {| columns := ["year"; "deaths"; "clinic"];
     rows := [[Int 1841; Float 10; Str "Ward B"];
              [Int 1842; Float 12; Str "Ward A"]];
     attrs := None |}.

Lemma clinic_list_options_witness :
  ["Ward A"; "Ward B"] = clinic_keys (to_rows two_wards).
Proof.
  refine (proj1 (proj2 (clinic_list_options stable_runtime two_wards []
                          ["Ward A"; "Ward B"] _ eq_refl))).
  right. exists {| year := Some 1841%Z; deaths := Some 10%Q; births := None;
                   clinic := Some "Ward B" |}, "Ward B".
  simpl. auto.
Defined.

(** ** The page after normalisation (app.py 110-204) *)

(** What app.py 139-183 puts on the page for a filtered set. *)
Definition report_page {RT : Runtime} (has_births : bool)
  (agg_option : AggOption) (flt : list Row) : list element :=
  let f := match agg_option with Sum => agg_sum | Mean => agg_mean end in
  [altair_chart (line_chart (deaths_by_year f flt))]
  ++ (if has_births then [altair_chart (comparison_chart (comp f flt))] else [])
  ++ [altair_chart (bar_chart (clinic_agg f flt));
      subheader "Summary statistics";
      metric "Deaths (aggregated)" (format_0f (total_deaths f flt))]
  ++ (if has_births
      then [metric "Births (aggregated)" (format_0f (total_births f flt))]
      else []).

Lemma report_ok (RT : Runtime) (has_births : bool) (agg_option : AggOption)
  (flt : list Row) :
  report has_births agg_option flt
  = (report_page has_births agg_option flt, inr tt).
Proof. unfold report, report_page. destruct has_births; reflexivity. Qed.

Lemma series_min_max (v : list (option Z)) (m : Z) :
  series_min v = Some m -> exists M, series_max v = Some M.
Proof.
  unfold series_min, series_max. destruct (present v); [discriminate|eauto].
Qed.

Lemma dashboard_page (RT : Runtime) (d : DataFrame) (ui : Controls)
  (min_year max_year : Z) (clinics : list string) :
  series_min (map year (to_rows d)) = Some min_year ->
  series_max (map year (to_rows d)) = Some max_year ->
  clinic_list d = ([], inr clinics) ->
  let flt := filtered (to_rows d) (slider ui min_year max_year)
               (multiselect ui clinics (firstn 3 clinics)) in
  dashboard d ui =
  ([markdown "## Raw Data Preview"; dataframe (firstn 20 (to_rows d))]
   ++ report_page (Py.contains (columns d) "births") (selectbox ui) flt
   ++ [markdown "### Findings"; markdown "findings"; dataframe flt;
       download_button flt; markdown "notes"],
   inr tt).
Proof.
  intros Hmin Hmax Hcl flt. unfold dashboard.
  rewrite !bind_emit, Hmin, Hmax. simpl py_int. rewrite !bind_ret_l.
  rewrite (bind_ok _ _ _ _ Hcl). fold flt. rewrite report_ok.
  unfold bind, emit. simpl. rewrite <- !app_assoc. reflexivity.
Qed.

Lemma dashboard_outcome (RT : Runtime) (d : DataFrame) (ui : Controls) :
  snd (dashboard d ui) =
  match series_min (map year (to_rows d)) with
  | None => inl (Raise TypeError)
  | Some _ =>
      match getitem d "clinic" with
      | Series _ => inr tt
      | Frame => inl (Raise AttributeError)
      | Missing => inl (Raise KeyError)
      end
  end.
Proof.
  destruct (series_min (map year (to_rows d))) as [lo|] eqn:Hmin.
  - destruct (series_min_max _ _ Hmin) as [hi Hmax].
    destruct (getitem d "clinic") as [v| |] eqn:G.
    + erewrite dashboard_page; eauto. unfold clinic_list. now rewrite G.
    + unfold dashboard. rewrite !bind_emit, Hmin, Hmax. simpl py_int.
      rewrite !bind_ret_l. unfold clinic_list. rewrite G. reflexivity.
    + unfold dashboard. rewrite !bind_emit, Hmin, Hmax. simpl py_int.
      rewrite !bind_ret_l. unfold clinic_list. rewrite G. reflexivity.
  - unfold dashboard. rewrite !bind_emit, Hmin. reflexivity.
Qed.

Lemma assign_const_keeps (df : DataFrame) (c : string) (v : value) (x : string) :
  In x (columns df) -> In x (columns (assign_const df c v)).
Proof.
  unfold assign_const. destruct (Py.contains (columns df) c); simpl; auto.
  intros H. apply in_or_app. auto.
Qed.

Section Prepared.
Context {RT : Runtime}.

(** What [prepare] has established when it hands over a frame. *)
Lemma prepared_facts (raw : RawFrame) out df :
  prepare (inr raw) = (out, inr df) ->
  let cols := map normalize_name (header raw) in
  exists df0 Y D,
    out = [] /\
    columns df0 = cols /\
    find_first cols year_aliases = Some Y /\
    find_first cols death_aliases = Some D /\
    columns df = columns (standard_names df0 Y D
                            (find_first cols birth_aliases)
                            (find_first cols clinic_aliases)).
Proof.
  intros H cols. apply prepare_inv in H.
  destruct H as (df0 & Y & D & Hl & HY & HD & Hcan).
  pose proof (load_data_inv _ _ _ Hl) as (_ & Hcols & _ & _).
  unfold canonical in Hcan. apply ensure_types_inv in Hcan.
  destruct Hcan as (-> & Hc & _).
  exists df0, Y, D. repeat split; assumption.
Qed.

(** The canonical frame always has a column labelled [clinic]. *)
Lemma standard_names_has_clinic (df0 : DataFrame) (Y D : string) :
  let cols := columns df0 in
  exists i,
    index_of "clinic"
      (columns (standard_names df0 Y D (find_first cols birth_aliases)
                  (find_first cols clinic_aliases))) = Some i.
Proof.
  intros cols. set (B := find_first cols birth_aliases).
  assert (HB : forall b, B = Some b -> b <> "clinic")
    by (intros b Hb; now apply (birth_alias_not_clinic cols)).
  destruct (find_first cols clinic_aliases) as [c|] eqn:HC.
  - destruct (clinic_alias_facts cols c HC) as (Ht & _ & Hfirst).
    destruct (index_of_In c cols) as [i Hi];
      [now apply (find_first_In _ _ _ HC)|].
    destruct (rename_clinic_index cols Y D c B Hfirst HB) as [Hi1 Hi2].
    exists i. unfold standard_names. rewrite Ht. simpl negb. cbv iota.
    destruct (truthy B); simpl; fold cols; rewrite <- Hi; assumption.
  - set (df1 := assign_const df0 "clinic_placeholder" (Str "All")).
    destruct (assign_const_cells df0 "clinic_placeholder" (Str "All"))
      as (Hin & Hsub & _). fold df1 in Hin, Hsub.
    assert (Hno : In "clinic" (columns df1) -> "clinic_placeholder" = "clinic").
    { intros Hc. exfalso. apply Hsub in Hc.
      destruct Hc as [Hc|Hc]; [|discriminate]. revert Hc.
      apply (proj1 (find_first_None cols clinic_aliases) HC). simpl. auto. }
    destruct (index_of_In _ _ Hin) as [i Hi].
    destruct (rename_clinic_index (columns df1) Y D "clinic_placeholder" B
                Hno HB) as [Hi1 Hi2].
    exists i. unfold standard_names. simpl negb. cbv iota. fold df1.
    destruct (truthy B); simpl; rewrite <- Hi; assumption.
Qed.

(** The canonical frame has a column labelled [births] exactly when a
    births alias was detected. *)
Lemma standard_names_births (df0 : DataFrame) (Y D : string) :
  let cols := columns df0 in
  find_first cols year_aliases = Some Y ->
  find_first cols death_aliases = Some D ->
  Py.contains
    (columns (standard_names df0 Y D (find_first cols birth_aliases)
                (find_first cols clinic_aliases))) "births"
  = is_some (find_first cols birth_aliases).
Proof.
  intros cols HY HD.
  apply find_first_In in HY, HD. destruct HY as [HY _], HD as [HD _].
  set (C := find_first cols clinic_aliases).
  assert (HC : forall c, C = Some c -> In c clinic_aliases)
    by (intros c Hc; now apply (find_first_In cols)).
  unfold standard_names.
  set (p := if negb (truthy C)
            then (assign_const df0 "clinic_placeholder" (Str "All"),
                  "clinic_placeholder")
            else (df0, get C)).
  assert (Hp : (forall x, In x cols -> In x (columns (fst p))) /\
               (forall x, In x (columns (fst p)) ->
                          In x cols \/ x = "clinic_placeholder") /\
               (snd p = "clinic_placeholder" \/ In (snd p) clinic_aliases)).
  { unfold p. destruct (negb (truthy C)) eqn:E; simpl.
    - split; [intros x; apply assign_const_keeps|].
      split; [apply assign_const_cells|auto].
    - split; [auto|]. split; [auto|]. right.
      destruct C as [c|]; [now apply HC|discriminate]. }
  destruct p as [df1 C']. simpl in Hp. destruct Hp as (Hkeep & Hsub & HC').
  destruct (find_first cols birth_aliases) as [b|] eqn:HB.
  - pose proof (find_first_In _ _ _ HB) as [Hb Hbin].
    assert (Ht : truthy (Some b) = true)
      by (simpl in Hb; intuition (subst; reflexivity)).
    rewrite Ht. simpl is_some. apply contains_In. simpl.
    rewrite map_map. apply in_map_iff. exists b. split; [|now apply Hkeep].
    assert (N1 : String.eqb C' b = false).
    { apply String.eqb_neq. intros ->. simpl in Hb, HC'.
      intuition (subst; discriminate). }
    assert (N2 : String.eqb D b = false).
    { apply String.eqb_neq. intros ->. simpl in Hb, HD.
      intuition (subst; discriminate). }
    assert (N3 : String.eqb Y b = false).
    { apply String.eqb_neq. intros ->. simpl in Hb, HY.
      intuition (subst; discriminate). }
    rewrite N1, N2, N3. now rewrite String.eqb_refl.
  - simpl truthy. cbv iota. simpl is_some. apply contains_false.
    simpl. intros Hin. apply in_map_iff in Hin.
    destruct Hin as (x & Ex & Hx).
    assert (x = "births").
    { destruct (String.eqb C' x); [discriminate|].
      destruct (String.eqb D x); [discriminate|].
      destruct (String.eqb Y x); [discriminate|exact Ex]. }
    subst x. apply Hsub in Hx. destruct Hx as [Hx|Hx]; [|discriminate].
    revert Hx. apply (proj1 (find_first_None cols birth_aliases) HB).
    simpl. auto.
Qed.

End Prepared.

Lemma report_page_births (RT : Runtime) (b : bool) (o : AggOption)
  (flt : list Row) (pre post : list element) :
  (forall e, In e pre \/ In e post ->
             (forall c, e <> altair_chart (comparison_chart c)) /\
             (forall v, e <> metric "Births (aggregated)" v)) ->
  ((exists c, In (altair_chart (comparison_chart c))
                 (pre ++ report_page b o flt ++ post)) <-> b = true) /\
  ((exists v, In (metric "Births (aggregated)" v)
                 (pre ++ report_page b o flt ++ post)) <-> b = true).
Proof.
  intros Hside. unfold report_page. split; split.
  - intros (c & H). apply in_app_or in H. destruct H as [H|H];
      [exfalso; now apply (proj1 (Hside _ (or_introl H)) c)|].
    apply in_app_or in H. destruct H as [H|H];
      [|exfalso; now apply (proj1 (Hside _ (or_intror H)) c)].
    destruct b; [reflexivity|]. simpl in H. intuition discriminate.
  - intros ->. eexists. apply in_or_app. right. apply in_or_app. left.
    simpl. right. left. reflexivity.
  - intros (v & H). apply in_app_or in H. destruct H as [H|H];
      [exfalso; now apply (proj2 (Hside _ (or_introl H)) v)|].
    apply in_app_or in H. destruct H as [H|H];
      [|exfalso; now apply (proj2 (Hside _ (or_intror H)) v)].
    destruct b; [reflexivity|]. simpl in H. intuition discriminate.
  - intros ->. eexists. apply in_or_app. right. apply in_or_app. left.
    simpl. do 5 right. left. reflexivity.
Qed.

(** X12. The births features follow the detection of a births column.
    The canonical frame has a column [births] exactly when a births alias
    is among the normalised column names, and a completed page shows the
    births-versus-deaths chart and the births metric exactly in that case;
    without a births column both are left out, not filled with zeros. *)
Theorem births_features (RT : Runtime) (raw : RawFrame) (ui : Controls)
  out df :
  prepare (inr raw) = (out, inr df) ->
  let detected :=
    is_some (find_first (map normalize_name (header raw)) birth_aliases) in
  Py.contains (columns df) "births" = detected /\
  forall page,
    dashboard df ui = (page, inr tt) ->
    ((exists c, In (altair_chart (comparison_chart c)) page)
     <-> detected = true) /\
    ((exists v, In (metric "Births (aggregated)" v) page)
     <-> detected = true).
Proof.
  intros H detected.
  destruct (prepared_facts raw out df H) as (df0 & Y & D & _ & Hc & HY & HD & Hd).
  assert (Hb : Py.contains (columns df) "births" = detected).
  { rewrite Hd. rewrite <- Hc in HY, HD |- *.
    unfold detected. rewrite <- Hc. now apply standard_names_births. }
  split; [exact Hb|].
  intros page Hpage.
  pose proof (dashboard_outcome RT df ui) as Ho. rewrite Hpage in Ho.
  cbn [snd] in Ho.
  destruct (series_min (map year (to_rows df))) as [lo|] eqn:Hmin;
    [|discriminate].
  destruct (series_min_max _ _ Hmin) as [hi Hmax].
  destruct (getitem df "clinic") as [v| |] eqn:G; try discriminate.
  assert (Hcl : clinic_list df
                = ([], inr (sort String.leb
                              (nodup string_dec (present (map as_label v)))))).
  { unfold clinic_list. now rewrite G. }
  pose proof (dashboard_page RT df ui lo hi _ Hmin Hmax Hcl) as Hp.
  cbv zeta in Hp. rewrite Hpage in Hp. apply (f_equal fst) in Hp.
  cbn [fst] in Hp. subst page. rewrite <- Hb.
  apply report_page_births.
  intros e He. simpl in He.
  split; intros x ->; intuition discriminate.
Qed.

Lemma births_features_witness :
  Py.contains
    (columns (match prepare (RT := stable_runtime) (inr no_clinic) with
              | (_, inr df) => df
              | (_, inl _) => {| columns := []; rows := []; attrs := None |}
              end)) "births" = true.
Proof.
  apply (proj1 (births_features stable_runtime no_clinic untouched [] _
                  eq_refl)).
Defined.

(** ** Missing deaths (app.py 45, 140, 159, 179) *)

Lemma present_app {A} (l1 l2 : list (option A)) :
  present (l1 ++ l2) = present l1 ++ present l2.
Proof. unfold present. apply flat_map_app. Qed.

Lemma present_all_missing (g : list Row) :
  Forall (fun r => deaths r = None) g -> present (map deaths g) = [].
Proof.
  induction 1 as [|r g Hr _ IH]; simpl; [reflexivity|]. now rewrite Hr.
Qed.

(** X13. A record whose deaths did not parse stays in the data but is
    skipped by both reducers: any aggregate over a set of records is the
    same with and without it.  A group in which no record has a deaths
    value still gets its row: 0 under Sum, missing under Mean. *)
Theorem missing_deaths_skipped (RT : Runtime) (f : agg_func)
  (before after : list Row) (r : Row) :
  deaths r = None ->
  agg f (map deaths (before ++ r :: after))
  = agg f (map deaths (before ++ after)) /\
  forall (g : list Row) (c : string),
    g <> [] ->
    Forall (fun x => deaths x = None /\ clinic x = Some c) g ->
    clinic_agg agg_sum g = [(c, Some 0%Q)] /\
    clinic_agg agg_mean g = [(c, None)].
Proof.
  intros Hr. split.
  - assert (E : present (map deaths (before ++ r :: after))
                = present (map deaths (before ++ after))).
    { rewrite !map_app, !present_app. simpl. now rewrite Hr. }
    unfold agg, count. now rewrite E.
  - intros g c Hne Hg.
    assert (Hd : Forall (fun x => deaths x = None) g)
      by (eapply Forall_impl; [|exact Hg]; simpl; tauto).
    assert (Hc : Forall (fun x => clinic x = Some c) g)
      by (eapply Forall_impl; [|exact Hg]; simpl; tauto).
    rewrite !(one_clinic_one_group RT _ g c Hne Hc).
    unfold agg, count. rewrite (present_all_missing g Hd). split; reflexivity.
Qed.

Lemma missing_deaths_skipped_witness :
  agg agg_mean (map deaths ({| year := Some 1854%Z; deaths := None;
                               births := None; clinic := Some "A" |} :: sample))
  = agg agg_mean (map deaths sample).
Proof.
  apply (proj1 (missing_deaths_skipped stable_runtime agg_mean [] sample
                  {| year := Some 1854%Z; deaths := None; births := None;
                     clinic := Some "A" |} eq_refl)).
Defined.

(** ** Clinic rows and the total (app.py 159 and 179) *)

Lemma Qsum_perm (l l' : list Q) : Permutation l l' -> (Qsum l == Qsum l')%Q.
Proof.
  induction 1 as [|x l l' _ IH|x y l|l l' l'' _ IH1 _ IH2].
  - reflexivity.
  - now rewrite !Qsum_cons, IH.
  - rewrite !Qsum_cons. ring.
  - now rewrite IH1.
Qed.

Lemma Qsum_single_label (keys : list string) (c : string) (d : Q) :
  NoDup keys -> In c keys ->
  (Qsum (map (fun k => if String.eqb c k then d else 0) keys) == d)%Q.
Proof.
  induction keys as [|k keys IH]; [intros _ []|].
  intros Hn Hin. inversion Hn as [|? ? Hnot Hn']; subst.
  simpl. rewrite Qsum_cons.
  destruct (String.eqb_spec c k) as [->|Hne].
  - rewrite (Qsum_map_ext _ (fun _ => 0)).
    + rewrite Qsum_zeros. ring.
    + intros a Ha. destruct (String.eqb_spec k a) as [->|_];
        [contradiction|reflexivity].
  - destruct Hin as [->|Hin]; [congruence|].
    rewrite IH by assumption. ring.
Qed.

Lemma sum_by_clinic (keys : list string) (l : list Row) :
  NoDup keys ->
  (forall r, In r l -> exists c, clinic r = Some c /\ In c keys) ->
  (Qsum (map (fun k => Qsum (present (map deaths (filter (has_clinic k) l))))
           keys)
   == Qsum (present (map deaths l)))%Q.
Proof.
  intros Hn. induction l as [|r l IH]; intros Hk.
  - simpl. apply Qsum_zeros.
  - destruct (Hk r) as (c & Hc & Hin); [simpl; auto|].
    rewrite sum_deaths_cons, <- IH by (intros r' Hr'; apply Hk; simpl; auto).
    rewrite <- (Qsum_single_label keys c (deaths_or_zero r) Hn Hin).
    rewrite <- Qsum_map_plus. apply Qsum_map_ext.
    intros k _. simpl. unfold has_clinic at 1. rewrite Hc.
    destruct (String.eqb c k).
    + apply sum_deaths_cons.
    + ring.
Qed.

(** X14. For deaths that are counts, under Sum the bars of the clinic
    chart add up to the summary metric whenever every filtered record
    names a clinic, which is the case as soon as at least one clinic is
    selected: the deaths of the clinic rows then sum to the scalar total,
    in whatever order the sort leaves them. *)
Theorem clinic_rows_add_up (RT : Runtime) (df : list Row)
  (year_range : Z * Z) (selected_clinics : list string) :
  whole_deaths df ->
  selected_clinics <> [] \/ Forall (fun r => clinic r <> None) df ->
  let flt := filtered df year_range selected_clinics in
  (Qsum (map (fun row => or_zero (snd row)) (clinic_agg agg_sum flt))
   == or_zero (total_deaths agg_sum flt))%Q.
Proof.
  intros _ Hsel flt.
  rewrite <- (Qsum_perm _ _ (Permutation_map (fun row => or_zero (snd row))
                               (sort_values_desc_perm RT snd
                                  (deaths_by_clinic agg_sum flt)))).
  unfold deaths_by_clinic, total_deaths. rewrite map_map. simpl.
  apply sum_by_clinic; [apply clinic_keys_NoDup|].
  intros r Hr.
  assert (Hc : exists c, clinic r = Some c).
  { unfold flt in Hr. rewrite filtered_as_filter in Hr.
    apply filter_In in Hr. destruct Hr as [Hdf Hk].
    apply keep_spec in Hk. destruct Hk as [_ [He|Hc]].
    - destruct Hsel as [Hne|Hall]; [contradiction|].
      rewrite Forall_forall in Hall. specialize (Hall r Hdf).
      destruct (clinic r) as [c|]; [eauto|congruence].
    - destruct Hc as (c & Hc & _). eauto. }
  destruct Hc as [c Hc]. exists c. split; [exact Hc|].
  apply clinic_keys_In. eauto.
Qed.

Lemma clinic_rows_add_up_witness :
  (Qsum (map (fun row => or_zero (snd row))
           (clinic_agg (RT := stable_runtime) agg_sum
              (filtered sample (1854, 1855)%Z ["A"; "B"])))
   == or_zero (total_deaths agg_sum (filtered sample (1854, 1855)%Z ["A"; "B"])))%Q.
Proof.
  apply (clinic_rows_add_up stable_runtime sample (1854, 1855)%Z ["A"; "B"]).
  - split; [repeat constructor|]. vm_compute. discriminate.
  - left. discriminate.
Defined.

(** ** The values of the canonical records (app.py 41-47 and 99-108) *)

(** [.astype("Int64")] on one cell, where it succeeds. *)
Definition force_int (x : value) : value :=
  match astype_Int64_cell x with Some y => y | None => NA end.

Lemma cell_nil (i : nat) : cell i [] = NA.
Proof. unfold cell. now destruct i. Qed.

Lemma cell_set_nth_self (g : value -> value) (i : nat) (row : list value) :
  g NA = NA -> cell i (set_nth i (g (cell i row)) row) = g (cell i row).
Proof.
  intros Hg. revert i. induction row as [|x row IH]; intros i.
  - simpl. now rewrite cell_nil, Hg.
  - destruct i as [|i]; [reflexivity|]. simpl. apply (IH i).
Qed.

Lemma set_column_self (g : value -> value) (i : nat) (rs : list (list value)) :
  g NA = NA ->
  map (cell i) (set_column i (map g (map (cell i) rs)) rs)
  = map g (map (cell i) rs).
Proof.
  intros Hg. induction rs as [|r rs IH]; simpl; [reflexivity|].
  now rewrite cell_set_nth_self, IH.
Qed.

Lemma set_column_length (i : nat) (v : list value) (rs : list (list value)) :
  length (set_column i v rs) = length rs.
Proof.
  revert v. induction rs as [|r rs IH]; intros v; [reflexivity|].
  destruct v as [|x v]; simpl; [reflexivity|]. now rewrite IH.
Qed.

Lemma astype_Int64_map (v : list value) o v' :
  astype_Int64 v = (o, inr v') -> v' = map force_int v.
Proof.
  revert o v'. induction v as [|x v IH]; simpl; intros o v' E.
  - apply ret_inr in E. destruct E as [<- _]. reflexivity.
  - unfold force_int at 1.
    destruct (astype_Int64_cell x) as [y|]; [|discriminate].
    apply bind_inr in E. destruct E as (oa & ys & ob & Ea & Eb & ->).
    apply ret_inr in Eb. destruct Eb as [<- _].
    now rewrite (IH _ _ Ea).
Qed.

(** One frame is another with the column at position [i] mapped by [g]. *)
Definition column_mapped (g : value -> value) (i : nat) (d d' : DataFrame)
  : Prop :=
  columns d' = columns d /\
  length (rows d') = length (rows d) /\
  col_at d' i = map g (col_at d i) /\
  forall j, j <> i -> col_at d' j = col_at d j.

Lemma setitem_mapped (g : value -> value) (d : DataFrame) (c : string)
  (i : nat) :
  g NA = NA ->
  index_of c (columns d) = Some i ->
  column_mapped g i d (setitem d c (map g (col_at d i))).
Proof.
  intros Hg Hi. unfold column_mapped, setitem, col_at. rewrite Hi. simpl.
  split; [reflexivity|]. split; [apply set_column_length|].
  split; [now apply set_column_self|].
  intros j Hj. now apply set_column_other.
Qed.

Section Steps.
Context {RT : Runtime}.

(** Year cells: number, then nullable integer. *)
Definition year_cell (x : value) : value := force_int (to_numeric_cell x).

Lemma to_numeric_cell_idem (x : value) :
  to_numeric_cell (to_numeric_cell x) = to_numeric_cell x.
Proof. destruct x; simpl; try reflexivity. now destruct (parse_float s). Qed.

Lemma year_cell_idem (x : value) : year_cell (year_cell x) = year_cell x.
Proof.
  unfold year_cell, force_int.
  destruct x as [s|q|z|]; simpl; try reflexivity.
  - destruct (parse_float s) as [q|]; simpl; [|reflexivity].
    now destruct (is_integral q).
  - now destruct (is_integral q).
Qed.

Lemma float_step (d : DataFrame) (c : string) o d' :
  bind (to_numeric (getitem d c)) (fun v => ret (setitem d c v)) = (o, inr d') ->
  exists i, index_of c (columns d) = Some i /\
            column_mapped to_numeric_cell i d d'.
Proof.
  intros E. apply bind_inr in E. destruct E as (oa & v & ob & Ea & E & ->).
  apply ret_inr in E. destruct E as [<- _].
  destruct (getitem d c) as [w| |] eqn:G; simpl in Ea; try discriminate.
  apply ret_inr in Ea. destruct Ea as [<- _].
  apply getitem_Series in G. destruct G as (i & Hi & -> & _).
  exists i. split; [exact Hi|]. now apply setitem_mapped.
Qed.

Lemma int_step (d : DataFrame) (c : string) o d' :
  bind (to_numeric (getitem d c))
       (fun v => bind (astype_Int64 v) (fun v => ret (setitem d c v)))
  = (o, inr d') ->
  exists i, index_of c (columns d) = Some i /\
            column_mapped year_cell i d d'.
Proof.
  intros E. apply bind_inr in E. destruct E as (oa & v & ob & Ea & E & ->).
  apply bind_inr in E. destruct E as (oc & v' & od & Eb & E & ->).
  apply ret_inr in E. destruct E as [<- _].
  destruct (getitem d c) as [w| |] eqn:G; simpl in Ea; try discriminate.
  apply ret_inr in Ea. destruct Ea as [<- _].
  apply astype_Int64_map in Eb. subst v'.
  apply getitem_Series in G. destruct G as (i & Hi & -> & _).
  exists i. split; [exact Hi|]. rewrite map_map.
  apply (setitem_mapped year_cell d c i); [reflexivity|exact Hi].
Qed.

End Steps.

Lemma three_steps (g1 g2 g3 : value -> value) (d0 d1 d2 d3 : DataFrame)
  (i1 i2 : nat) (o3 : option nat) :
  column_mapped g1 i1 d0 d1 ->
  column_mapped g2 i2 d1 d2 ->
  match o3 with
  | Some i3 => column_mapped g3 i3 d2 d3 /\ i3 <> i1 /\ i3 <> i2
  | None => d3 = d2
  end ->
  i1 <> i2 ->
  columns d3 = columns d0 /\
  length (rows d3) = length (rows d0) /\
  col_at d3 i1 = map g1 (col_at d0 i1) /\
  col_at d3 i2 = map g2 (col_at d0 i2) /\
  match o3 with
  | Some i3 => col_at d3 i3 = map g3 (col_at d0 i3)
  | None => True
  end.
Proof.
  intros (C1 & L1 & M1 & O1) (C2 & L2 & M2 & O2) H3 Hne.
  destruct o3 as [i3|].
  - destruct H3 as ((C3 & L3 & M3 & O3) & N1 & N2).
    split; [congruence|]. split; [congruence|].
    split; [rewrite (O3 i1), (O2 i1), M1; auto|].
    split; [rewrite (O3 i2), M2, (O1 i2); auto|].
    rewrite M3, (O2 i3), (O1 i3); auto.
  - subst d3. split; [congruence|]. split; [congruence|].
    split; [rewrite (O2 i1), M1; auto|].
    split; [rewrite M2, (O1 i2); auto|exact I].
Qed.

Lemma alias_truthy (c : string) :
  In c (year_aliases ++ death_aliases ++ birth_aliases ++ clinic_aliases) ->
  truthy (Some c) = true.
Proof. simpl. intuition (subst; reflexivity). Qed.

Lemma aliases_apart (Y D : string) :
  In Y year_aliases -> In D death_aliases ->
  Y <> D /\
  (forall b, In b birth_aliases -> b <> Y /\ b <> D) /\
  (forall c, c = "clinic_placeholder" \/ In c clinic_aliases ->
             c <> Y /\ c <> D /\ forall b, In b birth_aliases -> b <> c).
Proof.
  intros HY HD. split; [|split].
  - simpl in HY, HD. intuition (subst; discriminate).
  - intros b Hb. simpl in HY, HD, Hb. intuition (subst; discriminate).
  - intros c Hc. split; [|split].
    + simpl in HY, Hc. intuition (subst; discriminate).
    + simpl in HD, Hc. intuition (subst; discriminate).
    + intros b Hb. simpl in Hb, Hc. intuition (subst; discriminate).
Qed.

Lemma index_of_distinct (cols : list string) (a b : string) (i j : nat) :
  index_of a cols = Some i -> index_of b cols = Some j -> a <> b -> i <> j.
Proof.
  intros Ha Hb Hne ->. apply index_of_nth_error in Ha, Hb. congruence.
Qed.

Lemma of_raw_col (raw : RawFrame) (i : nat) :
  col_at (of_raw raw) i
  = map (fun line => match nth i line None with
                     | Some s => Str s
                     | None => NA
                     end) (lines raw).
Proof.
  unfold col_at, of_raw. simpl. rewrite map_map. apply map_ext.
  intros line. unfold cell.
  change NA with ((fun c => match c with Some s => Str s | None => NA end)
                    (@None string)).
  now rewrite map_nth.
Qed.

Section LoadValues.
Context {RT : Runtime}.

(** What [load_data] has written into the year, deaths and births columns
    when it returns. *)
Lemma load_data_values (raw : RawFrame) out df (Y D : string) :
  let cols := map normalize_name (header raw) in
  load_data (inr raw) = (out, inr df) ->
  find_first cols year_aliases = Some Y ->
  find_first cols death_aliases = Some D ->
  exists iy id,
    index_of Y cols = Some iy /\
    index_of D cols = Some id /\
    length (rows df) = length (lines raw) /\
    col_at df iy = map year_cell (col_at (of_raw raw) iy) /\
    col_at df id = map to_numeric_cell (col_at (of_raw raw) id) /\
    match find_first cols birth_aliases with
    | Some b => exists ib, index_of b cols = Some ib /\
                           col_at df ib
                           = map to_numeric_cell (col_at (of_raw raw) ib)
    | None => True
    end.
Proof.
  intros cols H HY HD. unfold load_data in H.
  apply bind_inr in H. destruct H as (o1 & d0 & o2 & H0 & H & ->).
  simpl in H0. apply ret_inr in H0. destruct H0 as [<- ->].
  apply bind_inr in H. destruct H as (o3 & d1 & o4 & H1 & H & ->).
  apply bind_inr in H. destruct H as (o5 & d2 & o6 & H2 & H & ->).
  apply bind_inr in H. destruct H as (o7 & d3 & o8 & H3 & H & ->).
  apply ret_inr in H. destruct H as [<- _].
  set (d0 := normalize_columns (of_raw raw)) in *.
  change (columns d0) with cols in H1, H2, H3.
  pose proof (find_first_In _ _ _ HY) as [HYa _].
  pose proof (find_first_In _ _ _ HD) as [HDa _].
  destruct (aliases_apart Y D HYa HDa) as (NYD & Nb & _).
  rewrite HY in H1. rewrite HD in H2.
  rewrite alias_truthy in H1
    by (apply in_or_app; auto).
  rewrite alias_truthy in H2
    by (apply in_or_app; right; apply in_or_app; auto).
  apply int_step in H1. destruct H1 as (iy & Hiy & M1).
  apply float_step in H2. destruct H2 as (id & Hid & M2).
  assert (C1 : columns d1 = cols) by apply M1.
  rewrite C1 in Hid. change (columns d0) with cols in Hiy.
  assert (Hne : iy <> id) by (eapply index_of_distinct; eauto).
  exists iy, id. split; [exact Hiy|]. split; [exact Hid|].
  assert (R0 : forall i, col_at d0 i = col_at (of_raw raw) i) by reflexivity.
  assert (L0 : length (rows d0) = length (lines raw)).
  { unfold d0, normalize_columns, of_raw. simpl. apply length_map. }
  destruct (find_first cols birth_aliases) as [b|] eqn:HB.
  - pose proof (find_first_In _ _ _ HB) as [HBa _].
    rewrite alias_truthy in H3
      by (apply in_or_app; right; apply in_or_app; right;
          apply in_or_app; auto).
    apply float_step in H3. destruct H3 as (ib & Hib & M3).
    assert (C2 : columns d2 = cols) by (destruct M2 as [-> _]; exact C1).
    rewrite C2 in Hib. destruct (Nb b HBa) as [NbY NbD].
    assert (N3 : ib <> iy /\ ib <> id)
      by (split; eapply index_of_distinct; eauto).
    destruct (three_steps year_cell to_numeric_cell to_numeric_cell
                d0 d1 d2 d3 iy id (Some ib) M1 M2 (conj M3 N3) Hne)
      as (_ & L & A1 & A2 & A3).
    unfold col_at at 1 2 3. simpl rows. fold (col_at d3 iy) (col_at d3 id).
    rewrite <- !R0. split; [congruence|]. split; [exact A1|].
    split; [exact A2|].
    exists ib. split; [exact Hib|]. rewrite <- R0. exact A3.
  - apply ret_inr in H3. destruct H3 as [<- _].
    destruct (three_steps year_cell to_numeric_cell to_numeric_cell
                d0 d1 d2 d2 iy id None M1 M2 eq_refl Hne)
      as (_ & L & A1 & A2 & _).
    unfold col_at at 1 2. simpl rows. fold (col_at d2 iy) (col_at d2 id).
    rewrite <- !R0. split; [congruence|]. split; [exact A1|].
    split; [exact A2|exact I].
Qed.

End LoadValues.

Lemma index_of_app (c : string) (cols extra : list string) :
  In c cols -> index_of c (cols ++ extra) = index_of c cols.
Proof.
  induction cols as [|x cols IH]; simpl; [tauto|].
  intros H. destruct (String.eqb_spec x c) as [->|Hne]; [reflexivity|].
  destruct H as [H|H]; [contradiction|]. now rewrite IH.
Qed.

Lemma index_of_None (c : string) (cols : list string) :
  ~ In c cols -> index_of c cols = None.
Proof.
  induction cols as [|x cols IH]; simpl; [reflexivity|].
  intros H. destruct (String.eqb_spec x c) as [->|Hne]; [tauto|].
  rewrite IH by tauto. reflexivity.
Qed.

Lemma cell_tl (i : nat) (row : list value) :
  cell i (tl row) = cell (S i) row.
Proof. destruct row; [now rewrite !cell_nil|reflexivity]. Qed.

Lemma cell_hd (row : list value) : hd NA row = cell O row.
Proof. now destruct row. Qed.

Lemma overwrite_cell_other (cols : list string) (c x : string) (v : value) :
  forall i row, nth_error cols i = Some x -> x <> c ->
                cell i (overwrite cols c v row) = cell i row.
Proof.
  induction cols as [|y cols IH]; intros [|i] row H Hne;
    simpl in H; try discriminate.
  - inversion H; subst. simpl.
    destruct (String.eqb_spec x c); [contradiction|]. apply cell_hd.
  - simpl. change (cell i (overwrite cols c v (tl row)) = cell (S i) row).
    rewrite (IH i (tl row) H Hne). apply cell_tl.
Qed.

Lemma fit_cell (cols : list string) :
  forall i row, (i < length cols)%nat -> cell i (fit cols row) = cell i row.
Proof.
  induction cols as [|y cols IH]; intros i row H; simpl in H; [lia|].
  destruct i as [|i]; simpl.
  - apply cell_hd.
  - change (cell i (fit cols (tl row)) = cell (S i) row).
    rewrite IH by lia. apply cell_tl.
Qed.

(** Adding the placeholder column leaves the other columns where and as
    they are. *)
Lemma assign_const_others (df : DataFrame) (c : string) (v : value) :
  length (rows (assign_const df c v)) = length (rows df) /\
  (forall x, In x (columns df) ->
             index_of x (columns (assign_const df c v))
             = index_of x (columns df)) /\
  forall j x, nth_error (columns df) j = Some x -> x <> c ->
              col_at (assign_const df c v) j = col_at df j.
Proof.
  unfold assign_const, col_at.
  destruct (Py.contains (columns df) c); simpl.
  - split; [apply length_map|]. split; [reflexivity|].
    intros j x Hj Hne. rewrite map_map. apply map_ext. intros row.
    now apply (overwrite_cell_other _ _ x).
  - split; [apply length_map|]. split; [intros x; apply index_of_app|].
    intros j x Hj Hne. rewrite map_map. apply map_ext. intros row.
    assert (Hlt : (j < length (columns df))%nat)
      by (apply nth_error_Some; congruence).
    unfold cell. rewrite app_nth1 by (now rewrite fit_length).
    now apply fit_cell.
Qed.

Lemma first_alias (cols rest : list string) (a c : string) :
  find_first cols (a :: rest) = Some c -> In a cols -> c = a.
Proof.
  simpl. intros H Ha. apply contains_In in Ha. rewrite Ha in H. congruence.
Qed.

(** Where the renamings of app.py 100-102 put [year], [deaths] and
    [births]. *)
Lemma rename_numeric_index (cols : list string) (Y D C : string)
  (B : option string) :
  In Y year_aliases -> In D death_aliases ->
  (C = "clinic_placeholder" \/ In C clinic_aliases) ->
  (forall b, B = Some b -> In b birth_aliases) ->
  (In "year" cols -> Y = "year") ->
  (In "deaths" cols -> D = "deaths") ->
  (forall b, B = Some b -> In "births" cols -> b = "births") ->
  let f1 := fun c => match lookup (dict [(Y, "year"); (D, "deaths");
                                         (C, "clinic")]) c with
                     | Some c' => c'
                     | None => c
                     end in
  let f2 := fun c => match lookup (dict [(get B, "births")]) c with
                     | Some c' => c'
                     | None => c
                     end in
  let renamed := if truthy B then map f2 (map f1 cols) else map f1 cols in
  index_of "year" renamed = index_of Y cols /\
  index_of "deaths" renamed = index_of D cols /\
  forall b, B = Some b -> index_of "births" renamed = index_of b cols.
Proof.
  intros HY HD HC HB FY FD FB f1 f2 renamed.
  destruct (aliases_apart Y D HY HD) as (NYD & Nb & Nc).
  destruct (Nc C HC) as (NCY & NCD & NCb).
  assert (E1 : forall x, In x cols -> (f1 x = "year" <-> x = Y)).
  { intros x Hx. unfold f1. simpl.
    destruct (String.eqb_spec C x) as [->|N1];
      [split; [discriminate|congruence]|].
    destruct (String.eqb_spec D x) as [->|N2];
      [split; [discriminate|congruence]|].
    destruct (String.eqb_spec Y x) as [->|N3]; [tauto|].
    split; [|congruence]. intros ->. exfalso. apply N3. now apply FY. }
  assert (E2 : forall x, In x cols -> (f1 x = "deaths" <-> x = D)).
  { intros x Hx. unfold f1. simpl.
    destruct (String.eqb_spec C x) as [->|N1];
      [split; [discriminate|congruence]|].
    destruct (String.eqb_spec D x) as [->|N2]; [tauto|].
    destruct (String.eqb_spec Y x) as [->|N3];
      [split; [discriminate|congruence]|].
    split; [|congruence]. intros ->. exfalso. apply N2. now apply FD. }
  unfold renamed. destruct B as [b|].
  - specialize (HB b eq_refl). specialize (FB b eq_refl).
    destruct (Nb b HB) as [NbY NbD]. specialize (NCb b HB).
    rewrite alias_truthy
      by (apply in_or_app; right; apply in_or_app; right;
          apply in_or_app; auto).
    assert (Hb : b <> "year" /\ b <> "deaths" /\ b <> "clinic")
      by (simpl in HB; intuition (subst; discriminate)).
    destruct Hb as (Hb1 & Hb2 & Hb3).
    rewrite !map_map. split; [|split].
    + apply index_of_map. intros x Hx. rewrite <- (E1 x Hx).
      unfold f2. simpl. destruct (String.eqb_spec b (f1 x)) as [E|N];
        [|tauto]. split; [discriminate|]. intros E'. congruence.
    + apply index_of_map. intros x Hx. rewrite <- (E2 x Hx).
      unfold f2. simpl. destruct (String.eqb_spec b (f1 x)) as [E|N];
        [|tauto]. split; [discriminate|]. intros E'. congruence.
    + intros b' Eb. inversion Eb; subst b'. apply index_of_map.
      intros x Hx. unfold f2, f1. simpl.
      destruct (String.eqb_spec C x) as [->|N1].
      { destruct (String.eqb_spec b "clinic"); [contradiction|].
        split; [discriminate|congruence]. }
      destruct (String.eqb_spec D x) as [->|N2].
      { destruct (String.eqb_spec b "deaths"); [contradiction|].
        split; [discriminate|congruence]. }
      destruct (String.eqb_spec Y x) as [->|N3].
      { destruct (String.eqb_spec b "year"); [contradiction|].
        split; [discriminate|congruence]. }
      destruct (String.eqb_spec b x) as [->|N4]; [tauto|].
      split; [|congruence]. intros ->. exfalso. apply N4. now apply FB.
  - simpl truthy. cbv iota. split; [|split].
    + now apply index_of_map.
    + now apply index_of_map.
    + intros b Eb. discriminate.
Qed.

Lemma to_rows_fields (df : DataFrame) :
  length (to_rows df) = length (rows df) /\
  (forall i, index_of "year" (columns df) = Some i ->
             map year (to_rows df) = map as_int (col_at df i)) /\
  (forall i, index_of "deaths" (columns df) = Some i ->
             map deaths (to_rows df) = map as_float (col_at df i)) /\
  (forall i, index_of "births" (columns df) = Some i ->
             map births (to_rows df) = map as_float (col_at df i)) /\
  (index_of "births" (columns df) = None ->
   Forall (fun r => births r = None) (to_rows df)).
Proof.
  unfold to_rows, col_at, column. split; [apply length_map|].
  split; [|split; [|split]].
  - intros i H. rewrite !map_map. simpl. now rewrite H.
  - intros i H. rewrite !map_map. simpl. now rewrite H.
  - intros i H. rewrite !map_map. simpl. now rewrite H.
  - intros H. apply Forall_forall. intros r Hr.
    apply in_map_iff in Hr. destruct Hr as (row & <- & _). simpl.
    now rewrite H.
Qed.

Section CanonicalValues.
Context {RT : Runtime}.

Lemma float_write (d : DataFrame) (c : string) o v :
  to_numeric (getitem d c) = (o, inr v) ->
  exists i, index_of c (columns d) = Some i /\
            column_mapped to_numeric_cell i d (setitem d c v).
Proof.
  intros Ea.
  destruct (getitem d c) as [w| |] eqn:G; simpl in Ea; try discriminate.
  apply ret_inr in Ea. destruct Ea as [<- _].
  apply getitem_Series in G. destruct G as (i & Hi & -> & _).
  exists i. split; [exact Hi|]. now apply setitem_mapped.
Qed.

Lemma int_write (d : DataFrame) (c : string) o o' v v' :
  to_numeric (getitem d c) = (o, inr v) ->
  astype_Int64 v = (o', inr v') ->
  exists i, index_of c (columns d) = Some i /\
            column_mapped year_cell i d (setitem d c v').
Proof.
  intros Ea Eb.
  destruct (getitem d c) as [w| |] eqn:G; simpl in Ea; try discriminate.
  apply ret_inr in Ea. destruct Ea as [<- _].
  apply astype_Int64_map in Eb. subst v'.
  apply getitem_Series in G. destruct G as (i & Hi & -> & _).
  exists i. split; [exact Hi|]. rewrite map_map.
  apply (setitem_mapped year_cell d c i); [reflexivity|exact Hi].
Qed.

(** What "ensure types" has written when it returns. *)
Lemma ensure_types_values (s : DataFrame) o df :
  ensure_types s = (o, inr df) ->
  exists iy id,
    index_of "year" (columns s) = Some iy /\
    index_of "deaths" (columns s) = Some id /\
    columns df = columns s /\
    length (rows df) = length (rows s) /\
    col_at df iy = map year_cell (col_at s iy) /\
    col_at df id = map to_numeric_cell (col_at s id) /\
    forall ib, index_of "births" (columns s) = Some ib ->
               col_at df ib = map to_numeric_cell (col_at s ib).
Proof.
  unfold ensure_types. intros H.
  apply bind_inr in H. destruct H as (o1 & v1 & o2 & H1 & H & ->).
  apply bind_inr in H. destruct H as (o3 & v2 & o4 & H2 & H & ->).
  apply bind_inr in H. destruct H as (o5 & v3 & o6 & H3 & H & ->).
  destruct (int_write _ _ _ _ _ _ H1 H2) as (iy & Hiy & M1).
  set (s1 := setitem s "year" v2) in *.
  destruct (float_write _ _ _ _ H3) as (id & Hid & M2).
  set (s2 := setitem s1 "deaths" v3) in *.
  assert (C1 : columns s1 = columns s) by apply M1.
  assert (C2 : columns s2 = columns s) by (destruct M2 as [-> _]; exact C1).
  rewrite C1 in Hid.
  assert (Hne : iy <> id)
    by (eapply index_of_distinct; eauto; discriminate).
  exists iy, id. split; [exact Hiy|]. split; [exact Hid|].
  destruct (Py.contains (columns s2) "births") eqn:Eb.
  - apply bind_inr in H. destruct H as (o7 & v4 & o8 & H4 & H & ->).
    apply ret_inr in H. destruct H as [<- _].
    destruct (float_write _ _ _ _ H4) as (ib & Hib & M3).
    rewrite C2 in Hib.
    assert (N3 : ib <> iy /\ ib <> id)
      by (split; eapply index_of_distinct; eauto; discriminate).
    destruct (three_steps year_cell to_numeric_cell to_numeric_cell
                s s1 s2 _ iy id (Some ib) M1 M2 (conj M3 N3) Hne)
      as (C & L & A1 & A2 & A3).
    split; [exact C|]. split; [exact L|]. split; [exact A1|].
    split; [exact A2|]. intros ib' Hib'. congruence.
  - apply ret_inr in H. destruct H as [<- _].
    destruct (three_steps year_cell to_numeric_cell to_numeric_cell
                s s1 s2 s2 iy id None M1 M2 eq_refl Hne)
      as (C & L & A1 & A2 & _).
    split; [exact C|]. split; [exact L|]. split; [exact A1|].
    split; [exact A2|]. intros ib Hib. exfalso.
    apply contains_false in Eb. apply Eb. rewrite C2.
    apply index_of_nth_error in Hib. now apply nth_error_In in Hib.
Qed.

(** Where the standard names end up, and that the renaming moves no cell. *)
Lemma standard_names_positions (df0 : DataFrame) (Y D : string) :
  let cols := columns df0 in
  let B := find_first cols birth_aliases in
  let s := standard_names df0 Y D B (find_first cols clinic_aliases) in
  find_first cols year_aliases = Some Y ->
  find_first cols death_aliases = Some D ->
  length (rows s) = length (rows df0) /\
  index_of "year" (columns s) = index_of Y cols /\
  index_of "deaths" (columns s) = index_of D cols /\
  (forall b, B = Some b -> index_of "births" (columns s) = index_of b cols) /\
  forall j x, nth_error cols j = Some x -> x <> "clinic_placeholder" ->
              col_at s j = col_at df0 j.
Proof.
  intros cols B s HY HD.
  pose proof (find_first_In _ _ _ HY) as [HYa HYc].
  pose proof (find_first_In _ _ _ HD) as [HDa HDc].
  set (C := find_first cols clinic_aliases) in *.
  set (p := if negb (truthy C)
            then (assign_const df0 "clinic_placeholder" (Str "All"),
                  "clinic_placeholder")
            else (df0, get C)).
  assert (Hp : length (rows (fst p)) = length (rows df0) /\
               (forall x, In x cols ->
                          index_of x (columns (fst p)) = index_of x cols) /\
               (forall j x, nth_error cols j = Some x ->
                            x <> "clinic_placeholder" ->
                            col_at (fst p) j = col_at df0 j) /\
               (forall x, In x (columns (fst p)) ->
                          In x cols \/ x = "clinic_placeholder") /\
               (snd p = "clinic_placeholder" \/ In (snd p) clinic_aliases)).
  { unfold p. destruct (negb (truthy C)) eqn:E; simpl.
    - destruct (assign_const_others df0 "clinic_placeholder" (Str "All"))
        as (L & I & O).
      split; [exact L|]. split; [exact I|]. split; [exact O|].
      split; [apply assign_const_cells|auto].
    - split; [reflexivity|]. split; [reflexivity|]. split; [reflexivity|].
      split; [auto|]. right.
      destruct C as [c|] eqn:EC; [|discriminate].
      now apply (find_first_In cols clinic_aliases c). }
  assert (Hs : s = let '(df1, C') := p in
                   let df := rename df1 (dict [(Y, "year"); (D, "deaths");
                                               (C', "clinic")]) in
                   if truthy B
                   then rename df (dict [(get B, "births")])
                   else df) by reflexivity.
  destruct p as [df1 C']. simpl in Hp.
  destruct Hp as (L & I & O & Hsub & HC').
  assert (HB : forall b, B = Some b -> In b birth_aliases)
    by (intros b Hb; now apply (find_first_In cols birth_aliases b)).
  assert (notcp : forall a, In a (columns df1) -> a <> "clinic_placeholder" ->
                            In a cols).
  { intros a Ha Hn. apply Hsub in Ha. tauto. }
  destruct (rename_numeric_index (columns df1) Y D C' B HYa HDa HC' HB)
    as (R1 & R2 & R3).
  { intros H. apply (first_alias cols _ _ _ HY). apply notcp; [exact H|].
    discriminate. }
  { intros H. apply (first_alias cols _ _ _ HD). apply notcp; [exact H|].
    discriminate. }
  { intros b Hb H. apply (first_alias cols _ "births" b Hb).
    apply notcp; [exact H|]. discriminate. }
  assert (Hcols : columns s
                  = if truthy B
                    then map (fun c => match lookup
                                               (dict [(get B, "births")]) c with
                                       | Some c' => c'
                                       | None => c
                                       end)
                           (map (fun c => match lookup
                                                 (dict [(Y, "year");
                                                        (D, "deaths");
                                                        (C', "clinic")]) c with
                                          | Some c' => c'
                                          | None => c
                                          end) (columns df1))
                    else map (fun c => match lookup
                                               (dict [(Y, "year");
                                                      (D, "deaths");
                                                      (C', "clinic")]) c with
                                       | Some c' => c'
                                       | None => c
                                       end) (columns df1)).
  { rewrite Hs. destruct (truthy B); reflexivity. }
  assert (Hrows : rows s = rows df1).
  { rewrite Hs. destruct (truthy B); reflexivity. }
  rewrite Hcols. split; [now rewrite Hrows|].
  split; [rewrite R1; now apply I|].
  split; [rewrite R2; now apply I|].
  split.
  - intros b Hb. rewrite (R3 b Hb). apply I.
    now apply (find_first_In cols birth_aliases b).
  - intros j x Hj Hx. unfold col_at. rewrite Hrows. now apply (O j x).
Qed.

End CanonicalValues.

(** The number in a source cell: what [pd.to_numeric(errors="coerce")]
    makes of it. *)
Definition parsed_number {RT : Runtime} (o : option string) : option Q :=
  match o with
  | Some s => parse_float s
  | None => None
  end.

(** The year in a source cell, for a cell that passed the integer cast. *)
Definition parsed_year {RT : Runtime} (o : option string) : option Z :=
  match parsed_number o with
  | Some q => if is_integral q then Some (Qfloor q) else None
  | None => None
  end.

Definition lift_cell (o : option string) : value :=
  match o with Some s => Str s | None => NA end.

Lemma as_int_year_cell (RT : Runtime) (o : option string) :
  as_int (year_cell (lift_cell o)) = parsed_year o.
Proof.
  unfold parsed_year, parsed_number, year_cell, force_int.
  destruct o as [s|]; simpl; [|reflexivity].
  destruct (parse_float s) as [q|]; simpl; [|reflexivity].
  now destruct (is_integral q).
Qed.

Lemma as_float_numeric_cell (RT : Runtime) (o : option string) :
  as_float (to_numeric_cell (lift_cell o)) = parsed_number o.
Proof.
  unfold parsed_number. destruct o as [s|]; simpl; [|reflexivity].
  now destruct (parse_float s).
Qed.

(** X15. The canonical records are the source rows, one for one and in
    order, with the detected columns coerced cell by cell: the year is the
    integer the year cell parses to, the deaths (and the births, when a
    births column was detected) the number the cell parses to, and a cell
    that is empty or does not parse gives a missing value without the row
    being dropped.  Without a births column every record's births is
    missing. *)
Theorem canonical_values (RT : Runtime) (raw : RawFrame) out df :
  prepare (inr raw) = (out, inr df) ->
  let cols := map normalize_name (header raw) in
  exists Y D iy id,
    find_first cols year_aliases = Some Y /\ index_of Y cols = Some iy /\
    find_first cols death_aliases = Some D /\ index_of D cols = Some id /\
    length (to_rows df) = length (lines raw) /\
    map year (to_rows df)
    = map (fun line => parsed_year (nth iy line None)) (lines raw) /\
    map deaths (to_rows df)
    = map (fun line => parsed_number (nth id line None)) (lines raw) /\
    match find_first cols birth_aliases with
    | Some b =>
        exists ib,
          index_of b cols = Some ib /\
          map births (to_rows df)
          = map (fun line => parsed_number (nth ib line None)) (lines raw)
    | None => Forall (fun r => births r = None) (to_rows df)
    end.
Proof.
  intros H cols. apply prepare_inv in H.
  destruct H as (df0 & Y & D & Hl & HY & HD & Hcan). fold cols in HY, HD, Hcan.
  pose proof (load_data_inv _ _ _ Hl) as (_ & Hcols & _ & _). fold cols in Hcols.
  destruct (load_data_values raw [] df0 Y D Hl HY HD)
    as (iy & id & Hiy & Hid & L0 & V1 & V2 & V3).
  fold cols in Hiy, Hid, V3.
  unfold canonical in Hcan. rewrite <- Hcols in Hcan, HY, HD.
  destruct (standard_names_positions df0 Y D HY HD) as (L1 & P1 & P2 & P3 & O).
  rewrite Hcols in L1, P1, P2, P3, O, HY, HD, Hcan.
  set (s := standard_names df0 Y D (find_first cols birth_aliases)
              (find_first cols clinic_aliases)) in *.
  destruct (ensure_types_values s _ df Hcan)
    as (iy' & id' & Hiy' & Hid' & C & L2 & W1 & W2 & W3).
  rewrite P1, Hiy in Hiy'. inversion Hiy'; subst iy'. clear Hiy'.
  rewrite P2, Hid in Hid'. inversion Hid'; subst id'. clear Hid'.
  pose proof (find_first_In _ _ _ HY) as [HYa _].
  pose proof (find_first_In _ _ _ HD) as [HDa _].
  destruct (aliases_apart Y D HYa HDa) as (_ & Nb & Nc).
  destruct (Nc "clinic_placeholder" (or_introl eq_refl)) as (NY & ND & Ncb).
  destruct (to_rows_fields df) as (T0 & T1 & T2 & T3 & T4).
  exists Y, D, iy, id.
  split; [exact HY|]. split; [exact Hiy|]. split; [exact HD|].
  split; [exact Hid|]. split; [rewrite T0, L2, L1; exact L0|].
  split; [|split].
  - rewrite (T1 iy) by (rewrite C, P1; exact Hiy).
    rewrite W1, (O iy Y) by (try apply index_of_nth_error; auto).
    rewrite V1, of_raw_col, !map_map. apply map_ext. intros line.
    rewrite year_cell_idem. apply (as_int_year_cell RT).
  - rewrite (T2 id) by (rewrite C, P2; exact Hid).
    rewrite W2, (O id D) by (try apply index_of_nth_error; auto).
    rewrite V2, of_raw_col, !map_map. apply map_ext. intros line.
    rewrite to_numeric_cell_idem. apply (as_float_numeric_cell RT).
  - destruct (find_first cols birth_aliases) as [b|] eqn:HB.
    + destruct V3 as (ib & Hib & V3). exists ib. split; [exact Hib|].
      pose proof (find_first_In _ _ _ HB) as [HBa _].
      assert (Hs : index_of "births" (columns s) = Some ib)
        by (rewrite (P3 b eq_refl); exact Hib).
      rewrite (T3 ib) by (rewrite C; exact Hs).
      rewrite (W3 ib Hs), (O ib b);
        [|now apply index_of_nth_error|now apply Ncb].
      rewrite V3, of_raw_col, !map_map. apply map_ext. intros line.
      rewrite to_numeric_cell_idem. apply (as_float_numeric_cell RT).
    + apply T4. apply index_of_None. apply contains_false.
      rewrite C. unfold s. rewrite <- HB.
      rewrite <- Hcols in HY, HD |- *.
      rewrite (standard_names_births df0 Y D HY HD).
      rewrite Hcols, HB. reflexivity.
Qed.

Lemma canonical_values_witness :
  map year (canonical_rows (RT := stable_runtime) (inr unparseable_years))
  = [None] /\
  map deaths (canonical_rows (RT := stable_runtime) (inr unparseable_years))
  = [Some (10 # 1)].
Proof.
  destruct (canonical_values stable_runtime unparseable_years [] _ eq_refl)
    as (Y & D & iy & id & HY & Hiy & HD & Hid & _ & Ey & Ed & _).
  vm_compute in HY. inversion HY; subst Y.
  vm_compute in HD. inversion HD; subst D.
  vm_compute in Hiy. inversion Hiy; subst iy.
  vm_compute in Hid. inversion Hid; subst id.
  split; [exact Ey|exact Ed].
Defined.

(** ** The placeholder clinic, row for row *)

(** Normalising keeps every row of the file. *)
Lemma canonical_length (RT : Runtime) (raw : RawFrame) out df :
  prepare (inr raw) = (out, inr df) ->
  length (to_rows df) = length (lines raw).
Proof.
  intros H. apply prepare_inv in H.
  destruct H as (df0 & Y & D & Hl & HY & HD & Hcan).
  set (cols := map normalize_name (header raw)) in *.
  pose proof (load_data_inv _ _ _ Hl) as (_ & Hcols & _ & _). fold cols in Hcols.
  destruct (load_data_values raw [] df0 Y D Hl HY HD)
    as (iy & id & _ & _ & L0 & _).
  unfold canonical in Hcan. rewrite <- Hcols in Hcan, HY, HD.
  destruct (standard_names_positions df0 Y D HY HD) as (L1 & _).
  destruct (ensure_types_values _ _ df Hcan)
    as (iy' & id' & _ & _ & _ & L2 & _).
  destruct (to_rows_fields df) as (T0 & _).
  rewrite T0, L2, L1. exact L0.
Qed.

Lemma constant_field {A B C} (f : A -> B) (b : B) (l : list A) (l' : list C) :
  Forall (fun x => f x = b) l -> length l = length l' ->
  map f l = map (fun _ => b) l'.
Proof.
  intros H. revert l'. induction H as [|x l Hx _ IH]; intros [|y l'] E;
    simpl in *; try discriminate; [reflexivity|].
  rewrite Hx, (IH l') by congruence. reflexivity.
Qed.

(** C7. For a source file with no clinic-like column the canonical
    dataset has one record per line of the file and each of them has
    clinic "All"; the clinic aggregation of any non-empty filtered set is
    exactly one row, for the group "All", carrying the reduced deaths of
    the whole filtered set. *)
Theorem placeholder_clinic (RT : Runtime) (raw : RawFrame) out df :
  prepare (inr raw) = (out, inr df) ->
  find_first (map normalize_name (header raw)) clinic_aliases = None ->
  map clinic (to_rows df) = map (fun _ => Some "All") (lines raw) /\
  forall (f : agg_func) (year_range : Z * Z) (selected_clinics : list string),
    let flt := filtered (to_rows df) year_range selected_clinics in
    flt <> [] -> clinic_agg f flt = [("All", agg f (map deaths flt))].
Proof.
  intros H Hnone.
  pose proof (placeholder_rows raw out df H Hnone) as Hall.
  split.
  - apply constant_field; [exact Hall|]. now apply (canonical_length RT raw out).
  - intros f year_range selected_clinics flt Hne.
    apply one_clinic_one_group; [exact Hne|].
    now apply filtered_Forall.
Qed.

(** On the file without a clinic column, with the slider on 1841 and the
    one option "All" selected: both records are on the page and the
    clinic chart has the single bar "All" with their 20.5 deaths. *)
Lemma placeholder_clinic_witness :
  map clinic (canonical_rows (RT := stable_runtime) (inr no_clinic))
  = [Some "All"; Some "All"] /\
  clinic_agg (RT := stable_runtime) agg_sum
    (filtered (canonical_rows (RT := stable_runtime) (inr no_clinic))
       (1841, 1841)%Z ["All"])
  = [("All", Some (205 # 10))].
Proof.
  destruct (placeholder_clinic stable_runtime no_clinic [] _ eq_refl eq_refl)
    as [Hrows Hagg].
  split; [exact Hrows|].
  apply (Hagg agg_sum (1841, 1841)%Z ["All"]).
  vm_compute. discriminate.
Defined.
